(** * HDMS admin: billing, invoices, hospitals, users and support tickets

  A shallow embedding of the business logic of the hospital diagnosis
  management dashboard, with the properties its specification states.

  Conventions used throughout:
  - a database table is the list of its rows, in storage order;
  - a nullable column or an absent JSON field is an [option];
  - money amounts are integers (RWF has no minor unit), so sums are exact;
    the code adds them as doubles, which agree up to 2^53;
  - the clock and identifier generators of the platform are inputs;
  - the store answers every call: a query returns its rows and a write is
    carried out. The 500 with which a handler answers a refusing store is
    not modelled; where a handler changes the authentication provider
    first and the store second, such an answer would leave the provider's
    change behind, and the statements about error answers are about the
    answers with a status below 500 and the refusals of the provider. *)

From Stdlib Require Import ZArith QArith Qround String Ascii List Bool.
From stdpp Require Import base option list gmap strings fin_maps pretty.

Local Open Scope string_scope.
Local Open Scope list_scope.
Local Open Scope Z_scope.

(** ** JavaScript helpers shared by the components *)

Module Js.

(** [!s] for a possibly absent string: absent and empty are both falsy. *)
Definition falsy (s : option string) : bool :=
  match s with
  | None => true
  | Some v => bool_decide (v = "")
  end.

Definition truthy (s : option string) : bool := negb (falsy s).

(** [a || b] on possibly absent strings. *)
Definition or_else (a : option string) (b : string) : string :=
  match a with
  | Some v => if bool_decide (v = "") then b else v
  | None => b
  end.

(** [a || b] when [b] may be absent as well. *)
Definition or_opt (a b : option string) : option string :=
  if truthy a then a else b.

(** A number as the arithmetic operators produce it: a finite value, or one
    of the three non-finite results of a division. Finite values are
    rationals; rounding is not modelled. *)
Inductive number :=
| Finite (q : Q)
| NaN
| PosInfinity
| NegInfinity.

(** [a / b] on finite operands. *)
Definition div (a b : Q) : number :=
  if Qeq_bool b 0 then
    if Qeq_bool a 0 then NaN
    else if Qle_bool 0 a then PosInfinity else NegInfinity
  else Finite (a / b).

(** [x * k] for a finite positive constant [k]. *)
Definition scale (x : number) (k : Q) : number :=
  match x with
  | Finite q => Finite (q * k)
  | other => other
  end.

Definition is_finite (x : number) : bool :=
  match x with
  | Finite _ => true
  | _ => false
  end.

(** The members every object inherits from [Object.prototype]: on an object
    literal used as a map, [obj[k]] for such a [k] that is no own property
    reads the inherited member, an object or a function, which is truthy. *)
Definition inherited : list string :=
  [ "constructor"; "__proto__"; "hasOwnProperty"; "isPrototypeOf";
    "propertyIsEnumerable"; "toLocaleString"; "toString"; "valueOf";
    "__defineGetter__"; "__defineSetter__"; "__lookupGetter__"; "__lookupSetter__" ].

Definition is_inherited (k : string) : bool := bool_decide (k ∈ inherited).

(** The integers a double holds exactly, as far as a sum of such needs. *)
Definition max_safe : Z := 2 ^ 53.

End Js.

(** ** Billing aggregation and its dashboard *)

Module Billing.

Record HospitalMeta := {
  hm_name : string;
  hm_code : string
}.

(** A diagnosis row as the aggregator reads it: the hospital reference, the
    embedded hospital metadata (absent when the lookup failed), the creation
    date and the scan type kept in the patient metadata. *)
Record Diagnosis := {
  diag_id : string;
  diag_hospital_id : string;
  diag_hospital : option HospitalMeta;
  diag_created_at : Z;
  diag_scan_type : option string
}.

Record Summary := {
  totalAmount : Z;
  totalDiagnoses : Z;
  diagnosisCounts : gmap string Z;
  diagnosisCosts : gmap string Z
}.

Record HospitalSummary := {
  hospitalId : string;
  hospitalName : string;
  hospitalCode : string;
  hs_summary : Summary;
  hs_diagnoses : list Diagnosis
}.

Record BillingData := {
  overall : Summary;
  hospitals : list HospitalSummary
}.

Record BillingQuery := {
  q_hospitalId : option string;
  q_startDate : Z;
  q_endDate : Z
}.

Record BillingResult := {
  billingData : option BillingData;
  billingError : option string
}.

Definition zeroSummary : Summary :=
  {| totalAmount := 0; totalDiagnoses := 0;
     diagnosisCounts := ∅; diagnosisCosts := ∅ |}.

(** Sum of the values of a per-type map. *)
Definition map_sum (m : gmap string Z) : Z :=
  map_fold (λ _ v acc, v + acc) 0 m.

(** Increment of one entry of a per-type map, an absent entry counting
    as zero. *)
Definition bump (k : string) (by_ : Z) (m : gmap string Z) : gmap string Z :=
  <[k := default 0 (m !! k) + by_]> m.

(** A summary is balanced when its per-type maps add up to its totals. *)
Definition balanced (s : Summary) : Prop :=
  map_sum (diagnosisCosts s) = totalAmount s
  ∧ map_sum (diagnosisCounts s) = totalDiagnoses s.

Section Aggregator.

(** The category used when a diagnosis carries no scan type, and the
    price table of the pricing configuration. *)
Variable defaultCategory : string.
Variable unitCost : string → Z.

(** Modelled from the spec: the billing service ([getBillingData] of
    [services/billing-service]) is missing from the sources; this and the
    following definitions of the section follow section 4.1 of the
    specification. The billing category of a diagnosis is its scan type,
    or the default category when it has none. *)
Definition category (d : Diagnosis) : string :=
  Js.or_else (diag_scan_type d) defaultCategory.

(** Modelled from the spec: the selection of the billing service, missing
    from the sources: the diagnoses created in the period, of the given
    hospital if one is given. *)
Definition inQuery (q : BillingQuery) (d : Diagnosis) : bool :=
  (q_startDate q <=? diag_created_at d) && (diag_created_at d <=? q_endDate q)
  && match q_hospitalId q with
     | Some h => bool_decide (diag_hospital_id d = h)
     | None => true
     end.

Definition matching (q : BillingQuery) (store : list Diagnosis) : list Diagnosis :=
  List.filter (inQuery q) store.

(** Modelled from the spec: the accumulation step of the billing service,
    missing from the sources: the unit cost of the category is added to the
    total and to the cost of the category, and both counts grow by one. *)
Definition addDiagnosis (s : Summary) (d : Diagnosis) : Summary :=
  let t := category d in
  let c := unitCost t in
  {| totalAmount := totalAmount s + c;
     totalDiagnoses := totalDiagnoses s + 1;
     diagnosisCounts := bump t 1 (diagnosisCounts s);
     diagnosisCosts := bump t c (diagnosisCosts s) |}.

(** Modelled from the spec: the per-hospital summaries of the billing
    service, missing from the sources, in the order the hospitals first
    occur; a hospital whose metadata could not be embedded is reported
    under the "Unknown" sentinel. *)
Definition newHospitalSummary (d : Diagnosis) : HospitalSummary :=
  {| hospitalId := diag_hospital_id d;
     hospitalName := from_option hm_name "Unknown" (diag_hospital d);
     hospitalCode := from_option hm_code "Unknown" (diag_hospital d);
     hs_summary := addDiagnosis zeroSummary d;
     hs_diagnoses := [d] |}.

Definition extendHospitalSummary (h : HospitalSummary) (d : Diagnosis) : HospitalSummary :=
  {| hospitalId := hospitalId h;
     hospitalName := hospitalName h;
     hospitalCode := hospitalCode h;
     hs_summary := addDiagnosis (hs_summary h) d;
     hs_diagnoses := hs_diagnoses h ++ [d] |}.

Fixpoint addToHospitals (hs : list HospitalSummary) (d : Diagnosis) : list HospitalSummary :=
  match hs with
  | [] => [newHospitalSummary d]
  | h :: rest =>
      if bool_decide (hospitalId h = diag_hospital_id d)
      then extendHospitalSummary h d :: rest
      else h :: addToHospitals rest d
  end.

Definition accumulate (b : BillingData) (d : Diagnosis) : BillingData :=
  {| overall := addDiagnosis (overall b) d;
     hospitals := addToHospitals (hospitals b) d |}.

(** Modelled from the spec: the aggregation of the billing service, missing
    from the sources: the selected diagnoses are accumulated from the zero
    summary, so an empty selection yields zero-valued figures. *)
Definition aggregate (ds : list Diagnosis) : BillingData :=
  foldl accumulate {| overall := zeroSummary; hospitals := [] |} ds.

(** Modelled from the spec: [getBillingData] of the billing service, missing
    from the sources; the store answers, so the result carries the data. *)
Definition getBillingData (q : BillingQuery) (store : list Diagnosis) : BillingResult :=
  {| billingData := Some (aggregate (matching q store)); billingError := None |}.

End Aggregator.

(** [overallStats] of the billing dashboard
    (components/admin/admin-billing-dashboard.tsx):
    [billingData?.overall || { zeros }]. *)
Definition overallStats (data : option BillingData) : Summary :=
  match data with
  | Some b => overall b
  | None => zeroSummary
  end.

(** [hospitals.reduce((sum, hospital) => sum + hospital.totalAmount, 0)]
    of the hospital billing table. *)
Definition tableTotalAmount (hs : list HospitalSummary) : Z :=
  foldl (λ sum h, sum + totalAmount (hs_summary h)) 0 hs.

(** The value of the percentage bar of a table row:
    [totalAmount > 0 ? (hospital.totalAmount / totalAmount) * 100 : 0]. *)
Definition percentageOfTotal (total amount : Z) : Js.number :=
  if 0 <? total
  then Js.scale (Js.div (inject_Z amount) (inject_Z total)) 100
  else Js.Finite 0.

(** The text beside the bar:
    [totalAmount > 0 ? ((hospital.totalAmount / totalAmount) * 100).toFixed(1) : 0]
    followed by the percent sign; [toFixed1] is the formatting of the
    platform. *)
Definition percentageLabel (toFixed1 : Js.number → string) (total amount : Z) : string :=
  (if 0 <? total
   then toFixed1 (Js.scale (Js.div (inject_Z amount) (inject_Z total)) 100)
   else "0") +:+ "%".

(** The average cost shown in the hospital dialog:
    [diagnoses.length > 0 ? totalAmount / diagnoses.length : 0]. *)
Definition averageCost (h : HospitalSummary) : Js.number :=
  let n := Z.of_nat (length (hs_diagnoses h)) in
  if 0 <? n
  then Js.div (inject_Z (totalAmount (hs_summary h))) (inject_Z n)
  else Js.Finite 0.

(** The rows the table renders: one percentage per hospital. *)
Definition tablePercentages (hs : list HospitalSummary) : list Js.number :=
  map (λ h, percentageOfTotal (tableTotalAmount hs) (totalAmount (hs_summary h))) hs.

(** The example of the specification: three CT scans at 10,000 and two MRI
    scans at 20,000 for one hospital. *)
Definition examplePrices (t : string) : Z :=
  if bool_decide (t = "CT") then 10000
  else if bool_decide (t = "MRI") then 20000
  else 0.

Definition exampleHospital : HospitalMeta :=
  {| hm_name := "General Hospital"; hm_code := "HSP-00001" |}.

Definition exampleDiagnosis (id : string) (day : Z) (t : string) : Diagnosis :=
  {| diag_id := id; diag_hospital_id := "h1"; diag_hospital := Some exampleHospital;
     diag_created_at := day; diag_scan_type := Some t |}.

Definition exampleStore : list Diagnosis :=
  [ exampleDiagnosis "d1" 3 "CT"; exampleDiagnosis "d2" 5 "MRI";
    exampleDiagnosis "d3" 9 "CT"; exampleDiagnosis "d4" 12 "CT";
    exampleDiagnosis "d5" 20 "MRI" ].

Definition exampleQuery : BillingQuery :=
  {| q_hospitalId := Some "h1"; q_startDate := 1; q_endDate := 31 |}.

Definition emptyQuery : BillingQuery :=
  {| q_hospitalId := None; q_startDate := 40; q_endDate := 60 |}.

End Billing.

(** ** Invoices: the stored record, the admin actions and the PDF layout *)

Module Invoices.

(** One line of the diagnosis list kept in the snapshot. *)
Record SnapshotDiagnosis := {
  sd_id : string;
  diagnosisType : option string;
  cost : option Z
}.

(** The [details] payload captured when the invoice was generated. *)
Record InvoiceDetails := {
  det_hospitalName : option string;
  det_hospitalAddress : option string;
  det_diagnoses : option (list SnapshotDiagnosis);
  det_diagnosisCounts : gmap string Z;
  det_diagnosisCosts : gmap string Z
}.

(** The hospital row joined to an invoice when the list is fetched. *)
Record HospitalJoin := {
  hj_name : option string;
  hj_address : option string
}.

(** An invoice object as the list and the renderer receive it; the primary
    key is the key of the table. *)
Record Invoice := {
  invoice_number : string;
  hospital_id : string;
  start_date : string;
  end_date : string;
  date_generated : string;
  total_amount : Z;
  status : string;
  details : option InvoiceDetails;
  hospitals : option HospitalJoin;
  created_at : string
}.

Definition set_status (st : string) (inv : Invoice) : Invoice :=
  {| invoice_number := invoice_number inv;
     hospital_id := hospital_id inv;
     start_date := start_date inv;
     end_date := end_date inv;
     date_generated := date_generated inv;
     total_amount := total_amount inv;
     status := st;
     details := details inv;
     hospitals := hospitals inv;
     created_at := created_at inv |}.

(** The invoices table and the notifications sent so far. *)
Record World := {
  invoices : gmap string Invoice;
  outbox : list string
}.

(** *** Admin actions of the invoices list (components/billing/invoices-list.tsx) *)















(** The status changes the specification allows. *)
Inductive transition : string → string → Prop :=
| pending_to_sent : transition "pending" "sent"
| pending_to_paid : transition "pending" "paid"
| sent_to_paid : transition "sent" "paid".

(** Everything of an invoice but its status. *)
Definition frozen (a b : Invoice) : Prop := set_status "" a = set_status "" b.


(** *** The PDF layout (lib/utils/pdf-utils) *)

(** [s.toUpperCase()] on the ASCII letters; other characters are kept. *)
Definition upper_ascii (c : ascii) : ascii :=
  let n := nat_of_ascii c in
  if ((97 <=? n) && (n <=? 122))%nat then ascii_of_nat (n - 32) else c.

Fixpoint toUpperCase (s : string) : string :=
  match s with
  | EmptyString => EmptyString
  | String c rest => String (upper_ascii c) (toUpperCase rest)
  end.

(** The value kept per type while grouping: [{ count, cost }]. *)
Record TypeTotals := {
  tt_count : Z;
  tt_cost : Z
}.

(** [diagnosisByType] is an object literal used as a map; its own
    properties are kept in creation order. One type of the grouping
    [forEach]: the entry [{ count: 0, cost: 0 }] is created if the type has
    none, then [count += 1] and [cost += diagnosis.cost || 0]. *)
Fixpoint addToType (acc : list (string * TypeTotals)) (t : string) (c : Z)
  : list (string * TypeTotals) :=
  match acc with
  | [] => [(t, {| tt_count := 0 + 1; tt_cost := 0 + c |})]
  | (k, v) :: rest =>
      if bool_decide (k = t)
      then (k, {| tt_count := tt_count v + 1; tt_cost := tt_cost v + c |}) :: rest
      else (k, v) :: addToType rest t c
  end.

(** The grouping step: [type = diagnosis.diagnosisType || "Other"]. For a
    type that names an inherited member, [!diagnosisByType[type]] is false
    although the object has no such entry: none is created, the two
    updates go to the inherited member, and the table gets no row for the
    diagnosis. Costs are integers here; the code adds doubles, which agree
    with them up to [Js.max_safe]. *)
Definition groupStep (acc : list (string * TypeTotals)) (d : SnapshotDiagnosis)
  : list (string * TypeTotals) :=
  let type := Js.or_else (diagnosisType d) "Other" in
  if Js.is_inherited type then acc else addToType acc type (default 0 (cost d)).

Definition diagnosisByType (ds : list SnapshotDiagnosis) : list (string * TypeTotals) :=
  foldl groupStep [] ds.

(** [Object.entries] lists the keys that are array indices first, in
    ascending numeric order, then the other keys in creation order. *)
Definition digit_of (c : ascii) : option N :=
  let n := N_of_ascii c in
  if ((48 <=? n) && (n <=? 57))%N then Some (n - 48)%N else None.

Fixpoint parse_digits (s : string) (acc : N) : option N :=
  match s with
  | EmptyString => Some acc
  | String c rest =>
      match digit_of c with
      | Some d => parse_digits rest (10 * acc + d)%N
      | None => None
      end
  end.

Definition arrayIndex (s : string) : option N :=
  match s with
  | EmptyString => None
  | String c rest =>
      if bool_decide (c = "0"%char) && negb (bool_decide (rest = EmptyString)) then None
      else match parse_digits s 0 with
           | Some n => if (n <? 4294967295)%N then Some n else None
           | None => None
           end
  end.

Fixpoint insertByIndex {A} (n : N) (x : A) (l : list (N * A)) : list (N * A) :=
  match l with
  | [] => [(n, x)]
  | (m, y) :: rest =>
      if (n <=? m)%N then (n, x) :: (m, y) :: rest
      else (m, y) :: insertByIndex n x rest
  end.

Definition indexEntries {A} (o : list (string * A)) : list (N * (string * A)) :=
  foldr (λ e acc, match arrayIndex (fst e) with
                  | Some n => insertByIndex n e acc
                  | None => acc
                  end) [] o.

Definition entries {A} (o : list (string * A)) : list (string * A) :=
  map snd (indexEntries o)
  ++ List.filter (λ e, negb (bool_decide (is_Some (arrayIndex (fst e))))) o.

(** The literal text of the template between the interpolations; attribute
    values are delimited with the apostrophe here. *)
Definition rowSegment0 : string :=
"
      <tr>
        <td style='padding: 10px; border: 1px solid #ddd;'>".

Definition rowSegment1 : string :=
"</td>
        <td style='padding: 10px; border: 1px solid #ddd; text-align: center;'>".

Definition rowSegment2 : string :=
"</td>
        <td style='padding: 10px; border: 1px solid #ddd; text-align: center;'>".

Definition rowSegment3 : string :=
"</td>
        <td style='padding: 10px; border: 1px solid #ddd; text-align: right;'>".

Definition rowSegment4 : string :=
"</td>
      </tr>
    ".

Definition pageSegment0 : string :=
"
    <div style='font-family: Arial, sans-serif; max-width: 800px; margin: 0 auto; padding: 20px;'>
      <!-- Letterhead -->
      <div style='display: flex; justify-content: space-between; align-items: center; margin-bottom: 20px;'>
        <div style='display: flex; align-items: center;'>
          <div style='background-color: #2563eb; color: white; padding: 12px; border-radius: 8px; margin-right: 12px;'>
            <svg xmlns='http://www.w3.org/2000/svg' width='24' height='24' viewBox='0 0 24 24' fill='none' stroke='currentColor' stroke-width='2' stroke-linecap='round' stroke-linejoin='round'>
              <path d='M19 3H5c-1.1 0-2 .9-2 2v14c0 1.1.9 2 2 2h14c1.1 0 2-.9 2-2V5c0-1.1-.9-2-2-2z'></path>
              <line x1='12' y1='8' x2='12' y2='16'></line>
              <line x1='8' y1='12' x2='16' y2='12'></line>
            </svg>
          </div>
          <div>
            <h2 style='font-size: 24px; font-weight: bold; margin: 0;'>INVOICE</h2>
            <p style='color: #6b7280; margin: 0;'>".

Definition pageSegment1 : string :=
"</p>
          </div>
        </div>
        <div style='text-align: right;'>
          <p style='font-weight: bold; margin: 0;'>Healthlink Rwanda HDMS</p>
          <p style='color: #6b7280; margin: 0; font-size: 14px;'>KN 5 Rd, Kigali</p>
          <p style='color: #6b7280; margin: 0; font-size: 14px;'>Rwanda</p>
          <p style='color: #6b7280; margin: 0; font-size: 14px;'>info@healthlinkrwanda.org</p>
        </div>
      </div>

      <hr style='border: 0; border-top: 1px solid #e5e7eb; margin: 20px 0;' />

      <!-- Bill To -->
      <div style='display: flex; justify-content: space-between; margin-bottom: 20px;'>
        <div>
          <p style='color: #6b7280; font-size: 14px; margin-bottom: 5px;'>Bill To:</p>
          <p style='font-weight: bold; margin: 0;'>".

Definition pageSegment2 : string :=
"</p>
          <p style='color: #6b7280; font-size: 14px; margin: 0;'>".

Definition pageSegment3 : string :=
"</p>
        </div>
        <div style='text-align: right;'>
          <div style='margin-bottom: 5px;'>
            <span style='color: #6b7280; font-size: 14px;'>Invoice Date:</span>
            <span style='font-size: 14px; margin-left: 10px;'>".

Definition pageSegment4 : string :=
"</span>
          </div>
          <div style='margin-bottom: 5px;'>
            <span style='color: #6b7280; font-size: 14px;'>Billing Period:</span>
            <span style='font-size: 14px; margin-left: 10px;'>
              ".

Definition pageSegment5 : string :=
" - ".

Definition pageSegment6 : string :=
"
            </span>
          </div>
          <div>
            <span style='color: #6b7280; font-size: 14px;'>Status:</span>
            <span style='font-size: 14px; font-weight: bold; color: #2563eb; margin-left: 10px;'>".

Definition pageSegment7 : string :=
"</span>
          </div>
        </div>
      </div>

      <!-- Invoice Summary -->
      <table style='width: 100%; border-collapse: collapse; margin-bottom: 20px;'>
        <thead>
          <tr style='background-color: #f9fafb;'>
            <th style='padding: 10px; border: 1px solid #ddd; text-align: left;'>Diagnosis Type</th>
            <th style='padding: 10px; border: 1px solid #ddd; text-align: center;'>Quantity</th>
            <th style='padding: 10px; border: 1px solid #ddd; text-align: center;'>Unit Price</th>
            <th style='padding: 10px; border: 1px solid #ddd; text-align: right;'>Amount</th>
          </tr>
        </thead>
        <tbody>
          ".

Definition pageSegment8 : string :=
"
        </tbody>
      </table>

      <!-- Invoice Total -->
      <div style='display: flex; justify-content: flex-end; margin-bottom: 20px;'>
        <div style='width: 300px;'>
          <div style='display: flex; justify-content: space-between; margin-bottom: 5px;'>
            <p style='font-weight: 500; margin: 0;'>Subtotal:</p>
            <p style='margin: 0;'>".

Definition pageSegment9 : string :=
"</p>
          </div>
          <div style='display: flex; justify-content: space-between; margin-bottom: 5px;'>
            <p style='font-weight: 500; margin: 0;'>Tax (0%):</p>
            <p style='margin: 0;'>".

Definition pageSegment10 : string :=
"</p>
          </div>
          <hr style='border: 0; border-top: 1px solid #e5e7eb; margin: 10px 0;' />
          <div style='display: flex; justify-content: space-between; font-size: 18px;'>
            <p style='font-weight: bold; margin: 0;'>Total:</p>
            <p style='font-weight: bold; margin: 0;'>".

Definition pageSegment11 : string :=
"</p>
          </div>
        </div>
      </div>

      <!-- Notes -->
      <div style='background-color: #f9fafb; padding: 15px; border-radius: 8px;'>
        <p style='font-weight: 500; margin: 0 0 5px 0;'>Notes:</p>
        <p style='color: #6b7280; font-size: 14px; margin: 0;'>
          Payment is due within 30 days of invoice date. Please make payment to Healthlink Rwanda HDMS.
          Thank you for your business.
        </p>
      </div>
    </div>
  ".

Section Renderer.

(** The browser the renderer runs in: its time zone and locale, its fonts
    and canvas, its clock. What the three libraries produce depends on
    it. *)
Variable Browser : Type.

(** [format(new Date(d), pattern)] of the date library, which renders a
    date in the time zone of the browser, and [formatCurrency] of the
    billing utilities. *)
Variable format : Browser → string → string → string.
Variable formatCurrency : Browser → Q → string.

(** The document produced from a layout and saved under a file name: the
    rasterisation of the detached container by the canvas library and the
    pagination and serialisation of the image by the PDF library, which
    writes the creation time and a file id into the document. *)
Variable Document : Type.
Variable renderDocument : Browser → string → string → Document.

Section InBrowser.

Variable env : Browser.

Definition diagnosisRow (e : string * TypeTotals) : string :=
  rowSegment0 +:+ fst e
  +:+ rowSegment1 +:+ pretty (tt_count (snd e))
  +:+ rowSegment2 +:+ formatCurrency env (inject_Z (tt_cost (snd e)) / inject_Z (tt_count (snd e)))
  +:+ rowSegment3 +:+ formatCurrency env (inject_Z (tt_cost (snd e)))
  +:+ rowSegment4.

Definition diagnosisRows (ds : list SnapshotDiagnosis) : string :=
  foldl (λ rows e, rows +:+ diagnosisRow e) "" (entries (diagnosisByType ds)).

(** [details.hospitalName || invoice.hospitals?.name || "Unknown Hospital"]. *)
Definition billedName (inv : Invoice) : string :=
  Js.or_else (Js.or_opt (details inv ≫= det_hospitalName) (hospitals inv ≫= hj_name))
    "Unknown Hospital".

(** [details.hospitalAddress || invoice.hospitals?.address || ""]. *)
Definition billedAddress (inv : Invoice) : string :=
  Js.or_else (Js.or_opt (details inv ≫= det_hospitalAddress) (hospitals inv ≫= hj_address))
    "".

(** [details.diagnoses || []]. *)
Definition billedDiagnoses (inv : Invoice) : list SnapshotDiagnosis :=
  default [] (details inv ≫= det_diagnoses).

Definition generateInvoiceHTML (inv : Invoice) : string :=
  pageSegment0 +:+ invoice_number inv
  +:+ pageSegment1 +:+ billedName inv
  +:+ pageSegment2 +:+ billedAddress inv
  +:+ pageSegment3 +:+ format env (date_generated inv) "MMMM d, yyyy"
  +:+ pageSegment4 +:+ format env (start_date inv) "MMMM d"
  +:+ pageSegment5 +:+ format env (end_date inv) "MMMM d, yyyy"
  +:+ pageSegment6 +:+ toUpperCase (status inv)
  +:+ pageSegment7 +:+ diagnosisRows (billedDiagnoses inv)
  +:+ pageSegment8 +:+ formatCurrency env (inject_Z (total_amount inv))
  +:+ pageSegment9 +:+ formatCurrency env 0
  +:+ pageSegment10 +:+ formatCurrency env (inject_Z (total_amount inv))
  +:+ pageSegment11.

(** [generateInvoicePDF]: the layout is rendered and the document saved as
    [Invoice-<number>.pdf]. *)
Definition generateInvoicePDF (inv : Invoice) : Document :=
  renderDocument env (generateInvoiceHTML inv) ("Invoice-" +:+ invoice_number inv +:+ ".pdf").

End InBrowser.

End Renderer.

(** Two invoice objects agree on the fields of the stored record that make
    up the snapshot and its header. *)
Definition sameSnapshot (a b : Invoice) : Prop :=
  details a = details b
  ∧ invoice_number a = invoice_number b
  ∧ date_generated a = date_generated b
  ∧ start_date a = start_date b
  ∧ end_date a = end_date b
  ∧ total_amount a = total_amount b
  ∧ status a = status b.

(** A browser for worked examples: the offset of its time zone from UTC in
    hours, and its clock. *)
Record ExampleBrowser := {
  utcOffset : Z;
  clock : string
}.

(** A plain rendering of dates and amounts, for worked examples; the dates
    are rendered in the time zone of the browser. *)
Definition plainFormat (b : ExampleBrowser) (d pattern : string) : string :=
  d +:+ " UTC" +:+ pretty (utcOffset b) +:+ " as " +:+ pattern.

Definition plainCurrency (b : ExampleBrowser) (q : Q) : string :=
  "RWF " +:+ pretty (Qfloor q).

(** A document for worked examples: the layout and the file name with the
    creation time the PDF library stamps. *)
Definition stampedDocument (b : ExampleBrowser) (layout name : string)
  : string * string * string :=
  (layout, name, clock b).

Definition kigaliMorning : ExampleBrowser :=
  {| utcOffset := 2; clock := "2024-02-01T08:00:00Z" |}.

Definition kigaliNoon : ExampleBrowser :=
  {| utcOffset := 2; clock := "2024-02-01T10:00:00Z" |}.

(** Worked data: a pending and a paid invoice, and one invoice fetched
    before and after its hospital was renamed. *)
Definition exampleDetails : InvoiceDetails :=
  {| det_hospitalName := None;
     det_hospitalAddress := None;
     det_diagnoses := Some [ {| sd_id := "d1"; diagnosisType := Some "CT"; cost := Some 10000 |};
                             {| sd_id := "d2"; diagnosisType := Some "MRI"; cost := Some 20000 |};
                             {| sd_id := "d3"; diagnosisType := Some "CT"; cost := Some 10000 |} ];
     det_diagnosisCounts := {[ "CT" := 2; "MRI" := 1 ]};
     det_diagnosisCosts := {[ "CT" := 20000; "MRI" := 20000 ]} |}.

Definition exampleInvoice (st : string) (join : option HospitalJoin) : Invoice :=
  {| invoice_number := "HSP-00001-202401-001";
     hospital_id := "h1";
     start_date := "2024-01-01";
     end_date := "2024-01-31";
     date_generated := "2024-02-01";
     total_amount := 40000;
     status := st;
     details := Some exampleDetails;
     hospitals := join;
     created_at := "2024-02-01T08:00:00Z" |}.

Definition joinedAs (name : string) : option HospitalJoin :=
  Some {| hj_name := Some name; hj_address := Some "KN 1 Rd, Kigali" |}.

Definition fetchedBeforeRename : Invoice := exampleInvoice "pending" (joinedAs "General Hospital").
Definition fetchedAfterRename : Invoice := exampleInvoice "pending" (joinedAs "Kigali Clinic").

Definition recreated (inv : Invoice) : Invoice :=
  {| invoice_number := invoice_number inv;
     hospital_id := "h2";
     start_date := start_date inv;
     end_date := end_date inv;
     date_generated := date_generated inv;
     total_amount := total_amount inv;
     status := status inv;
     details := details inv;
     hospitals := hospitals inv;
     created_at := "2024-03-01T08:00:00Z" |}.


End Invoices.

(** ** The store: tables, queries and HTTP responses *)

Module Store.

Record HospitalRow := {
  h_id : string;
  h_name : string;
  h_address : string;
  h_code : string;
  h_created_at : string;
  h_updated_at : string
}.

Record UserRow := {
  u_id : string;
  u_email : string;
  u_full_name : string;
  u_hospital_id : option string;
  u_expertise : option string;
  u_phone : option string;
  u_is_verified : bool;
  u_is_admin : bool;
  u_is_disabled : bool;
  u_last_login : option string;
  u_updated_at : string
}.

Record DiagnosisRow := {
  dg_id : string;
  dg_hospital_id : string;
  dg_user_id : string
}.

Record LoginRecord := {
  lr_user_id : string;
  lr_login_time : string;
  lr_ip_address : string
}.

Record Database := {
  hospitals : list HospitalRow;
  users : list UserRow;
  diagnoses : list DiagnosisRow;
  user_login_history : list LoginRecord
}.

(** [.single()]: the data of a query that yields exactly one row. *)
Definition single {A} (rows : list A) : option A :=
  match rows with
  | [r] => Some r
  | _ => None
  end.

(** [.eq(column, value)] on a table. *)
Definition eq_ {A} (column : A → string) (value : string) (rows : list A) : list A :=
  List.filter (λ r, bool_decide (column r = value)) rows.

(** [.eq(column, value)] on a nullable column: a null never matches. *)
Definition eq_null {A} (column : A → option string) (value : string) (rows : list A) : list A :=
  List.filter (λ r, bool_decide (column r = Some value)) rows.

(** [.select("*", { count: "exact", head: true })]. *)
Definition count {A} (rows : list A) : Z := Z.of_nat (length rows).

(** [.update(f).eq(column, value)] and [.delete().eq(column, value)]. *)
Definition update_eq {A} (f : A → A) (column : A → string) (value : string) (rows : list A)
  : list A :=
  map (λ r, if bool_decide (column r = value) then f r else r) rows.

Definition delete_eq {A} (column : A → string) (value : string) (rows : list A) : list A :=
  List.filter (λ r, negb (bool_decide (column r = value))) rows.

Definition set_hospitals (hs : list HospitalRow) (db : Database) : Database :=
  {| hospitals := hs; users := users db; diagnoses := diagnoses db;
     user_login_history := user_login_history db |}.

Definition set_users (us : list UserRow) (db : Database) : Database :=
  {| hospitals := hospitals db; users := us; diagnoses := diagnoses db;
     user_login_history := user_login_history db |}.

Definition add_login (r : LoginRecord) (db : Database) : Database :=
  {| hospitals := hospitals db; users := users db; diagnoses := diagnoses db;
     user_login_history := user_login_history db ++ [r] |}.

(** The values the platform supplies to a request: the clock, a fresh row
    identifier, a generated password and the forwarded address. *)
Record Env := {
  now : string;
  fresh_id : string;
  temporaryPassword : string;
  forwarded_for : option string
}.

(** The JSON bodies the admin handlers answer with. [ProviderErrorBody] is
    [{ error: authError.message }], the message being the authentication
    provider's. *)
Inductive Body :=
| ErrorBody (error : string)
| ProviderErrorBody
| MessageBody (message : string)
| HospitalBody (hospital : HospitalRow)
| UserBody (user : UserRow)
| PasswordBody (message password : string)
| DataBody (data : string).

Record Response := {
  res_status : Z;
  res_body : Body
}.

(** [NextResponse.json(body)] and [NextResponse.json(body, { status })]. *)
Definition json (b : Body) : Response := {| res_status := 200; res_body := b |}.
Definition json_status (b : Body) (st : Z) : Response := {| res_status := st; res_body := b |}.

Definition is_error (r : Response) : bool :=
  match res_body r with
  | ErrorBody _ | ProviderErrorBody => true
  | _ => false
  end.

End Store.

(** ** /api/admin/hospitals (app/api/admin/hospitals/route.ts) *)

Module Hospitals.

Import Store.

Record CreateBody := {
  cb_name : option string;
  cb_address : option string;
  cb_code : option string
}.

Record UpdateBody := {
  ub_id : option string;
  ub_name : option string;
  ub_address : option string;
  ub_code : option string
}.

Record DeleteBody := {
  db_hospitalId : option string
}.

Definition handleCreateHospital (env : Env) (body : CreateBody) (db : Database)
  : Response * Database :=
  if Js.falsy (cb_name body) || Js.falsy (cb_address body) || Js.falsy (cb_code body) then
    (json_status (ErrorBody "Name, address, and code are required") 400, db)
  else
    let name := default "" (cb_name body) in
    let address := default "" (cb_address body) in
    let code := default "" (cb_code body) in
    match single (eq_ h_code code (hospitals db)) with
    | Some existingHospital =>
        (json_status (ErrorBody "Hospital code already exists") 400, db)
    | None =>
        let data := {| h_id := fresh_id env; h_name := name; h_address := address;
                       h_code := code; h_created_at := now env; h_updated_at := now env |} in
        (json (HospitalBody data), set_hospitals (hospitals db ++ [data]) db)
    end.

Definition handleUpdateHospital (env : Env) (body : UpdateBody) (db : Database)
  : Response * Database :=
  if Js.falsy (ub_id body) || Js.falsy (ub_name body) || Js.falsy (ub_address body)
     || Js.falsy (ub_code body) then
    (json_status (ErrorBody "ID, name, address, and code are required") 400, db)
  else
    let id := default "" (ub_id body) in
    match single (eq_ h_id id (hospitals db)) with
    | None => (json_status (ErrorBody "Hospital not found") 404, db)
    | Some existingHospital =>
        let data := {| h_id := h_id existingHospital;
                       h_name := default "" (ub_name body);
                       h_address := default "" (ub_address body);
                       h_code := default "" (ub_code body);
                       h_created_at := h_created_at existingHospital;
                       h_updated_at := now env |} in
        (json (HospitalBody data),
         set_hospitals (update_eq (λ _, data) h_id id (hospitals db)) db)
    end.

Definition handleDeleteHospital (body : DeleteBody) (db : Database) : Response * Database :=
  if Js.falsy (db_hospitalId body) then
    (json_status (ErrorBody "Hospital ID is required") 400, db)
  else
    let hospitalId := default "" (db_hospitalId body) in
    let userCount := count (eq_null u_hospital_id hospitalId (users db)) in
    if 0 <? userCount then
      (json_status
         (ErrorBody "Cannot delete hospital with associated users. Please reassign or delete users first.")
         400, db)
    else
      let diagnosisCount := count (eq_ dg_hospital_id hospitalId (diagnoses db)) in
      if 0 <? diagnosisCount then
        (json_status
           (ErrorBody "Cannot delete hospital with associated diagnoses. Please reassign or delete diagnoses first.")
           400, db)
      else
        (json (MessageBody "Hospital deleted successfully"),
         set_hospitals (delete_eq h_id hospitalId (hospitals db)) db).

Inductive Request :=
| GET (search : string)
| POST (body : CreateBody)
| PATCH (body : UpdateBody)
| DELETE (body : DeleteBody)
| OtherMethod (method : string).

Section Route.

(** The listing handler only reads the store. *)
Variable handleGetHospitals : string → Database → Response.

(** [handler(req, user)]: dispatch on the method; the caller is not looked at. *)
Definition handler (env : Env) (req : Request) (user : option string) (db : Database)
  : Response * Database :=
  match req with
  | GET search => (handleGetHospitals search db, db)
  | POST body => handleCreateHospital env body db
  | PATCH body => handleUpdateHospital env body db
  | DELETE body => handleDeleteHospital body db
  | OtherMethod _ => (json_status (ErrorBody "Method not allowed") 405, db)
  end.

End Route.

(** The rows that reference a hospital. *)
Definition referencingUsers (id : string) (db : Database) : list UserRow :=
  List.filter (λ u, bool_decide (u_hospital_id u = Some id)) (users db).

Definition referencingDiagnoses (id : string) (db : Database) : list DiagnosisRow :=
  List.filter (λ d, bool_decide (dg_hospital_id d = id)) (diagnoses db).

End Hospitals.

(** ** Accounts, sessions and sign-in (services/auth-service.ts) *)

Module Auth.

Import Store.

(** An account of the authentication provider; [acc_disabled] is the
    [disabled] entry of its metadata. *)
Record Account := {
  acc_id : string;
  acc_email : string;
  acc_password : string;
  acc_disabled : option bool
}.

(** The result of the security service for an email. *)
Record Attempts := {
  att_count : Z;
  att_error : option string
}.

Record SignInForm := {
  email : string;
  password : string;
  hospitalId : option string
}.

Inductive SignInResult :=
| SignInError (error : string)
| SignInSuccess.

Definition failed (r : SignInResult) : bool :=
  match r with
  | SignInError _ => true
  | SignInSuccess => false
  end.

(** [auth.admin.updateUserById(id, ...)]. *)
Definition set_metadata_disabled (id : string) (flag : bool) (accs : list Account) : list Account :=
  update_eq (λ a, {| acc_id := acc_id a; acc_email := acc_email a;
                     acc_password := acc_password a; acc_disabled := Some flag |})
    acc_id id accs.

Definition set_password (id pw : string) (accs : list Account) : list Account :=
  update_eq (λ a, {| acc_id := acc_id a; acc_email := acc_email a;
                     acc_password := pw; acc_disabled := acc_disabled a |})
    acc_id id accs.

(** [auth.admin.updateUserById(id, { password })] and
    [auth.admin.deleteUser(id)] answer with an error when the provider has
    no account under the id. *)
Definition hasAccount (id : string) (accs : list Account) : bool :=
  bool_decide (eq_ acc_id id accs ≠ []).

(** [auth.signInWithPassword]: the account registered under the email, if
    the password is the right one. The metadata is not consulted. *)
Definition signInWithPassword (accs : list Account) (em pw : string) : option Account :=
  match List.find (λ a, bool_decide (acc_email a = em)) accs with
  | Some a => if bool_decide (acc_password a = pw) then Some a else None
  | None => None
  end.

Section SignIn.

(** The security and user services ([security-service], [user-service])
    with the state they keep. *)
Variable Security : Type.
Variable getRecentFailedLoginAttempts : Security → string → Attempts.
Variable recordFailedLoginAttempt : Security → string → Security.
Variable clearFailedLoginAttempts : Security → string → Security.
Variable updateLastLogin : Env → string → list UserRow → list UserRow.

(** The backend as one client sees it: the tables, the accounts, the
    client's session (the id of its signed-in user), the state of the
    security service and the calls made to password authentication. *)
Record World := {
  db : Database;
  accounts : list Account;
  session : option string;
  security : Security;
  password_checks : list string
}.

Definition with_db (d : Database) (w : World) : World :=
  {| db := d; accounts := accounts w; session := session w; security := security w;
     password_checks := password_checks w |}.

Definition with_accounts (a : list Account) (w : World) : World :=
  {| db := db w; accounts := a; session := session w; security := security w;
     password_checks := password_checks w |}.

Definition with_session (s : option string) (w : World) : World :=
  {| db := db w; accounts := accounts w; session := s; security := security w;
     password_checks := password_checks w |}.

Definition with_security (s : Security) (w : World) : World :=
  {| db := db w; accounts := accounts w; session := session w; security := s;
     password_checks := password_checks w |}.

Definition log_password_check (em : string) (w : World) : World :=
  {| db := db w; accounts := accounts w; session := session w; security := security w;
     password_checks := password_checks w ++ [em] |}.

Definition signOut (w : World) : World := with_session None w.

Definition signIn (env : Env) (form : SignInForm) (w : World) : SignInResult * World :=
  let attempts := getRecentFailedLoginAttempts (security w) (email form) in
  if Js.truthy (att_error attempts) then (SignInError "Security check failed", w)
  else if 5 <=? att_count attempts then
    (SignInError "Too many failed login attempts. Please try again later or reset your password.", w)
  else
    let w := log_password_check (email form) w in
    match signInWithPassword (accounts w) (email form) (password form) with
    | None =>
        (SignInError "Invalid login credentials",
         with_security (recordFailedLoginAttempt (security w) (email form)) w)
    | Some account =>
        let w := with_session (Some (acc_id account)) w in
        let w := with_security (clearFailedLoginAttempts (security w) (email form)) w in
        match single (eq_ u_id (acc_id account) (users (db w))) with
        | None => (SignInError "User profile not found", w)
        | Some userData =>
            if u_is_disabled userData then
              (SignInError "Your account has been disabled. Please contact your administrator.",
               signOut w)
            else if Js.truthy (hospitalId form)
                    && negb (bool_decide (u_hospital_id userData = hospitalId form)) then
              (SignInError "You do not have access to this hospital", signOut w)
            else
              let w := with_db (set_users (updateLastLogin env (acc_id account) (users (db w)))
                                  (db w)) w in
              let w := with_db (add_login {| lr_user_id := acc_id account;
                                             lr_login_time := now env;
                                             lr_ip_address := Js.or_else (forwarded_for env) "unknown" |}
                                  (db w)) w in
              (SignInSuccess, w)
        end
    end.

(** Sign-in attempts made one after the other, each at its own time. *)
Fixpoint signInAll (attempts : list (Env * SignInForm)) (w : World)
  : list (SignInResult * World) :=
  match attempts with
  | [] => []
  | (env, form) :: rest =>
      let rw := signIn env form w in
      rw :: signInAll rest (snd rw)
  end.

End SignIn.

Arguments db {Security} _.
Arguments accounts {Security} _.
Arguments session {Security} _.
Arguments security {Security} _.
Arguments password_checks {Security} _.
Arguments with_db {Security} _ _.
Arguments with_accounts {Security} _ _.
Arguments with_session {Security} _ _.
Arguments with_security {Security} _ _.
Arguments log_password_check {Security} _ _.
Arguments signOut {Security} _.

(** The email belongs to the user: every account registered under it is
    the user's. *)
Definition emailOf (accs : list Account) (uid em : string) : Prop :=
  ∀ a, a ∈ accs → acc_email a = em → acc_id a = uid.

(** A simple security service: one counter of failures per email. *)
Definition counterAttempts (s : gmap string Z) (em : string) : Attempts :=
  {| att_count := default 0 (s !! em); att_error := None |}.

Definition counterRecord (s : gmap string Z) (em : string) : gmap string Z :=
  <[em := default 0 (s !! em) + 1]> s.

Definition counterClear (s : gmap string Z) (em : string) : gmap string Z := delete em s.

Definition stampLastLogin (env : Env) (id : string) (rows : list UserRow) : list UserRow :=
  update_eq (λ u, {| u_id := u_id u; u_email := u_email u; u_full_name := u_full_name u;
                     u_hospital_id := u_hospital_id u; u_expertise := u_expertise u;
                     u_phone := u_phone u; u_is_verified := u_is_verified u;
                     u_is_admin := u_is_admin u; u_is_disabled := u_is_disabled u;
                     u_last_login := Some (now env); u_updated_at := u_updated_at u |})
    u_id id rows.

End Auth.

(** ** /api/admin/users/[id] and the route guard (middleware.ts) *)

Module Users.

Import Store Auth.

(** The body of a PATCH: an operation, or the fields to change. An absent
    field is [None]; a nullable column can be set to null. *)
Record UpdateBody := {
  operation : option string;
  fullName : option string;
  hospitalId : option (option string);
  expertise : option (option string);
  phone : option (option string);
  isVerified : option bool;
  isAdmin : option bool
}.

Inductive Request :=
| GET
| PATCH (body : UpdateBody)
| DELETE
| OtherMethod (method : string).

Definition set_disabled (flag : bool) (at_ : string) (u : UserRow) : UserRow :=
  {| u_id := u_id u; u_email := u_email u; u_full_name := u_full_name u;
     u_hospital_id := u_hospital_id u; u_expertise := u_expertise u; u_phone := u_phone u;
     u_is_verified := u_is_verified u; u_is_admin := u_is_admin u;
     u_is_disabled := flag; u_last_login := u_last_login u; u_updated_at := at_ |}.

(** The regular update: only the fields the body provides are written. *)
Definition applyUpdate (body : UpdateBody) (at_ : string) (u : UserRow) : UserRow :=
  {| u_id := u_id u; u_email := u_email u;
     u_full_name := default (u_full_name u) (fullName body);
     u_hospital_id := default (u_hospital_id u) (hospitalId body);
     u_expertise := default (u_expertise u) (expertise body);
     u_phone := default (u_phone u) (phone body);
     u_is_verified := default (u_is_verified u) (isVerified body);
     u_is_admin := default (u_is_admin u) (isAdmin body);
     u_is_disabled := u_is_disabled u; u_last_login := u_last_login u;
     u_updated_at := at_ |}.

Section Route.

Context {Security : Type}.

(** The read handler only reads the store. *)
Variable handleGetUser : string → Database → Response.

Definition update_users (f : UserRow → UserRow) (userId : string) (w : World Security)
  : World Security :=
  with_db (set_users (update_eq f u_id userId (users (db w))) (db w)) w.

Definition handleUpdateUser (env : Env) (userId : string) (body : UpdateBody)
  (w : World Security) : Response * World Security :=
  match single (eq_ u_id userId (users (db w))) with
  | None => (json_status (ErrorBody "User not found") 404, w)
  | Some existingUser =>
      if bool_decide (operation body = Some "disable") then
        let w := update_users (set_disabled true (now env)) userId w in
        let w := with_accounts (set_metadata_disabled userId true (accounts w)) w in
        (json (MessageBody "User disabled successfully"), w)
      else if bool_decide (operation body = Some "enable") then
        let w := update_users (set_disabled false (now env)) userId w in
        let w := with_accounts (set_metadata_disabled userId false (accounts w)) w in
        (json (MessageBody "User enabled successfully"), w)
      else if bool_decide (operation body = Some "resetPassword") then
        if hasAccount userId (accounts w) then
          let w := with_accounts (set_password userId (temporaryPassword env) (accounts w)) w in
          (json (PasswordBody "Password reset successfully" (temporaryPassword env)), w)
        else (json_status ProviderErrorBody 500, w)
      else
        let w := update_users (applyUpdate body (now env)) userId w in
        (json (UserBody (applyUpdate body (now env) existingUser)), w)
  end.

(** [handleDeleteUser]: blocked by diagnoses; then the account is deleted
    with the provider, which refuses when it has none under the id (500,
    the row stays), and then the row. *)
Definition handleDeleteUser (userId : string) (w : World Security)
  : Response * World Security :=
  let diagnosisCount := count (eq_ dg_user_id userId (diagnoses (db w))) in
  if 0 <? diagnosisCount then
    (json_status
       (ErrorBody ("Cannot delete user with " +:+ pretty diagnosisCount
                   +:+ " associated diagnoses. Please reassign or delete the diagnoses first."))
       400, w)
  else if hasAccount userId (accounts w) then
    let w := with_accounts (delete_eq acc_id userId (accounts w)) w in
    let w := with_db (set_users (delete_eq u_id userId (users (db w))) (db w)) w in
    (json (MessageBody "User deleted successfully"), w)
  else (json_status ProviderErrorBody 500, w).

(** [handler(req, user)]: the admin flag of the caller is fetched into
    [data] and the request is dispatched on its method. [userId] is the
    last segment of the path. *)
Definition handler (env : Env) (userId : string) (req : Request) (user : option string)
  (w : World Security) : Response * World Security :=
  let data := user ≫= λ id, single (eq_ u_id id (users (db w))) in
  if bool_decide (userId = "") then
    (json_status (ErrorBody "User ID is required") 400, w)
  else
    match req with
    | GET => (handleGetUser userId (db w), w)
    | PATCH body => handleUpdateUser env userId body w
    | DELETE => handleDeleteUser userId w
    | OtherMethod _ => (json_status (ErrorBody "Method not allowed") 405, w)
    end.

End Route.

(** *** The route guard *)

Inductive MiddlewareResult :=
| Redirect (path : string) (redirectedFrom : option string)
| Next.

Definition startsWith (s p : string) : bool := String.prefix p s.

(** [!data?.is_admin] for the row found for the session user. *)
Definition notAdmin (data : option UserRow) : bool :=
  match data with
  | Some u => negb (u_is_admin u)
  | None => true
  end.

Definition middleware (users : list UserRow) (session : option string) (pathname : string)
  : MiddlewareResult :=
  let isAuthRoute :=
    startsWith pathname "/login" || startsWith pathname "/signup"
    || startsWith pathname "/reset-password" in
  let isAdminRoute := startsWith pathname "/admin" in
  match session with
  | None =>
      if negb isAuthRoute && negb (bool_decide (pathname = "/"))
      then Redirect "/login" (Some pathname)
      else Next
  | Some uid =>
      if isAuthRoute then Redirect "/admin" None
      else if isAdminRoute then
        if notAdmin (single (eq_ u_id uid users)) then Redirect "/unathorized" None else Next
      else Next
  end.

(** [config.matcher]: one pattern, a slash followed by anything that does
    not start (negative look-ahead) with [_next/static], [_next/image],
    [favicon.ico] or [api/public]. The guard runs on a path unless what
    follows its leading slash starts with one of the four; the dot of
    [favicon.ico] is the wildcard of the pattern language and stands for any
    one character but a line terminator. *)
Definition faviconIco (rest : string) : bool :=
  String.prefix "favicon" rest
  && match String.substring 7 (String.length rest - 7)%nat rest with
     | String c after =>
         negb (bool_decide (c = "010"%char) || bool_decide (c = "013"%char))
         && String.prefix "ico" after
     | EmptyString => false
     end.

Definition matcher (pathname : string) : bool :=
  match pathname with
  | String "/" rest =>
      negb (String.prefix "_next/static" rest || String.prefix "_next/image" rest
            || faviconIco rest || String.prefix "api/public" rest)
  | _ => false
  end.

Definition guard (users : list UserRow) (session : option string) (pathname : string)
  : MiddlewareResult :=
  if matcher pathname then middleware users session pathname else Next.

(** The guard at the top of every admin page (app/admin/.../page.tsx):
    the path to redirect to, if any. *)
Definition adminPageGuard (users : list UserRow) (session : option string) : option string :=
  match session with
  | None => Some "/login"
  | Some uid =>
      if notAdmin (single (eq_ u_id uid users)) then Some "/unauthorized" else None
  end.

(** What a client gets back: a redirect, or the answer of the handler. *)
Inductive Outcome :=
| Redirected (path : string)
| Answered (r : Response).

Section Serve.

Context {Security : Type}.
Variable handleGetUser : string → Database → Response.
Variable handleGetHospitals : string → Database → Response.

(** A request to [/api/admin/users/<userId>]: the guard, then the handler
    as the route exports it. *)
Definition serveUser (env : Env) (userId : string) (req : Request) (user : option string)
  (w : World Security) : Outcome * World Security :=
  match guard (users (db w)) (session w) ("/api/admin/users/" +:+ userId) with
  | Redirect path _ => (Redirected path, w)
  | Next =>
      let '(r, w') := handler handleGetUser env userId req user w in
      (Answered r, w')
  end.

(** A request to [/api/admin/hospitals]. *)
Definition serveHospitals (env : Env) (req : Hospitals.Request) (user : option string)
  (w : World Security) : Outcome * World Security :=
  match guard (users (db w)) (session w) "/api/admin/hospitals" with
  | Redirect path _ => (Redirected path, w)
  | Next =>
      let '(r, d) := Hospitals.handler handleGetHospitals env req user (db w) in
      (Answered r, with_db d w)
  end.

End Serve.

End Users.

(** ** Support tickets (the support service and /api/admin/support/[id]) *)

Module Support.

Import Store.

Record TicketResponse := {
  r_id : string;
  r_content : string;
  r_is_admin_response : bool;
  r_admin_name : option string;
  r_created_at : string
}.

Record Ticket := {
  t_id : string;
  t_user_id : string;
  t_subject : string;
  t_message : string;
  t_status : string;
  t_priority : string;
  t_responses : option (list TicketResponse);
  t_admin_notes : option string;
  t_created_at : string;
  t_updated_at : string
}.

(** The object a [select] yields: a column that was not selected is absent
    from it, so reading it gives [undefined]. Only the columns the two
    functions read afterwards are kept. *)
Record Selection := {
  responses : option (list TicketResponse);
  status : option string;
  subject : option string
}.

(** [.select("responses")]. *)
Definition select_responses (t : Ticket) : Selection :=
  {| responses := t_responses t; status := None; subject := None |}.

(** [.select("responses, subject, users (id, full_name, email)")]. *)
Definition select_responses_subject (t : Ticket) : Selection :=
  {| responses := t_responses t; status := None; subject := Some (t_subject t) |}.

(** The [update] of both functions: the new responses, the time, and the
    status when one is given. *)
Definition writeResponses (rs : list TicketResponse) (at_ : string) (st : option string)
  (t : Ticket) : Ticket :=
  {| t_id := t_id t; t_user_id := t_user_id t; t_subject := t_subject t;
     t_message := t_message t;
     t_status := default (t_status t) st;
     t_priority := t_priority t;
     t_responses := Some rs;
     t_admin_notes := t_admin_notes t;
     t_created_at := t_created_at t;
     t_updated_at := at_ |}.

(** The result of the service function: [{ ticket, error }]. *)
Record ServiceResult := {
  ticket : option Ticket;
  error : option string
}.

(** [addSupportTicketResponse(ticketId, response, isAdminResponse = true)]. *)
Definition addSupportTicketResponse (env : Env) (ticketId response : string)
  (isAdminResponse : bool) (tickets : list Ticket) : ServiceResult * list Ticket :=
  match single (eq_ t_id ticketId tickets) with
  | None =>
      ({| ticket := None; error := Some "Failed to add response to support ticket" |}, tickets)
  | Some row =>
      let ticket_ := select_responses row in
      let newResponse := {| r_id := fresh_id env; r_content := response;
                            r_is_admin_response := isAdminResponse;
                            r_admin_name := None; r_created_at := now env |} in
      let responses_ := default [] (responses ticket_) ++ [newResponse] in
      let status_ :=
        if isAdminResponse && bool_decide (status ticket_ = Some "open")
        then Some "in-progress" else None in
      let data := writeResponses responses_ (now env) status_ row in
      ({| ticket := Some data; error := None |},
       update_eq (writeResponses responses_ (now env) status_) t_id ticketId tickets)
  end.

(** The answer of the API route: an error with its status, or
    [{ success: true, ticket }]. *)
Inductive ApiResult :=
| ApiError (error : string) (status : Z)
| ApiTicket (data : Ticket).

(** [handleAddResponse] of the API route; [body.response] is the content and
    [adminUserId] the caller handed to the route. *)
Definition handleAddResponse (env : Env) (ticketId : string) (response : option string)
  (adminUserId : option string) (users : list UserRow) (tickets : list Ticket)
  : ApiResult * list Ticket :=
  if Js.falsy response then
    (ApiError "Response content is required" 400, tickets)
  else
    match single (eq_ t_id ticketId tickets) with
    | None => (ApiError "Ticket not found" 404, tickets)
    | Some row =>
        let ticket_ := select_responses_subject row in
        let adminUser := adminUserId ≫= λ id, single (eq_ u_id id users) in
        let newResponse :=
          {| r_id := fresh_id env; r_content := default "" response;
             r_is_admin_response := true;
             r_admin_name := Some (Js.or_else (u_full_name <$> adminUser) "Administrator");
             r_created_at := now env |} in
        let responses_ := default [] (responses ticket_) ++ [newResponse] in
        let status_ :=
          if bool_decide (status ticket_ = Some "open") then Some "in-progress" else None in
        (ApiTicket (writeResponses responses_ (now env) status_ row),
         update_eq (writeResponses responses_ (now env) status_) t_id ticketId tickets)
    end.

(** A ticket as created: open, no response yet. *)
Definition openTicket : Ticket :=
  {| t_id := "t1"; t_user_id := "u2"; t_subject := "Cannot upload scan";
     t_message := "The upload fails."; t_status := "open"; t_priority := "medium";
     t_responses := Some []; t_admin_notes := None;
     t_created_at := "2024-01-30T10:00:00.000Z"; t_updated_at := "2024-01-30T10:00:00.000Z" |}.

End Support.

(** ** Worked data *)

Module Example.

Import Store Auth.

Definition env : Env :=
  {| now := "2024-02-01T08:00:00.000Z"; fresh_id := "h9";
     temporaryPassword := "Tmp-4821"; forwarded_for := None |}.

Definition hospital (id name code : string) : HospitalRow :=
  {| h_id := id; h_name := name; h_address := "KN 1 Rd, Kigali"; h_code := code;
     h_created_at := "2023-01-01T00:00:00.000Z"; h_updated_at := "2023-01-01T00:00:00.000Z" |}.

Definition user (id em : string) (hosp : string) (admin disabled : bool) : UserRow :=
  {| u_id := id; u_email := em; u_full_name := id; u_hospital_id := Some hosp;
     u_expertise := None; u_phone := None; u_is_verified := true; u_is_admin := admin;
     u_is_disabled := disabled; u_last_login := None;
     u_updated_at := "2023-01-01T00:00:00.000Z" |}.

(** Two hospitals in use and one, [h3], that nothing references. *)
Definition database : Database :=
  {| hospitals := [ hospital "h1" "General Hospital" "HSP-00001";
                    hospital "h2" "Kigali Clinic" "HSP-00002";
                    hospital "h3" "Closed Ward" "HSP-00003" ];
     users := [ user "u1" "admin@hdms.rw" "h1" true false;
                user "u2" "doctor@hdms.rw" "h1" false false;
                user "u3" "nurse@hdms.rw" "h2" false false ];
     diagnoses := [ {| dg_id := "d1"; dg_hospital_id := "h1"; dg_user_id := "u2" |} ];
     user_login_history := [] |}.

Definition account (id em pw : string) : Account :=
  {| acc_id := id; acc_email := em; acc_password := pw; acc_disabled := None |}.

(** The backend as the client of the doctor [u2] sees it when signed in
    ([Some "u2"]) or not. *)
Definition world (s : option string) (failures : gmap string Z) : World (gmap string Z) :=
  {| db := database;
     accounts := [ account "u1" "admin@hdms.rw" "root-pw";
                   account "u2" "doctor@hdms.rw" "doc-pw";
                   account "u3" "nurse@hdms.rw" "nurse-pw" ];
     session := s;
     security := failures;
     password_checks := [] |}.

Definition signInExample : Env → SignInForm → World (gmap string Z)
                           → SignInResult * World (gmap string Z) :=
  signIn (gmap string Z) counterAttempts counterRecord counterClear stampLastLogin.

Definition noListing (q : string) (d : Database) : Response := json (DataBody q).

Definition disableBody : Users.UpdateBody :=
  {| Users.operation := Some "disable"; Users.fullName := None; Users.hospitalId := None;
     Users.expertise := None; Users.phone := None; Users.isVerified := None;
     Users.isAdmin := None |}.

Definition enableBody : Users.UpdateBody :=
  {| Users.operation := Some "enable"; Users.fullName := None; Users.hospitalId := None;
     Users.expertise := None; Users.phone := None; Users.isVerified := None;
     Users.isAdmin := None |}.

Definition duplicateCodeBody : Hospitals.CreateBody :=
  {| Hospitals.cb_name := Some "Second General"; Hospitals.cb_address := Some "KN 7 Rd, Kigali";
     Hospitals.cb_code := Some "HSP-00001" |}.

Definition resetBody : Users.UpdateBody :=
  {| Users.operation := Some "resetPassword"; Users.fullName := None; Users.hospitalId := None;
     Users.expertise := None; Users.phone := None; Users.isVerified := None;
     Users.isAdmin := None |}.

Definition promoteBody : Users.UpdateBody :=
  {| Users.operation := None; Users.fullName := None; Users.hospitalId := None;
     Users.expertise := None; Users.phone := None; Users.isVerified := None;
     Users.isAdmin := Some true |}.

Definition doctorForm : SignInForm :=
  {| email := "doctor@hdms.rw"; password := "doc-pw"; hospitalId := Some "h1" |}.

Definition otherHospitalForm : SignInForm :=
  {| email := "doctor@hdms.rw"; password := "doc-pw"; hospitalId := Some "h2" |}.

(** An account registered with the provider that has no user row. *)
Definition orphanWorld : World (gmap string Z) :=
  {| db := database;
     accounts := [ account "u7" "ghost@hdms.rw" "ghost-pw" ];
     session := None; security := ∅; password_checks := [] |}.

Definition ghostForm : SignInForm :=
  {| email := "ghost@hdms.rw"; password := "ghost-pw"; hospitalId := None |}.

Definition wrongForm : SignInForm :=
  {| email := "doctor@hdms.rw"; password := "guess"; hospitalId := None |}.

(** The doctor is disabled, five wrong passwords are tried under the
    doctor's email, and the doctor is enabled again. *)
Definition afterDisable : World (gmap string Z) :=
  snd (Users.handleUpdateUser env "u2" disableBody (world None ∅)).

Definition afterGuesses : World (gmap string Z) :=
  from_option snd afterDisable
    (last (signInAll (gmap string Z) counterAttempts counterRecord counterClear stampLastLogin
             (replicate 5 (env, wrongForm)) afterDisable)).

Definition afterEnable : World (gmap string Z) :=
  snd (Users.handleUpdateUser env "u2" enableBody afterGuesses).

End Example.

(** ** Further definitions for the handlers *)

Module More.

Import Store Auth.

(** A PATCH body for a user that names none of the three operations. *)
Definition plainUpdate (body : Users.UpdateBody) : Prop :=
  Users.operation body ≠ Some "disable" ∧ Users.operation body ≠ Some "enable"
  ∧ Users.operation body ≠ Some "resetPassword".

(** [isUserDisabled] of the auth service: the flag of the only row with the
    id; when the lookup fails, [false] with an error. *)
Record FlagResult := {
  flag : bool;
  flag_error : option string
}.

Definition isUserDisabled (userId : string) (d : Database) : FlagResult :=
  match single (eq_ u_id userId (users d)) with
  | Some data => {| flag := u_is_disabled data; flag_error := None |}
  | None => {| flag := false; flag_error := Some "Failed to check user status" |}
  end.

(** [isUserAdmin] of the admin service. *)
Definition isUserAdmin (userId : string) (d : Database) : FlagResult :=
  match single (eq_ u_id userId (users d)) with
  | Some data => {| flag := u_is_admin data; flag_error := None |}
  | None => {| flag := false; flag_error := Some "Failed to check admin status" |}
  end.

(** The quantities and the amounts of the rows of an invoice, and the costs
    of the diagnoses of a snapshot, added up. *)
Definition totalCount (rows : list (string * Invoices.TypeTotals)) : Z :=
  foldr (λ e total, Invoices.tt_count (snd e) + total) 0 rows.

Definition totalCost (rows : list (string * Invoices.TypeTotals)) : Z :=
  foldr (λ e total, Invoices.tt_cost (snd e) + total) 0 rows.

Definition snapshotCost (ds : list Invoices.SnapshotDiagnosis) : Z :=
  foldr (λ d total, default 0 (Invoices.cost d) + total) 0 ds.

(** The diagnoses of a snapshot whose type names no inherited member. *)
Definition listed (ds : list Invoices.SnapshotDiagnosis) : list Invoices.SnapshotDiagnosis :=
  List.filter (λ d, negb (Js.is_inherited (Js.or_else (Invoices.diagnosisType d) "Other"))) ds.

(** Costs for which the sums of the code, taken in doubles, are exact. *)
Definition exactCosts (ds : list Invoices.SnapshotDiagnosis) : Prop :=
  Forall (λ d, 0 ≤ default 0 (Invoices.cost d)) ds ∧ snapshotCost ds ≤ Js.max_safe.

Section SignInConditions.

Context {Security : Type}.
Variable getRecentFailedLoginAttempts : Security → string → Attempts.

(** The conditions under which [signIn] lets a form in: the security check
    passes with fewer than five failures, the password is accepted, the
    account has exactly one user row, which is not disabled, and the
    hospital given with the form, if any, is the row's. *)
Definition letIn (form : SignInForm) (w : World Security) (account : Account)
  (row : UserRow) : Prop :=
  Js.truthy (att_error (getRecentFailedLoginAttempts (security w) (email form))) = false
  ∧ att_count (getRecentFailedLoginAttempts (security w) (email form)) < 5
  ∧ signInWithPassword (accounts w) (email form) (password form) = Some account
  ∧ single (eq_ u_id (acc_id account) (users (db w))) = Some row
  ∧ u_is_disabled row = false
  ∧ (Js.truthy (hospitalId form) = true → u_hospital_id row = hospitalId form).

End SignInConditions.

End More.

(** ** Support tickets, further (the support service) *)

Module Tickets.

Import Store Support.

(** [s.toLowerCase()] on the ASCII letters; other characters are kept. *)
Definition lower_ascii (c : ascii) : ascii :=
  let n := nat_of_ascii c in
  if ((65 <=? n) && (n <=? 90))%nat then ascii_of_nat (n + 32) else c.

Fixpoint toLowerCase (s : string) : string :=
  match s with
  | EmptyString => EmptyString
  | String c rest => String (lower_ascii c) (toLowerCase rest)
  end.

(** The update of [updateSupportTicketStatus]: the status and the time, and
    the admin notes when some are given. *)
Definition writeStatus (st : string) (adminNotes : option string) (at_ : string) (t : Ticket)
  : Ticket :=
  {| t_id := t_id t; t_user_id := t_user_id t; t_subject := t_subject t;
     t_message := t_message t;
     t_status := st;
     t_priority := t_priority t;
     t_responses := t_responses t;
     t_admin_notes := if Js.truthy adminNotes then adminNotes else t_admin_notes t;
     t_created_at := t_created_at t;
     t_updated_at := at_ |}.

(** [updateSupportTicketStatus(id, status, adminNotes?)]: the rows with the
    id are updated, and the answer is the updated row when there is exactly
    one. *)
Definition updateSupportTicketStatus (env : Env) (id st : string) (adminNotes : option string)
  (tickets : list Ticket) : ServiceResult * list Ticket :=
  let tickets' := update_eq (writeStatus st adminNotes (now env)) t_id id tickets in
  match single (eq_ t_id id tickets') with
  | Some data => ({| ticket := Some data; error := None |}, tickets')
  | None =>
      ({| ticket := None; error := Some "Failed to update support ticket status" |}, tickets')
  end.

(** The result of [getUserSupportTicketStats]. *)
Record Stats := {
  totalTickets : Z;
  statusCounts : gmap string Z;
  priorityCounts : gmap string Z;
  averageResolutionHours : Z
}.

(** [Math.round] on a rational: halves go up. *)
Definition round (q : Q) : Z := Qfloor (q + (1 # 2)).

Section Statistics.

(** [new Date(s).getTime()], in milliseconds. *)
Variable getTime : string → Z.

(** [counts[key] = (counts[key] || 0) + 1] for the lower-cased status or
    priority of each ticket. The table holds the counts of the object. For
    a key that names an inherited member ([Js.inherited]) the code reads
    that member, not a count, and stores a string (for [__proto__]
    nothing), then and at every later ticket with the key: the object
    never holds a count under it, and the table has no entry for it. *)
Definition countBy (key : Ticket → string) (initial : gmap string Z) (tickets : list Ticket)
  : gmap string Z :=
  foldl (λ counts t,
           if Js.is_inherited (toLowerCase (key t)) then counts
           else Billing.bump (toLowerCase (key t)) 1 counts) initial tickets.

(** The tickets whose key names no inherited member. *)
Definition counted (key : Ticket → string) (tickets : list Ticket) : list Ticket :=
  List.filter (λ t, negb (Js.is_inherited (toLowerCase (key t)))) tickets.

Definition isResolved (t : Ticket) : bool :=
  bool_decide (toLowerCase (t_status t) = "resolved")
  || bool_decide (toLowerCase (t_status t) = "closed").

Definition resolutionHours (t : Ticket) : Q :=
  inject_Z (getTime (t_updated_at t) - getTime (t_created_at t)) / inject_Z (1000 * 60 * 60).

Definition getUserSupportTicketStats (userId : string) (table : list Ticket) : Stats :=
  let tickets := eq_ t_user_id userId table in
  let resolved := List.filter isResolved tickets in
  let totalResolutionTime := foldl (λ total t, (total + resolutionHours t)%Q) 0%Q resolved in
  let resolvedCount := Z.of_nat (length resolved) in
  {| totalTickets := Z.of_nat (length tickets);
     statusCounts :=
       countBy t_status {[ "open" := 0; "in-progress" := 0; "resolved" := 0; "closed" := 0 ]}
         tickets;
     priorityCounts :=
       countBy t_priority {[ "low" := 0; "medium" := 0; "high" := 0 ]} tickets;
     averageResolutionHours :=
       if 0 <? resolvedCount then round (totalResolutionTime / inject_Z resolvedCount) else 0 |}.

End Statistics.

Definition ticketOf (id user st priority : string) : Ticket :=
  {| t_id := id; t_user_id := user; t_subject := "Subject"; t_message := "Message";
     t_status := st; t_priority := priority; t_responses := None; t_admin_notes := None;
     t_created_at := "2024-01-30T10:00:00.000Z"; t_updated_at := "2024-01-30T12:00:00.000Z" |}.

Definition exampleTickets : list Ticket :=
  [ ticketOf "t1" "u2" "open" "High"; ticketOf "t2" "u2" "Resolved" "low";
    ticketOf "t3" "u3" "open" "medium"; ticketOf "t4" "u2" "escalated" "urgent" ].

End Tickets.

(** ** Diagnosis images (the diagnosis routes) *)

Module Images.

Import Store.

(** [s.split("/")]. *)
Fixpoint split (s : string) : list string :=
  match s with
  | EmptyString => [EmptyString]
  | String c rest =>
      if bool_decide (c = "/"%char) then EmptyString :: split rest
      else match split rest with
           | part :: parts => String c part :: parts
           | [] => [String c EmptyString]
           end
  end.

(** [parts.join("/")]. *)
Definition join (parts : list string) : string := String.concat "/" parts.

(** [parts.indexOf(x)]: the first position, or -1. *)
Fixpoint indexOf (x : string) (parts : list string) : Z :=
  match parts with
  | [] => -1
  | p :: rest =>
      if bool_decide (p = x) then 0
      else let i := indexOf x rest in if i <? 0 then -1 else i + 1
  end.

(** The path of a stored image, taken from its URL:
    [urlParts.slice(urlParts.indexOf("diagnosis-images") + 1).join("/")]. *)
Definition filePath (url : string) : string :=
  let urlParts := split url in
  join (drop (Z.to_nat (indexOf "diagnosis-images" urlParts + 1)) urlParts).

(** [name.replace(/[^a-zA-Z0-9.-]/g, "_")] on the code units of a file name. *)
Definition safeUnit (c : N) : bool :=
  (((97 <=? c) && (c <=? 122)) || ((65 <=? c) && (c <=? 90)) || ((48 <=? c) && (c <=? 57))
   || (c =? 46) || (c =? 45))%N.

Definition replaceUnsafe (name : list N) : list N :=
  map (λ c, if safeUnit c then c else 95%N) name.

(** A diagnosis with its image links, and the bucket of stored images. *)
Record Diagnosis := {
  id : string;
  image_links : option (list string)
}.

Record Media := {
  diagnoses : list Diagnosis;
  objects : list string
}.

(** [storage.from("diagnosis-images").remove(filePaths)]. *)
Definition remove (filePaths : list string) (objs : list string) : list string :=
  List.filter (λ o, negb (bool_decide (o ∈ filePaths))) objs.

(** [handleDeleteDiagnosis]: the images of the diagnosis are removed from
    the bucket, then the row is deleted. *)
Definition handleDeleteDiagnosis (diagnosisId : option string) (m : Media) : Response * Media :=
  if Js.falsy diagnosisId then
    (json_status (ErrorBody "Diagnosis ID is required") 400, m)
  else
    let diagnosisId := default "" diagnosisId in
    let diagnosis := single (eq_ id diagnosisId (diagnoses m)) in
    let objects' :=
      match diagnosis ≫= image_links with
      | Some links =>
          if 0 <? Z.of_nat (length links) then remove (map filePath links) (objects m)
          else objects m
      | None => objects m
      end in
    (json (MessageBody "Diagnosis deleted successfully"),
     {| diagnoses := delete_eq id diagnosisId (diagnoses m); objects := objects' |}).

Definition publicUrl (path : string) : string :=
  "https://hdms.supabase.co/storage/v1/object/public/diagnosis-images/" +:+ path.

Definition exampleMedia : Media :=
  {| diagnoses := [ {| id := "d1"; image_links := Some [ publicUrl "d1/17-scan.png";
                                                          publicUrl "d1/18-scan_2.png" ] |};
                    {| id := "d2"; image_links := Some [ publicUrl "d2/19-ct.png" ] |} ];
     objects := [ "d1/17-scan.png"; "d1/18-scan_2.png"; "d2/19-ct.png" ] |}.

End Images.

(** ** Creating a user (POST /api/admin/users/create) *)

Module UserCreation.

Import Store Auth.

Record CreateBody := {
  cb_email : option string;
  cb_fullName : option string;
  cb_hospitalId : option string;
  cb_role : option string;
  cb_expertise : option string;
  cb_phone : option string
}.

(** The answers of the handler: an error with its status, or the created
    row with the temporary password. *)
Inductive Answer :=
| Refused (error : string) (status : Z)
| Created (user : UserRow) (password : string).

(** [a || null] for a nullable column. *)
Definition or_null (a : option string) : option string :=
  if Js.truthy a then a else None.

Section Handler.

Context {Security : Type}.

(** The message of the provider when the email is already registered. *)
Variable emailTaken : string.

(** [handler(req, user)] of the route: the caller must be an admin, the
    method POST, the three fields present and the email unknown; then the
    account is created with a temporary password, which the provider
    refuses when it has an account under the email (500), and the user
    row inserted, not verified, not admin, not disabled. The hospital id
    is not looked up. *)
Definition handler (env : Env) (method : string) (body : CreateBody) (user : option string)
  (w : World Security) : Answer * World Security :=
  let data := user ≫= λ id, single (eq_ u_id id (users (db w))) in
  if Users.notAdmin data then (Refused "Unauthorized: Admin access required" 403, w)
  else if negb (bool_decide (method = "POST")) then (Refused "Method not allowed" 405, w)
  else if Js.falsy (cb_email body) || Js.falsy (cb_fullName body)
          || Js.falsy (cb_hospitalId body) then
    (Refused "Email, full name, and hospital ID are required" 400, w)
  else
    let email_ := default "" (cb_email body) in
    let fullName := default "" (cb_fullName body) in
    match single (eq_ u_email email_ (users (db w))) with
    | Some existingUser => (Refused "User with this email already exists" 400, w)
    | None =>
        match List.find (λ a, bool_decide (acc_email a = email_)) (accounts w) with
        | Some registered => (Refused emailTaken 500, w)
        | None =>
            let authUser := {| acc_id := fresh_id env; acc_email := email_;
                               acc_password := temporaryPassword env;
                               acc_disabled := None |} in
            let w := with_accounts (accounts w ++ [authUser]) w in
            let userData :=
              {| u_id := acc_id authUser; u_email := email_; u_full_name := fullName;
                 u_hospital_id := cb_hospitalId body;
                 u_expertise := or_null (cb_expertise body);
                 u_phone := or_null (cb_phone body);
                 u_is_verified := false; u_is_admin := false; u_is_disabled := false;
                 u_last_login := None; u_updated_at := now env |} in
            let w := with_db (set_users (users (db w) ++ [userData]) (db w)) w in
            (Created userData (temporaryPassword env), w)
        end
    end.

End Handler.

Definition exampleBody : CreateBody :=
  {| cb_email := Some "intern@hdms.rw"; cb_fullName := Some "Intern"; cb_hospitalId := Some "h2";
     cb_role := None; cb_expertise := Some ""; cb_phone := None |}.

End UserCreation.

(** * Properties *)

(** ** JavaScript helpers *)

Lemma div_finite a b : Qeq_bool b 0 = false → Js.div a b = Js.Finite (a / b).
Proof. intros H. unfold Js.div. by rewrite H. Qed.

Lemma inject_Z_pos_nonzero z : 0 < z → Qeq_bool (inject_Z z) 0 = false.
Proof.
  intros Hz. unfold Qeq_bool, inject_Z. simpl.
  apply Z.eqb_neq. lia.
Qed.

(** ** Billing *)

Section BillingProperties.

Variable defaultCategory : string.
Variable unitCost : string → Z.

Local Abbreviation addDiagnosis := (Billing.addDiagnosis defaultCategory unitCost).
Local Abbreviation accumulate := (Billing.accumulate defaultCategory unitCost).
Local Abbreviation aggregate := (Billing.aggregate defaultCategory unitCost).
Local Abbreviation getBillingData := (Billing.getBillingData defaultCategory unitCost).
Local Abbreviation matching := Billing.matching.

Lemma map_sum_empty : Billing.map_sum ∅ = 0.
Proof. unfold Billing.map_sum. by rewrite map_fold_empty. Qed.

Lemma map_sum_insert_fresh (m : gmap string Z) k v :
  m !! k = None → Billing.map_sum (<[k:=v]> m) = v + Billing.map_sum m.
Proof.
  intros Hk. unfold Billing.map_sum.
  rewrite map_fold_insert_L; [done| |done].
  intros. lia.
Qed.

Lemma map_sum_delete (m : gmap string Z) k v :
  m !! k = Some v → Billing.map_sum m = v + Billing.map_sum (delete k m).
Proof.
  intros Hk. unfold Billing.map_sum.
  rewrite (map_fold_delete_L _ _ k v m); [done| |done].
  intros. lia.
Qed.

Lemma map_sum_bump (m : gmap string Z) k c :
  Billing.map_sum (Billing.bump k c m) = Billing.map_sum m + c.
Proof.
  unfold Billing.bump. destruct (m !! k) as [v|] eqn:Hk; simpl.
  - rewrite <- insert_delete_eq.
    rewrite map_sum_insert_fresh by apply lookup_delete_eq.
    rewrite (map_sum_delete m k v Hk). lia.
  - rewrite map_sum_insert_fresh by done. lia.
Qed.

Lemma balanced_zero : Billing.balanced Billing.zeroSummary.
Proof. split; simpl; apply map_sum_empty. Qed.

Lemma balanced_addDiagnosis s d : Billing.balanced s → Billing.balanced (addDiagnosis s d).
Proof.
  intros [Hcost Hcount]. split; simpl; rewrite map_sum_bump; lia.
Qed.

Lemma overall_foldl ds b :
  Billing.overall (foldl accumulate b ds) = foldl addDiagnosis (Billing.overall b) ds.
Proof.
  revert b. induction ds as [|d ds IH]; intros b; simpl; [done|].
  by rewrite IH.
Qed.

Lemma balanced_foldl ds s : Billing.balanced s → Billing.balanced (foldl addDiagnosis s ds).
Proof.
  revert s. induction ds as [|d ds IH]; intros s Hs; simpl; [done|].
  apply IH, balanced_addDiagnosis, Hs.
Qed.

Lemma balanced_addToHospitals hs d :
  Forall (λ h, Billing.balanced (Billing.hs_summary h)) hs →
  Forall (λ h, Billing.balanced (Billing.hs_summary h))
    (Billing.addToHospitals defaultCategory unitCost hs d).
Proof.
  induction hs as [|h hs IH]; intros Hall; simpl.
  - repeat constructor; simpl; rewrite map_sum_bump, map_sum_empty; lia.
  - apply Forall_cons in Hall as [Hh Hall]. destruct (bool_decide _).
    + constructor; [by apply balanced_addDiagnosis|done].
    + constructor; [done|by apply IH].
Qed.

(** The summary of every hospital is balanced as well. *)
Lemma hospitals_balanced ds :
  Forall (λ h, Billing.balanced (Billing.hs_summary h)) (Billing.hospitals (aggregate ds)).
Proof.
  unfold Billing.aggregate.
  assert (∀ b, Forall (λ h, Billing.balanced (Billing.hs_summary h)) (Billing.hospitals b) →
               Forall (λ h, Billing.balanced (Billing.hs_summary h))
                 (Billing.hospitals (foldl accumulate b ds))) as Hgen.
  { induction ds as [|d ds IH]; intros b Hb; simpl; [done|].
    apply IH. simpl. by apply balanced_addToHospitals. }
  apply Hgen. constructor.
Qed.

(** C2: for every list of diagnoses handed to the aggregator, the per-type
    costs of the overall summary add up to its total amount and the per-type
    counts add up to its number of diagnoses. *)
Theorem aggregate_totals_are_sums (ds : list Billing.Diagnosis) :
  Billing.map_sum (Billing.diagnosisCosts (Billing.overall (aggregate ds)))
    = Billing.totalAmount (Billing.overall (aggregate ds))
  ∧ Billing.map_sum (Billing.diagnosisCounts (Billing.overall (aggregate ds)))
    = Billing.totalDiagnoses (Billing.overall (aggregate ds)).
Proof.
  unfold Billing.aggregate. rewrite overall_foldl. simpl.
  apply balanced_foldl, balanced_zero.
Qed.

Lemma percentage_zero_total total amount :
  total ≤ 0 → Billing.percentageOfTotal total amount = Js.Finite 0.
Proof.
  intros Hle. unfold Billing.percentageOfTotal.
  destruct (0 <? total) eqn:Hpos; [|done].
  apply Z.ltb_lt in Hpos. lia.
Qed.

Lemma percentage_is_finite total amount :
  Js.is_finite (Billing.percentageOfTotal total amount) = true.
Proof.
  unfold Billing.percentageOfTotal.
  destruct (0 <? total) eqn:Hpos; [|done].
  apply Z.ltb_lt in Hpos.
  by rewrite div_finite by (by apply inject_Z_pos_nonzero).
Qed.

Lemma averageCost_is_finite h : Js.is_finite (Billing.averageCost h) = true.
Proof.
  unfold Billing.averageCost.
  destruct (0 <? Z.of_nat (length (Billing.hs_diagnoses h))) eqn:Hpos; [|done].
  apply Z.ltb_lt in Hpos.
  by rewrite div_finite by (by apply inject_Z_pos_nonzero).
Qed.

(** C1: when no diagnosis matches the query, the aggregator answers with data
    and no error; the overall amount and diagnosis count are zero, both
    per-type maps are empty and no hospital is listed; the dashboard shows
    that zero summary, and a percentage taken over a zero total is the finite
    number 0, shown as 0%, whatever the amount. *)
Theorem empty_range_zero_summary (q : Billing.BillingQuery) (store : list Billing.Diagnosis) :
  matching q store = [] →
  ∃ b,
    getBillingData q store
      = {| Billing.billingData := Some b; Billing.billingError := None |}
    ∧ Billing.totalAmount (Billing.overall b) = 0
    ∧ Billing.totalDiagnoses (Billing.overall b) = 0
    ∧ Billing.diagnosisCounts (Billing.overall b) = ∅
    ∧ Billing.diagnosisCosts (Billing.overall b) = ∅
    ∧ Billing.hospitals b = []
    ∧ Billing.overallStats (Some b) = Billing.zeroSummary
    ∧ Billing.tableTotalAmount (Billing.hospitals b) = 0
    ∧ ∀ amount,
        Billing.percentageOfTotal (Billing.tableTotalAmount (Billing.hospitals b)) amount
          = Js.Finite 0
        ∧ Billing.percentageOfTotal (Billing.totalAmount (Billing.overall b)) amount
          = Js.Finite 0
        ∧ ∀ toFixed1,
            Billing.percentageLabel toFixed1
              (Billing.tableTotalAmount (Billing.hospitals b)) amount = "0%".
Proof.
  intros Hnone. eexists. split.
  - unfold Billing.getBillingData. rewrite Hnone. reflexivity.
  - simpl. repeat split; reflexivity.
Qed.

End BillingProperties.

Lemma empty_range_zero_summary_witness :
  Billing.matching Billing.emptyQuery Billing.exampleStore = []
  ∧ ∃ b,
      Billing.getBillingData "Other" Billing.examplePrices Billing.emptyQuery Billing.exampleStore
        = {| Billing.billingData := Some b; Billing.billingError := None |}
      ∧ Billing.totalAmount (Billing.overall b) = 0.
Proof.
  split; [reflexivity|].
  destruct (empty_range_zero_summary "Other" Billing.examplePrices
              Billing.emptyQuery Billing.exampleStore eq_refl)
    as (b & Hres & Hamount & _).
  exists b. split; assumption.
Defined.

(** The scenario of the specification: total 70,000 over five diagnoses,
    three CT for 30,000 and two MRI for 40,000. *)
Example example_scenario :
  let b := Billing.aggregate "Other" Billing.examplePrices
             (Billing.matching Billing.exampleQuery Billing.exampleStore) in
  Billing.totalAmount (Billing.overall b) = 70000
  ∧ Billing.totalDiagnoses (Billing.overall b) = 5
  ∧ Billing.diagnosisCounts (Billing.overall b) !! "CT" = Some 3
  ∧ Billing.diagnosisCounts (Billing.overall b) !! "MRI" = Some 2
  ∧ Billing.diagnosisCosts (Billing.overall b) !! "CT" = Some 30000
  ∧ Billing.diagnosisCosts (Billing.overall b) !! "MRI" = Some 40000
  ∧ map Billing.hospitalName (Billing.hospitals b) = ["General Hospital"].
Proof. vm_compute. repeat split. Qed.

(** ** Invoice status *)

Section InvoiceLifecycle.

Import Invoices.


Lemma frozen_same_status a b : frozen a b → status a = status b → a = b.
Proof.
  destruct a, b. unfold frozen, set_status. simpl.
  intros Hf Hs. injection Hf as -> -> -> -> -> -> -> -> ->. by subst.
Qed.

#[local] Instance frozen_equiv : Equivalence frozen.
Proof.
  unfold frozen. split.
  - by intros a.
  - by intros a b.
  - intros a b c Hab Hbc. by rewrite Hab.
Qed.




Lemma transition_not_to_pending s s' : transition s s' → s' ≠ "pending".
Proof. by destruct 1. Qed.








End InvoiceLifecycle.


(** ** Invoice layout *)

Section RendererProperties.

Import Invoices.

Variable Browser : Type.
Variable format : Browser → string → string → string.
Variable formatCurrency : Browser → Q → string.
Variable Document : Type.
Variable renderDocument : Browser → string → string → Document.

Local Abbreviation html := (generateInvoiceHTML Browser format formatCurrency).
Local Abbreviation pdf :=
  (generateInvoicePDF Browser format formatCurrency Document renderDocument).
Local Abbreviation rows inv := (entries (diagnosisByType (billedDiagnoses inv))).

(** In one browser the layout is determined by the invoice number, the
    three dates, the status, the total, the billed name and address and the
    rows of the table. *)
Lemma html_read_set env a b :
  invoice_number a = invoice_number b →
  billedName a = billedName b →
  billedAddress a = billedAddress b →
  date_generated a = date_generated b →
  start_date a = start_date b →
  end_date a = end_date b →
  status a = status b →
  rows a = rows b →
  total_amount a = total_amount b →
  html env a = html env b.
Proof.
  intros Hn Hbn Hba Hd Hs He Hst Hds Ht. unfold generateInvoiceHTML, diagnosisRows.
  by rewrite Hn, Hbn, Hba, Hd, Hs, He, Hst, Hds, Ht.
Qed.

Lemma pdf_read_set env a b :
  invoice_number a = invoice_number b → html env a = html env b → pdf env a = pdf env b.
Proof. intros Hn Hhtml. unfold generateInvoicePDF. by rewrite Hhtml, Hn. Qed.

(** C4 (as amended): in one browser, two invoice objects get the same layout
    and the same document when they agree on the invoice number, the three
    dates, the status, the total amount, the name and the address billed
    (those of the snapshot, or of the joined hospital row where the
    snapshot has none) and the rows of the table, which are computed from
    the types and costs of the snapshot's diagnoses: nothing else of the
    object is read. So they do when they have the same details snapshot,
    number, dates, total amount and status and the same joined hospital
    row; and the joined rows do not matter when the snapshot itself names
    the hospital and its address. *)
Theorem invoice_document_determined env (a b : Invoice) :
  (invoice_number a = invoice_number b →
   date_generated a = date_generated b →
   start_date a = start_date b →
   end_date a = end_date b →
   status a = status b →
   total_amount a = total_amount b →
   billedName a = billedName b →
   billedAddress a = billedAddress b →
   rows a = rows b →
   html env a = html env b ∧ pdf env a = pdf env b)
  ∧ (sameSnapshot a b → hospitals a = hospitals b →
     html env a = html env b ∧ pdf env a = pdf env b)
  ∧ (sameSnapshot a b →
     Js.truthy (details a ≫= det_hospitalName) = true →
     Js.truthy (details a ≫= det_hospitalAddress) = true →
     html env a = html env b ∧ pdf env a = pdf env b).
Proof.
  assert (∀ x y, invoice_number x = invoice_number y → html env x = html env y →
                 html env x = html env y ∧ pdf env x = pdf env y) as Hboth
    by (intros x y Hn Hhtml; split; [done|by apply pdf_read_set]).
  split; [|split].
  - intros Hn Hd Hs He Hst Ht Hbn Hba Hrows. apply Hboth; [done|].
    by apply html_read_set.
  - intros (Hdet & Hn & Hd & Hs & He & Ht & Hst) Hjoin. apply Hboth; [done|].
    apply html_read_set; try done.
    + unfold billedName. by rewrite Hdet, Hjoin.
    + unfold billedAddress. by rewrite Hdet, Hjoin.
    + unfold billedDiagnoses. by rewrite Hdet.
  - intros (Hdet & Hn & Hd & Hs & He & Ht & Hst) Hname Haddr. apply Hboth; [done|].
    apply html_read_set; try done.
    + unfold billedName, Js.or_opt. rewrite <- Hdet. by rewrite Hname.
    + unfold billedAddress, Js.or_opt. rewrite <- Hdet. by rewrite Haddr.
    + unfold billedDiagnoses. by rewrite Hdet.
Qed.

End RendererProperties.

(** C4 (as stated) fails. The same stored invoice fetched before and after
    its hospital was renamed has the same snapshot, number, dates, total and
    status, and in one browser two different layouts. And one invoice
    object rendered twice in a browser, two hours apart, gives two
    documents that differ in the creation time. *)
Lemma rendering_follows_joined_row_and_clock :
  Invoices.sameSnapshot Invoices.fetchedBeforeRename Invoices.fetchedAfterRename
  ∧ Invoices.generateInvoiceHTML Invoices.ExampleBrowser Invoices.plainFormat
      Invoices.plainCurrency Invoices.kigaliMorning Invoices.fetchedBeforeRename
    ≠ Invoices.generateInvoiceHTML Invoices.ExampleBrowser Invoices.plainFormat
        Invoices.plainCurrency Invoices.kigaliMorning Invoices.fetchedAfterRename
  ∧ Invoices.generateInvoicePDF Invoices.ExampleBrowser Invoices.plainFormat
      Invoices.plainCurrency _ Invoices.stampedDocument Invoices.kigaliMorning
      Invoices.fetchedBeforeRename
    ≠ Invoices.generateInvoicePDF Invoices.ExampleBrowser Invoices.plainFormat
        Invoices.plainCurrency _ Invoices.stampedDocument Invoices.kigaliNoon
        Invoices.fetchedBeforeRename.
Proof.
  split; [by repeat split|]. split.
  - intros Heq.
    assert (String.eqb
              (Invoices.generateInvoiceHTML Invoices.ExampleBrowser Invoices.plainFormat
                 Invoices.plainCurrency Invoices.kigaliMorning Invoices.fetchedBeforeRename)
              (Invoices.generateInvoiceHTML Invoices.ExampleBrowser Invoices.plainFormat
                 Invoices.plainCurrency Invoices.kigaliMorning Invoices.fetchedAfterRename)
            = true) as Hb
      by (rewrite Heq; apply String.eqb_refl).
    vm_compute in Hb. discriminate Hb.
  - unfold Invoices.generateInvoicePDF, Invoices.stampedDocument. intros Heq.
    apply (f_equal snd) in Heq. simpl in Heq. discriminate Heq.
Qed.

Lemma invoice_document_determined_witness :
  Invoices.generateInvoiceHTML Invoices.ExampleBrowser Invoices.plainFormat
    Invoices.plainCurrency Invoices.kigaliMorning Invoices.fetchedBeforeRename
  = Invoices.generateInvoiceHTML Invoices.ExampleBrowser Invoices.plainFormat
      Invoices.plainCurrency Invoices.kigaliMorning
      (Invoices.recreated Invoices.fetchedBeforeRename)
  ∧ Invoices.generateInvoicePDF Invoices.ExampleBrowser Invoices.plainFormat
      Invoices.plainCurrency _ Invoices.stampedDocument Invoices.kigaliMorning
      Invoices.fetchedBeforeRename
    = Invoices.generateInvoicePDF Invoices.ExampleBrowser Invoices.plainFormat
        Invoices.plainCurrency _ Invoices.stampedDocument Invoices.kigaliMorning
        (Invoices.recreated Invoices.fetchedBeforeRename).
Proof.
  apply (proj1 (proj2 (invoice_document_determined Invoices.ExampleBrowser Invoices.plainFormat
                         Invoices.plainCurrency _ Invoices.stampedDocument
                         Invoices.kigaliMorning Invoices.fetchedBeforeRename
                         (Invoices.recreated Invoices.fetchedBeforeRename)))).
  - repeat split; reflexivity.
  - reflexivity.
Defined.

(** The rows of the worked invoice: two CT scans and one MRI scan, in the
    order the types first occur. *)
Example example_grouping :
  Invoices.entries (Invoices.diagnosisByType (Invoices.billedDiagnoses Invoices.fetchedBeforeRename))
  = [ ("CT", {| Invoices.tt_count := 2; Invoices.tt_cost := 20000 |});
      ("MRI", {| Invoices.tt_count := 1; Invoices.tt_cost := 20000 |}) ].
Proof. reflexivity. Qed.

(** Keys that are array indices come first, in numeric order. *)
Example example_entries_order :
  map fst (Invoices.entries [("b", 1); ("10", 2); ("a", 3); ("2", 4); ("01", 5)])
  = ["2"; "10"; "b"; "a"; "01"].
Proof. reflexivity. Qed.

(** ** Queries *)

Section Queries.

Import Store.

Lemma count_pos {A} (rows : list A) : (0 <? count rows) = negb (bool_decide (rows = [])).
Proof. by destruct rows. Qed.

Lemma elem_of_eq_ {A} (column : A → string) value (rows : list A) r :
  r ∈ eq_ column value rows ↔ r ∈ rows ∧ column r = value.
Proof.
  unfold eq_. rewrite !list_elem_of_In, filter_In.
  by rewrite bool_decide_eq_true.
Qed.

Lemma elem_of_delete_eq {A} (column : A → string) value (rows : list A) r :
  r ∈ delete_eq column value rows ↔ r ∈ rows ∧ column r ≠ value.
Proof.
  unfold delete_eq. rewrite !list_elem_of_In, filter_In.
  by rewrite negb_true_iff, bool_decide_eq_false.
Qed.

Lemma eq_absent {A} (column : A → string) value (rows : list A) :
  (∀ r, r ∈ rows → column r ≠ value) → eq_ column value rows = [].
Proof.
  intros Hno. destruct (eq_ column value rows) as [|r rest] eqn:Heq; [done|].
  assert (r ∈ eq_ column value rows) as Hr by (rewrite Heq; left).
  apply elem_of_eq_ in Hr as [Hr Hc]. by destruct (Hno r Hr).
Qed.

(** A key column: the row found under a value is the only one. *)
Lemma eq_unique {A} (column : A → string) (rows : list A) r :
  NoDup (map column rows) → r ∈ rows → eq_ column (column r) rows = [r].
Proof.
  induction rows as [|x rows IH]; intros Hnd Hr; [by apply elem_of_nil in Hr|].
  apply NoDup_cons in Hnd as [Hx Hnd]. unfold eq_ in *. simpl.
  apply elem_of_cons in Hr as [->|Hr].
  - rewrite bool_decide_eq_true_2 by done. f_equal.
    apply (eq_absent column (column x) rows).
    intros r Hr Heq. apply Hx. rewrite <- Heq. by apply list_elem_of_fmap_2.
  - rewrite bool_decide_eq_false_2; [by apply IH|].
    intros Heq. apply Hx. rewrite Heq. by apply list_elem_of_fmap_2.
Qed.

Lemma update_eq_lookup {A} (f : A → A) (column : A → string) value (rows : list A) :
  (∀ r, column (f r) = column r) →
  eq_ column value (update_eq f column value rows) = map f (eq_ column value rows).
Proof.
  intros Hkey. unfold eq_, update_eq. induction rows as [|x rows IH]; [done|].
  simpl. destruct (decide (column x = value)) as [Hx|Hx].
  - rewrite (bool_decide_eq_true_2 _ Hx). simpl.
    rewrite bool_decide_eq_true_2 by (by rewrite Hkey). simpl. by rewrite IH.
  - rewrite (bool_decide_eq_false_2 _ Hx). simpl.
    by rewrite (bool_decide_eq_false_2 _ Hx).
Qed.

End Queries.

(** ** Hospitals *)

Section HospitalProperties.

Import Store Hospitals.

(** C5: a delete request that names a hospital with a referencing user or a
    referencing diagnosis is answered with status 400 and one of the two
    descriptive errors, and the store is unchanged; when nothing references
    the hospital the answer is the success message and exactly the rows of
    that hospital are removed. *)
Theorem delete_hospital_guard (id : string) (db : Database) :
  id ≠ "" →
  (referencingUsers id db ≠ [] ∨ referencingDiagnoses id db ≠ [] →
     ∃ msg,
       handleDeleteHospital {| db_hospitalId := Some id |} db
         = (json_status (ErrorBody msg) 400, db)
       ∧ (msg = "Cannot delete hospital with associated users. Please reassign or delete users first."
          ∨ msg = "Cannot delete hospital with associated diagnoses. Please reassign or delete diagnoses first."))
  ∧ (referencingUsers id db = [] → referencingDiagnoses id db = [] →
       ∃ db',
         handleDeleteHospital {| db_hospitalId := Some id |} db
           = (json (MessageBody "Hospital deleted successfully"), db')
         ∧ users db' = users db ∧ diagnoses db' = diagnoses db
         ∧ ∀ h, h ∈ hospitals db' ↔ h ∈ hospitals db ∧ h_id h ≠ id).
Proof.
  intros Hid. unfold handleDeleteHospital. simpl.
  rewrite (bool_decide_eq_false_2 _ Hid). rewrite !count_pos.
  change (eq_null u_hospital_id id (users db)) with (referencingUsers id db).
  change (eq_ dg_hospital_id id (diagnoses db)) with (referencingDiagnoses id db).
  split.
  - intros Href. destruct (decide (referencingUsers id db = [])) as [Hu|Hu].
    + destruct Href as [Href|Href]; [done|].
      rewrite (bool_decide_eq_true_2 _ Hu), (bool_decide_eq_false_2 _ Href). simpl.
      eexists. split; [done|]. by right.
    + rewrite (bool_decide_eq_false_2 _ Hu). simpl.
      eexists. split; [done|]. by left.
  - intros Hu Hd. rewrite Hu, Hd. simpl. eexists. split; [done|].
    split; [done|]. split; [done|]. intros h. simpl. apply elem_of_delete_eq.
Qed.

Lemma create_rejects_existing_code env body code (db : Database) :
  cb_code body = Some code →
  NoDup (map h_code (hospitals db)) →
  (∃ h, h ∈ hospitals db ∧ h_code h = code) →
  handleCreateHospital env body db
  = (json_status
       (ErrorBody (if Js.truthy (cb_name body) && Js.truthy (cb_address body)
                      && Js.truthy (cb_code body)
                   then "Hospital code already exists"
                   else "Name, address, and code are required")) 400, db).
Proof.
  intros Hcode Hnd (h & Hh & <-). unfold handleCreateHospital, Js.truthy.
  rewrite <- !negb_orb.
  destruct (Js.falsy (cb_name body) || Js.falsy (cb_address body) || Js.falsy (cb_code body))
    eqn:Hfalsy; simpl; [done|].
  rewrite Hcode. simpl. by rewrite (eq_unique h_code _ h Hnd Hh).
Qed.

Lemma create_accepts_new_code env name address code (db : Database) :
  name ≠ "" → address ≠ "" → code ≠ "" →
  (∀ h, h ∈ hospitals db → h_code h ≠ code) →
  let row := {| h_id := fresh_id env; h_name := name; h_address := address;
                h_code := code; h_created_at := now env; h_updated_at := now env |} in
  handleCreateHospital env {| cb_name := Some name; cb_address := Some address;
                              cb_code := Some code |} db
  = (json (HospitalBody row), set_hospitals (hospitals db ++ [row]) db).
Proof.
  intros Hn Ha Hc Hnew. unfold handleCreateHospital. simpl.
  rewrite !bool_decide_eq_false_2 by done. simpl.
  by rewrite (eq_absent h_code code _ Hnew).
Qed.

(** C9 (as amended): in a table whose codes are unique, a POST whose code is
    the code of an existing hospital is answered with status 400 and an
    error, "Hospital code already exists" when name, address and code are
    all present and "Name, address, and code are required" otherwise, and
    the store is unchanged; a POST with name, address and a new code is
    answered with status 200 and the created hospital, which is appended to
    the table. *)
Theorem create_hospital_conflict env (db : Database) :
  NoDup (map h_code (hospitals db)) →
  (∀ body code,
     cb_code body = Some code →
     (∃ h, h ∈ hospitals db ∧ h_code h = code) →
     handleCreateHospital env body db
     = (json_status
          (ErrorBody (if Js.truthy (cb_name body) && Js.truthy (cb_address body)
                         && Js.truthy (cb_code body)
                      then "Hospital code already exists"
                      else "Name, address, and code are required")) 400, db))
  ∧ (∀ name address code,
       name ≠ "" → address ≠ "" → code ≠ "" →
       (∀ h, h ∈ hospitals db → h_code h ≠ code) →
       ∃ row db',
         handleCreateHospital env {| cb_name := Some name; cb_address := Some address;
                                     cb_code := Some code |} db
           = (json (HospitalBody row), db')
         ∧ h_name row = name ∧ h_address row = address ∧ h_code row = code
         ∧ hospitals db' = hospitals db ++ [row]
         ∧ NoDup (map h_code (hospitals db'))).
Proof.
  intros Hnd. split.
  - intros body code Hcode Hex. by apply (create_rejects_existing_code env body code).
  - intros name address code Hn Ha Hc Hnew.
    eexists _, _. split; [by apply create_accepts_new_code|].
    repeat split. simpl. rewrite map_app. apply NoDup_app. split; [done|].
    split; [|apply NoDup_singleton].
    intros c Hin Hc'. simpl in Hc'. apply list_elem_of_singleton in Hc'. subst c.
    apply list_elem_of_fmap in Hin as (h & Hcode & Hh). by destruct (Hnew h Hh).
Qed.

End HospitalProperties.

Lemma delete_hospital_guard_witness :
  (∃ msg,
     Hospitals.handleDeleteHospital {| Hospitals.db_hospitalId := Some "h1" |} Example.database
       = (Store.json_status (Store.ErrorBody msg) 400, Example.database)
     ∧ (msg = "Cannot delete hospital with associated users. Please reassign or delete users first."
        ∨ msg = "Cannot delete hospital with associated diagnoses. Please reassign or delete diagnoses first."))
  ∧ (∃ db',
       Hospitals.handleDeleteHospital {| Hospitals.db_hospitalId := Some "h3" |} Example.database
         = (Store.json (Store.MessageBody "Hospital deleted successfully"), db')
       ∧ map Store.h_id (Store.hospitals db') = ["h1"; "h2"]).
Proof.
  split.
  - apply (proj1 (delete_hospital_guard "h1" Example.database ltac:(discriminate))).
    left. discriminate.
  - destruct (proj2 (delete_hospital_guard "h3" Example.database ltac:(discriminate))
                eq_refl eq_refl) as (db' & Hres & _).
    exists db'. split; [exact Hres|].
    vm_compute in Hres. injection Hres as <-. reflexivity.
Defined.

(** C9 (as stated) fails: a POST with the code of an existing hospital is
    answered with status 400, not 409. *)
Lemma duplicate_code_is_answered_400 :
  (∃ h, h ∈ Store.hospitals Example.database
        ∧ Hospitals.cb_code Example.duplicateCodeBody = Some (Store.h_code h))
  ∧ Hospitals.handleCreateHospital Example.env Example.duplicateCodeBody Example.database
    = (Store.json_status (Store.ErrorBody "Hospital code already exists") 400, Example.database)
  ∧ Store.res_status
      (fst (Hospitals.handleCreateHospital Example.env Example.duplicateCodeBody Example.database))
    ≠ 409.
Proof.
  split; [|split].
  - exists (Example.hospital "h1" "General Hospital" "HSP-00001"). split; [left|reflexivity].
  - reflexivity.
  - vm_compute. discriminate.
Qed.

Lemma create_hospital_conflict_witness :
  ∃ row db',
    Hospitals.handleCreateHospital Example.env
      {| Hospitals.cb_name := Some "Muhima Hospital"; Hospitals.cb_address := Some "KN 9 Rd";
         Hospitals.cb_code := Some "HSP-00004" |} Example.database
    = (Store.json (Store.HospitalBody row), db')
    ∧ Store.h_code row = "HSP-00004".
Proof.
  assert (NoDup (map Store.h_code (Store.hospitals Example.database))) as Hnd.
  { apply (bool_decide_unpack _). vm_compute. exact I. }
  destruct (proj2 (create_hospital_conflict Example.env Example.database Hnd)
              "Muhima Hospital" "KN 9 Rd" "HSP-00004"
              ltac:(discriminate) ltac:(discriminate) ltac:(discriminate))
    as (row & db' & Hres & _ & _ & Hcode & _).
  - intros h Hh. vm_compute in Hh.
    repeat (apply elem_of_cons in Hh as [->|Hh]; [discriminate|]).
    by apply elem_of_nil in Hh.
  - by exists row, db'.
Defined.

(** ** Sign-in *)

Section SignInProperties.

Import Store Auth.

Context {Security : Type}.
Variable getRecentFailedLoginAttempts : Security → string → Attempts.
Variable recordFailedLoginAttempt : Security → string → Security.
Variable clearFailedLoginAttempts : Security → string → Security.
Variable updateLastLogin : Env → string → list UserRow → list UserRow.

Local Abbreviation signIn :=
  (signIn Security getRecentFailedLoginAttempts recordFailedLoginAttempt
     clearFailedLoginAttempts updateLastLogin).
Local Abbreviation signInAll :=
  (signInAll Security getRecentFailedLoginAttempts recordFailedLoginAttempt
     clearFailedLoginAttempts updateLastLogin).

(** C10: when the security service reports five or more recent failures
    for the email, sign-in returns the "Too many failed login attempts"
    error and leaves the backend as it was: the password is not checked and
    the session is not touched, whatever the password. *)
Theorem signIn_locked_out env (form : SignInForm) (w : World Security) :
  Js.truthy (att_error (getRecentFailedLoginAttempts (security w) (email form))) = false →
  5 ≤ att_count (getRecentFailedLoginAttempts (security w) (email form)) →
  signIn env form w
    = (SignInError "Too many failed login attempts. Please try again later or reset your password.", w)
  ∧ password_checks (snd (signIn env form w)) = password_checks w
  ∧ session (snd (signIn env form w)) = session w.
Proof.
  intros Herr Hcount.
  assert (signIn env form w
          = (SignInError "Too many failed login attempts. Please try again later or reset your password.", w))
    as Hres.
  { unfold Auth.signIn. rewrite Herr.
    by rewrite (proj2 (Z.leb_le _ _) Hcount). }
  by rewrite Hres.
Qed.

Lemma signInWithPassword_account accs em pw a :
  signInWithPassword accs em pw = Some a → a ∈ accs ∧ acc_email a = em ∧ acc_password a = pw.
Proof.
  unfold signInWithPassword.
  destruct (List.find _ accs) as [b|] eqn:Hfind; [|discriminate].
  apply find_some in Hfind as [Hin Hem]. apply bool_decide_eq_true in Hem.
  destruct (bool_decide (acc_password b = pw)) eqn:Hpw; [|discriminate].
  apply bool_decide_eq_true in Hpw. intros [= <-].
  by rewrite list_elem_of_In.
Qed.

(** A sign-in attempt by a disabled user fails, changes neither the tables
    nor the accounts, and leaves no session behind unless one was there
    before and the password was not accepted. *)
Lemma signIn_disabled env (form : SignInForm) (w : World Security) uid row :
  emailOf (accounts w) uid (email form) →
  single (eq_ u_id uid (users (db w))) = Some row →
  u_is_disabled row = true →
  failed (fst (signIn env form w)) = true
  ∧ db (snd (signIn env form w)) = db w
  ∧ accounts (snd (signIn env form w)) = accounts w
  ∧ (session (snd (signIn env form w)) = None
     ∨ session (snd (signIn env form w)) = session w).
Proof.
  intros Hmail Hrow Hdis. unfold Auth.signIn.
  destruct (Js.truthy _); [by repeat split; try right|].
  destruct (5 <=? _); [by repeat split; try right|].
  simpl. destruct (signInWithPassword _ _ _) as [a|] eqn:Hauth;
    [|by repeat split; try right].
  apply signInWithPassword_account in Hauth as (Hin & Hem & _).
  rewrite (Hmail a Hin Hem). simpl. rewrite Hrow, Hdis. simpl.
  by repeat split; try left.
Qed.

Lemma single_fmap {A B} (f : A → B) (rows : list A) : single (map f rows) = f <$> single rows.
Proof. by destruct rows as [|? [|? ?]]. Qed.

Lemma disabled_after_update env uid body (w w1 : World Security) resp :
  Users.operation body = Some "disable" →
  Users.handleUpdateUser env uid body w = (resp, w1) →
  res_status resp = 200 →
  ∃ row, single (eq_ u_id uid (users (db w))) = Some row
         ∧ single (eq_ u_id uid (users (db w1))) = Some (Users.set_disabled true (now env) row)
         ∧ session w1 = session w.
Proof.
  intros Hop. unfold Users.handleUpdateUser.
  destruct (single _) as [row|] eqn:Hrow; [|by intros [= <- <-]].
  rewrite Hop. simpl. intros [= <- <-] _. exists row. split; [done|]. simpl.
  rewrite update_eq_lookup by done. by rewrite single_fmap, Hrow.
Qed.

Lemma enabled_after_update env uid body (w w1 : World Security) resp :
  Users.operation body = Some "enable" →
  Users.handleUpdateUser env uid body w = (resp, w1) →
  res_status resp = 200 →
  ∃ row, single (eq_ u_id uid (users (db w))) = Some row
         ∧ single (eq_ u_id uid (users (db w1))) = Some (Users.set_disabled false (now env) row).
Proof.
  intros Hop. unfold Users.handleUpdateUser.
  destruct (single _) as [row|] eqn:Hrow; [|by intros [= <- <-]].
  rewrite Hop. simpl. intros [= <- <-] _. exists row. split; [done|]. simpl.
  rewrite update_eq_lookup by done. by rewrite single_fmap, Hrow.
Qed.

(** Every attempt of a run by a disabled user fails without a session. *)
Lemma signInAll_disabled attempts (w : World Security) uid row :
  single (eq_ u_id uid (users (db w))) = Some row →
  u_is_disabled row = true →
  session w = None →
  Forall (λ a, emailOf (accounts w) uid (email (snd a))) attempts →
  Forall (λ rw, failed (fst rw) = true ∧ session (snd rw) = None) (signInAll attempts w).
Proof.
  revert w. induction attempts as [|[env form] rest IH]; intros w Hrow Hdis Hsess Hall;
    [constructor|].
  apply Forall_cons in Hall as [Hmail Hall]. simpl in Hmail.
  destruct (signIn_disabled env form w uid row Hmail Hrow Hdis)
    as (Hfail & Hdb & Hacc & Hs).
  assert (session (snd (signIn env form w)) = None) as Hnone
    by (destruct Hs as [Hs|Hs]; congruence).
  simpl. constructor; [done|].
  apply IH; rewrite ?Hdb, ?Hacc; done.
Qed.

(** Sign-in of an enabled user: accepted password, fewer than five recent
    failures, and the user's own hospital when one is supplied. *)
Lemma signIn_enabled env (form : SignInForm) (w : World Security) account row :
  Js.truthy (att_error (getRecentFailedLoginAttempts (security w) (email form))) = false →
  att_count (getRecentFailedLoginAttempts (security w) (email form)) < 5 →
  signInWithPassword (accounts w) (email form) (password form) = Some account →
  single (eq_ u_id (acc_id account) (users (db w))) = Some row →
  u_is_disabled row = false →
  (Js.truthy (hospitalId form) = true → u_hospital_id row = hospitalId form) →
  fst (signIn env form w) = SignInSuccess
  ∧ session (snd (signIn env form w)) = Some (acc_id account).
Proof.
  intros Herr Hcount Hauth Hrow Hen Hhosp. unfold Auth.signIn.
  rewrite Herr. rewrite (proj2 (Z.leb_gt _ _) Hcount). simpl.
  rewrite Hauth. simpl. rewrite Hrow, Hen.
  destruct (Js.truthy (hospitalId form)) eqn:Ht; simpl; [|done].
  by rewrite (bool_decide_eq_true_2 _ (Hhosp eq_refl)).
Qed.

(** C8 (as amended): once a disable request for a user has succeeded, every
    following sign-in attempt under that user's email fails and leaves no
    session; once an enable request has succeeded, a sign-in whose password
    is accepted succeeds and establishes the user's session, provided the
    security service reports fewer than five recent failures for the email
    and the hospital supplied with the form, if any, is the user's own. *)
Theorem disable_blocks_enable_restores uid :
  (∀ env body (w w1 : World Security) resp attempts,
     Users.operation body = Some "disable" →
     Users.handleUpdateUser env uid body w = (resp, w1) →
     res_status resp = 200 →
     session w1 = None →
     Forall (λ a, emailOf (accounts w1) uid (email (snd a))) attempts →
     Forall (λ rw, failed (fst rw) = true ∧ session (snd rw) = None)
       (signInAll attempts w1))
  ∧ (∀ env env' body (w w1 : World Security) resp form account,
       Users.operation body = Some "enable" →
       Users.handleUpdateUser env uid body w = (resp, w1) →
       res_status resp = 200 →
       signInWithPassword (accounts w1) (email form) (password form) = Some account →
       acc_id account = uid →
       Js.truthy (att_error (getRecentFailedLoginAttempts (security w1) (email form))) = false →
       att_count (getRecentFailedLoginAttempts (security w1) (email form)) < 5 →
       (∀ row, single (eq_ u_id uid (users (db w))) = Some row →
               Js.truthy (hospitalId form) = true → u_hospital_id row = hospitalId form) →
       fst (signIn env' form w1) = SignInSuccess
       ∧ session (snd (signIn env' form w1)) = Some uid).
Proof.
  split.
  - intros env body w w1 resp attempts Hop Hupd Hok Hsess Hall.
    destruct (disabled_after_update _ _ _ _ _ _ Hop Hupd Hok) as (row & _ & Hrow1 & _).
    by eapply signInAll_disabled.
  - intros env env' body w w1 resp form account Hop Hupd Hok Hauth Hid Herr Hcount Hhosp.
    destruct (enabled_after_update _ _ _ _ _ _ Hop Hupd Hok) as (row & Hrow & Hrow1).
    subst uid. eapply signIn_enabled; try done.
    simpl. by apply Hhosp.
Qed.

End SignInProperties.

Lemma signIn_locked_out_witness :
  Example.signInExample Example.env Example.doctorForm
    (Example.world None {[ "doctor@hdms.rw" := 5 ]})
  = (Auth.SignInError "Too many failed login attempts. Please try again later or reset your password.",
     Example.world None {[ "doctor@hdms.rw" := 5 ]}).
Proof.
  apply (signIn_locked_out Auth.counterAttempts Auth.counterRecord Auth.counterClear
           Auth.stampLastLogin Example.env Example.doctorForm
           (Example.world None {[ "doctor@hdms.rw" := 5 ]})).
  - reflexivity.
  - vm_compute. discriminate.
Defined.

(** C8 (as stated) fails: the doctor was disabled and enabled again, both
    requests succeeding, and the right password is accepted by the
    provider; the five wrong guesses made in between still lock the email,
    so the sign-in fails. Without any guess in between, the right password
    given with another hospital than the doctor's is refused as well. And
    an attempt with a wrong password by the disabled doctor, made by a
    client that was signed in before, fails and leaves that session
    established. *)
Lemma enabled_user_still_locked_out :
  Store.res_status (fst (Users.handleUpdateUser Example.env "u2" Example.disableBody
                           (Example.world None ∅))) = 200
  ∧ Store.res_status (fst (Users.handleUpdateUser Example.env "u2" Example.enableBody
                             Example.afterGuesses)) = 200
  ∧ Auth.signInWithPassword (Auth.accounts Example.afterEnable) "doctor@hdms.rw" "doc-pw"
    = Some {| Auth.acc_id := "u2"; Auth.acc_email := "doctor@hdms.rw";
              Auth.acc_password := "doc-pw"; Auth.acc_disabled := Some false |}
  ∧ fst (Example.signInExample Example.env Example.doctorForm Example.afterEnable)
    = Auth.SignInError "Too many failed login attempts. Please try again later or reset your password."
  ∧ fst (Example.signInExample Example.env Example.otherHospitalForm
           (snd (Users.handleUpdateUser Example.env "u2" Example.enableBody
                   Example.afterDisable)))
    = Auth.SignInError "You do not have access to this hospital"
  ∧ Auth.failed
      (fst (Example.signInExample Example.env Example.wrongForm
              (snd (Users.handleUpdateUser Example.env "u2" Example.disableBody
                      (Example.world (Some "u2") ∅))))) = true
  ∧ Auth.session
      (snd (Example.signInExample Example.env Example.wrongForm
              (snd (Users.handleUpdateUser Example.env "u2" Example.disableBody
                      (Example.world (Some "u2") ∅))))) = Some "u2".
Proof. vm_compute. repeat split. Qed.

Lemma disable_blocks_enable_restores_witness :
  Forall (λ rw, Auth.failed (fst rw) = true ∧ Auth.session (snd rw) = None)
    (Auth.signInAll (gmap string Z) Auth.counterAttempts Auth.counterRecord Auth.counterClear
       Auth.stampLastLogin
       [(Example.env, Example.doctorForm); (Example.env, Example.wrongForm)]
       Example.afterDisable)
  ∧ fst (Example.signInExample Example.env Example.doctorForm
           (snd (Users.handleUpdateUser Example.env "u2" Example.enableBody Example.afterDisable)))
    = Auth.SignInSuccess.
Proof.
  split.
  - apply (proj1 (disable_blocks_enable_restores Auth.counterAttempts Auth.counterRecord
                    Auth.counterClear Auth.stampLastLogin "u2")
             Example.env Example.disableBody (Example.world None ∅) Example.afterDisable
             (Store.json (Store.MessageBody "User disabled successfully"))).
    + reflexivity.
    + reflexivity.
    + reflexivity.
    + reflexivity.
    + repeat constructor; intros a Ha Hem; vm_compute in Ha;
        repeat (apply elem_of_cons in Ha as [->|Ha]; [first [reflexivity|discriminate Hem]|]);
        by apply elem_of_nil in Ha.
  - eapply (proj2 (disable_blocks_enable_restores Auth.counterAttempts Auth.counterRecord
                     Auth.counterClear Auth.stampLastLogin "u2")
              Example.env Example.env Example.enableBody Example.afterDisable).
    + reflexivity.
    + reflexivity.
    + reflexivity.
    + reflexivity.
    + reflexivity.
    + reflexivity.
    + vm_compute. reflexivity.
    + intros row Hrow _. vm_compute in Hrow. injection Hrow as <-. reflexivity.
Defined.

(** ** Admin routes *)

Section GuardProperties.

Import Store Auth Users.

(** The guard lets every signed-in caller through to a path under [/api/]:
    such a path is neither an auth route nor an [/admin] page. *)
Lemma api_paths_pass_the_guard (rows : list UserRow) uid rest :
  middleware rows (Some uid) ("/api/" +:+ rest) = Next.
Proof. reflexivity. Qed.

(** On a path under [/admin] a signed-in caller who is not an admin is
    redirected. *)
Lemma admin_pages_redirect_non_admin (rows : list UserRow) uid pathname :
  startsWith pathname "/admin" = true →
  notAdmin (single (eq_ u_id uid rows)) = true →
  ∃ target, middleware rows (Some uid) pathname = Redirect target None.
Proof.
  intros Hadmin Hnot. unfold middleware. rewrite Hadmin, Hnot.
  destruct (_ || _); by eexists.
Qed.

(** The page guard sends a caller who is not an admin away. *)
Lemma admin_page_guard_redirects (rows : list UserRow) session :
  (∀ uid, session = Some uid → notAdmin (single (eq_ u_id uid rows)) = true) →
  is_Some (adminPageGuard rows session).
Proof.
  intros Hnot. unfold adminPageGuard. destruct session as [uid|]; [|by eexists].
  rewrite (Hnot uid eq_refl). by eexists.
Qed.

(** The user handler answers a PATCH the same way whoever the caller is. *)
Lemma handler_ignores_caller {Security} getUser env userId body user user'
  (w : World Security) :
  handler getUser env userId (PATCH body) user w
  = handler getUser env userId (PATCH body) user' w.
Proof. reflexivity. Qed.

End GuardProperties.

(** C6 fails on the code: the doctor [u2], signed in and not an admin, sends
    PATCH /api/admin/users/u3 with the disable operation and DELETE
    /api/admin/hospitals for [h3]; neither request is redirected or answered
    with an error, the nurse [u3] ends up disabled and the hospital [h3]
    deleted. *)
Theorem non_admin_reaches_admin_api :
  Users.notAdmin (Store.single (Store.eq_ Store.u_id "u2"
                    (Store.users (Auth.db (Example.world (Some "u2") ∅))))) = true
  ∧ (∃ w',
       Users.serveUser Example.noListing Example.env "u3" (Users.PATCH Example.disableBody)
         (Some "u2") (Example.world (Some "u2") ∅)
       = (Users.Answered (Store.json (Store.MessageBody "User disabled successfully")), w')
       ∧ Store.u_is_disabled
           <$> Store.single (Store.eq_ Store.u_id "u3" (Store.users (Auth.db w')))
         = Some true)
  ∧ (∃ w',
       Users.serveHospitals Example.noListing Example.env
         (Hospitals.DELETE {| Hospitals.db_hospitalId := Some "h3" |})
         (Some "u2") (Example.world (Some "u2") ∅)
       = (Users.Answered (Store.json (Store.MessageBody "Hospital deleted successfully")), w')
       ∧ map Store.h_id (Store.hospitals (Auth.db w')) = ["h1"; "h2"]).
Proof.
  split; [reflexivity|]. split; eexists; split; reflexivity.
Qed.

(** ** Support tickets *)

Section SupportProperties.

Import Store Support.

(** Adding a response through the service appends exactly the new entry
    after the existing ones. *)
Lemma addSupportTicketResponse_appends env ticketId response isAdminResponse tickets row :
  single (eq_ t_id ticketId tickets) = Some row →
  ∃ data,
    fst (addSupportTicketResponse env ticketId response isAdminResponse tickets)
      = {| ticket := Some data; error := None |}
    ∧ t_responses data
      = Some (default [] (t_responses row)
              ++ [ {| r_id := fresh_id env; r_content := response;
                      r_is_admin_response := isAdminResponse; r_admin_name := None;
                      r_created_at := now env |} ])
    ∧ single (eq_ t_id ticketId
                (snd (addSupportTicketResponse env ticketId response isAdminResponse tickets)))
      = Some data.
Proof.
  intros Hrow. unfold addSupportTicketResponse. rewrite Hrow. simpl.
  eexists. split; [done|]. split; [done|].
  rewrite update_eq_lookup by done.
  destruct (eq_ t_id ticketId tickets) as [|? [|? ?]]; try discriminate.
  injection Hrow as ->. reflexivity.
Qed.

(** Neither function ever writes a status: the status of the ticket is not
    among the selected columns, so the test for an open ticket fails. *)
Lemma addSupportTicketResponse_keeps_status env ticketId response isAdminResponse tickets :
  map t_status (snd (addSupportTicketResponse env ticketId response isAdminResponse tickets))
  = map t_status tickets.
Proof.
  unfold addSupportTicketResponse.
  destruct (single _) as [row|]; [|done]. simpl.
  rewrite andb_false_r. unfold update_eq. rewrite map_map.
  apply map_ext. intros t. by destruct (bool_decide _).
Qed.

Lemma handleAddResponse_keeps_status env ticketId response adminUserId rows tickets :
  map t_status (snd (handleAddResponse env ticketId response adminUserId rows tickets))
  = map t_status tickets.
Proof.
  unfold handleAddResponse. destruct (Js.falsy response); [done|].
  destruct (single _) as [row|]; [|done]. simpl.
  unfold update_eq. rewrite map_map.
  apply map_ext. intros t. by destruct (bool_decide _).
Qed.

End SupportProperties.

(** C7 fails on the code: an admin response to the open ticket is appended,
    one entry more than before, but the ticket stays open instead of moving
    to in-progress, through the service function and through the API route
    alike. *)
Theorem admin_response_leaves_ticket_open :
  (∃ data,
     Support.addSupportTicketResponse Example.env "t1" "We are looking into it." true
       [Support.openTicket]
     = ({| Support.ticket := Some data; Support.error := None |}, [data])
     ∧ Support.t_status data = "open"
     ∧ length <$> Support.t_responses data = Some 1%nat)
  ∧ map Support.t_status
      (snd (Support.handleAddResponse Example.env "t1" (Some "We are looking into it.")
              (Some "u1") (Store.users Example.database) [Support.openTicket]))
    = ["open"].
Proof.
  split; [eexists; split; [reflexivity|split; reflexivity]|reflexivity].
Qed.

(** * Further properties of the handlers *)

(** ** The hospitals route *)

Section HospitalsRoute.

Import Store Hospitals.

Variable handleGetHospitals : string → Database → Response.

Local Abbreviation handler := (Hospitals.handler handleGetHospitals).

Lemma set_hospitals_same (db : Database) : set_hospitals (hospitals db) db = db.
Proof. by destruct db. Qed.

Lemma single_Some_eq {A} (rows : list A) r : single rows = Some r → rows = [r].
Proof. destruct rows as [|x [|y rest]]; simpl; congruence. Qed.

Lemma update_eq_matched {A} (f : A → A) (column : A → string) value (rows : list A) :
  (∀ r, column r = value → column (f r) = value) →
  eq_ column value (update_eq f column value rows) = map f (eq_ column value rows).
Proof.
  intros Hkey. unfold eq_, update_eq. induction rows as [|x rows IH]; [done|].
  simpl. destruct (decide (column x = value)) as [Hx|Hx].
  - rewrite (bool_decide_eq_true_2 _ Hx). simpl.
    rewrite bool_decide_eq_true_2 by (by apply Hkey). simpl. by rewrite IH.
  - rewrite (bool_decide_eq_false_2 _ Hx). simpl.
    by rewrite (bool_decide_eq_false_2 _ Hx).
Qed.

Lemma update_eq_other {A} (f : A → A) (column : A → string) value other (rows : list A) :
  (∀ r, column r = value → column (f r) = value) → other ≠ value →
  eq_ column other (update_eq f column value rows) = eq_ column other rows.
Proof.
  intros Hkey Hne. unfold eq_, update_eq. induction rows as [|x rows IH]; [done|].
  simpl. destruct (decide (column x = value)) as [Hx|Hx].
  - rewrite (bool_decide_eq_true_2 _ Hx). simpl. rewrite (Hkey x Hx).
    rewrite !bool_decide_eq_false_2 by congruence. done.
  - rewrite (bool_decide_eq_false_2 _ Hx). simpl. by rewrite IH.
Qed.

Lemma update_eq_length {A} (f : A → A) (column : A → string) value (rows : list A) :
  length (update_eq f column value rows) = length rows.
Proof. unfold update_eq. by rewrite length_map. Qed.

Lemma elem_of_update_eq {A} (f : A → A) (column : A → string) value (rows : list A) r :
  r ∈ update_eq f column value rows ↔
  ∃ x, x ∈ rows ∧ r = (if bool_decide (column x = value) then f x else x).
Proof.
  unfold update_eq. rewrite list_elem_of_fmap. split; intros (x & H1 & H2); by exists x.
Qed.

(** X1: whatever the request, the hospitals handler leaves the users, the
    diagnoses and the login history alone, and a request answered with an
    error leaves the whole store as it was. *)
Theorem hospitals_handler_errors_change_nothing env req user (db : Database) :
  users (snd (handler env req user db)) = users db
  ∧ diagnoses (snd (handler env req user db)) = diagnoses db
  ∧ user_login_history (snd (handler env req user db)) = user_login_history db
  ∧ (is_error (fst (handler env req user db)) = true → snd (handler env req user db) = db).
Proof.
  destruct req as [search|body|body|body|method]; simpl.
  - done.
  - unfold handleCreateHospital. destruct (_ || _); [done|].
    destruct (single _); [done|]. simpl. by repeat split.
  - unfold handleUpdateHospital. destruct (_ || _); [done|].
    destruct (single _); [|done]. simpl. by repeat split.
  - unfold handleDeleteHospital. destruct (Js.falsy _); [done|].
    destruct (0 <? _); [done|]. destruct (0 <? _); [done|]. simpl. by repeat split.
  - done.
Qed.

(** X2: a PATCH that is answered with a hospital changed exactly the row
    with the given id: the row keeps its id and creation time, takes the
    name, address and code of the body and the current time; the table has
    as many rows as before, every row with another id is as it was, and a
    lookup of the id now yields the answered row. *)
Theorem update_hospital_writes_one_row env body (db db' : Database) row :
  handleUpdateHospital env body db = (json (HospitalBody row), db') →
  ∃ old,
    single (eq_ h_id (h_id row) (hospitals db)) = Some old
    ∧ ub_id body = Some (h_id row)
    ∧ h_created_at row = h_created_at old
    ∧ h_updated_at row = now env
    ∧ Some (h_name row) = ub_name body
    ∧ Some (h_address row) = ub_address body
    ∧ Some (h_code row) = ub_code body
    ∧ length (hospitals db') = length (hospitals db)
    ∧ (∀ other, other ≠ h_id row →
         eq_ h_id other (hospitals db') = eq_ h_id other (hospitals db))
    ∧ single (eq_ h_id (h_id row) (hospitals db')) = Some row.
Proof.
  unfold handleUpdateHospital.
  destruct (ub_id body) as [id|] eqn:Hid; [|by simpl].
  destruct (ub_name body) as [name|] eqn:Hname; [|by rewrite orb_true_r].
  destruct (ub_address body) as [address|] eqn:Haddr; [|by rewrite !orb_true_r].
  destruct (ub_code body) as [code|] eqn:Hcode; [|by rewrite !orb_true_r].
  destruct (_ || _); [by intros [=]|]. simpl.
  destruct (single _) as [old|] eqn:Hold; [|by intros [=]].
  assert (h_id old = id) as Hkey.
  { pose proof (single_Some_eq _ _ Hold) as Hrows.
    assert (old ∈ eq_ h_id id (hospitals db)) as Hin by (rewrite Hrows; left).
    by apply elem_of_eq_ in Hin as [_ ?]. }
  intros [= <- <-]. simpl. rewrite Hkey. exists old.
  split; [done|]. split; [done|]. split; [done|]. split; [done|].
  split; [done|]. split; [done|]. split; [done|].
  split; [apply update_eq_length|]. split.
  - intros other Hne. by apply update_eq_other.
  - rewrite update_eq_matched by done. by rewrite single_fmap, Hold.
Qed.

Lemma NoDup_fmap_eq {A} (f : A → string) (rows : list A) x y :
  NoDup (map f rows) → x ∈ rows → y ∈ rows → f x = f y → x = y.
Proof.
  induction rows as [|r rows IH]; intros Hnd Hx Hy Hf; [by apply elem_of_nil in Hx|].
  apply NoDup_cons in Hnd as [Hr Hnd].
  apply elem_of_cons in Hx as [->|Hx]; apply elem_of_cons in Hy as [->|Hy]; try done.
  - destruct Hr. rewrite Hf. by apply list_elem_of_fmap_2.
  - destruct Hr. rewrite <- Hf. by apply list_elem_of_fmap_2.
  - by apply IH.
Qed.

(** X3: a PATCH does not look at the codes of the other hospitals: given
    the id of one hospital and the code of another, it is answered with the
    updated hospital, and the codes of the table are no longer unique. *)
Theorem update_hospital_can_duplicate_code env name address (db : Database) h1 h2 :
  single (eq_ h_id (h_id h1) (hospitals db)) = Some h1 →
  h2 ∈ hospitals db →
  h_id h2 ≠ h_id h1 →
  h_id h1 ≠ "" → name ≠ "" → address ≠ "" → h_code h2 ≠ "" →
  ∃ row db',
    handleUpdateHospital env
      {| ub_id := Some (h_id h1); ub_name := Some name; ub_address := Some address;
         ub_code := Some (h_code h2) |} db
    = (json (HospitalBody row), db')
    ∧ h_code row = h_code h2
    ∧ ¬ NoDup (map h_code (hospitals db')).
Proof.
  intros Hone Hh2 Hne Hid Hname Haddr Hcode. unfold handleUpdateHospital. simpl.
  rewrite !bool_decide_eq_false_2 by done. simpl. rewrite Hone.
  eexists _, _. split; [done|]. split; [done|]. simpl. intros Hnd.
  set (data := {| h_id := h_id h1; h_name := name; h_address := address;
                  h_code := h_code h2; h_created_at := h_created_at h1;
                  h_updated_at := now env |}) in *.
  assert (h1 ∈ hospitals db) as Hh1.
  { pose proof (single_Some_eq _ _ Hone) as Hrows.
    assert (h1 ∈ eq_ h_id (h_id h1) (hospitals db)) as Hin by (rewrite Hrows; left).
    by apply elem_of_eq_ in Hin as [? _]. }
  assert (data ∈ update_eq (λ _, data) h_id (h_id h1) (hospitals db)) as Hdata.
  { apply elem_of_update_eq. exists h1. split; [done|].
    by rewrite bool_decide_eq_true_2. }
  assert (h2 ∈ update_eq (λ _, data) h_id (h_id h1) (hospitals db)) as Hkept.
  { apply elem_of_update_eq. exists h2. split; [done|].
    by rewrite bool_decide_eq_false_2. }
  assert (data = h2) as Heq by (by eapply (NoDup_fmap_eq h_code)).
  apply Hne. by rewrite <- Heq.
Qed.

(** X4: creating a hospital and deleting it again gives the store back:
    when the code and the generated id are new and nothing references the
    id, the POST is answered with the created hospital, which is then the
    one row of the table under the generated id, in a table one row longer;
    the DELETE of that id is answered with success and leaves the store
    exactly as it was before the POST. *)
Theorem create_then_delete_restores env name address code (db : Database) :
  name ≠ "" → address ≠ "" → code ≠ "" → fresh_id env ≠ "" →
  (∀ h, h ∈ hospitals db → h_code h ≠ code) →
  (∀ h, h ∈ hospitals db → h_id h ≠ fresh_id env) →
  referencingUsers (fresh_id env) db = [] →
  referencingDiagnoses (fresh_id env) db = [] →
  ∃ row db1,
    handleCreateHospital env
      {| cb_name := Some name; cb_address := Some address; cb_code := Some code |} db
    = (json (HospitalBody row), db1)
    ∧ h_id row = fresh_id env ∧ h_name row = name ∧ h_address row = address
    ∧ h_code row = code
    ∧ single (eq_ h_id (fresh_id env) (hospitals db1)) = Some row
    ∧ length (hospitals db1) = S (length (hospitals db))
    ∧ handleDeleteHospital {| db_hospitalId := Some (h_id row) |} db1
      = (json (MessageBody "Hospital deleted successfully"), db).
Proof.
  intros Hname Haddr Hcode Hfresh Hnewcode Hnewid Husers Hdiags.
  assert (List.filter (λ r, negb (bool_decide (h_id r = fresh_id env))) (hospitals db)
          = hospitals db) as Hkept.
  { clear Hnewcode. induction (hospitals db) as [|x rows IH]; [done|]. simpl.
    rewrite bool_decide_eq_false_2 by (apply Hnewid; left). simpl. f_equal.
    apply IH. intros h Hh. apply Hnewid. by right. }
  eexists _, _. split; [by apply create_accepts_new_code|]. simpl.
  repeat split.
  - unfold eq_. rewrite List.filter_app. simpl.
    rewrite bool_decide_eq_true_2 by done.
    pose proof (eq_absent h_id (fresh_id env) _ Hnewid) as Habsent.
    unfold eq_ in Habsent. by rewrite Habsent.
  - rewrite length_app. simpl. lia.
  - unfold handleDeleteHospital. simpl. rewrite (bool_decide_eq_false_2 _ Hfresh).
    change (eq_null u_hospital_id (fresh_id env) (users db))
      with (referencingUsers (fresh_id env) db).
    change (eq_ dg_hospital_id (fresh_id env) (diagnoses db))
      with (referencingDiagnoses (fresh_id env) db).
    rewrite Husers, Hdiags. simpl. f_equal.
    unfold delete_eq. rewrite List.filter_app. simpl.
    rewrite bool_decide_eq_true_2 by done. simpl. rewrite app_nil_r, Hkept.
    by destruct db.
Qed.

(** X5: once a hospital has been deleted no row carries its id, and a PATCH
    for that id is answered 404 "Hospital not found" without changing the
    store. *)
Theorem deleted_hospital_is_not_found env id name address code (db db' : Database) r :
  handleDeleteHospital {| db_hospitalId := Some id |} db = (r, db') →
  is_error r = false →
  name ≠ "" → address ≠ "" → code ≠ "" →
  eq_ h_id id (hospitals db') = []
  ∧ handleUpdateHospital env
      {| ub_id := Some id; ub_name := Some name; ub_address := Some address;
         ub_code := Some code |} db'
    = (json_status (ErrorBody "Hospital not found") 404, db').
Proof.
  unfold handleDeleteHospital. simpl.
  destruct (bool_decide (id = "")) eqn:Hid; [by intros [= <- <-]|].
  apply bool_decide_eq_false in Hid.
  destruct (0 <? _); [by intros [= <- <-]|].
  destruct (0 <? _); [by intros [= <- <-]|].
  intros [= <- <-] _ Hname Haddr Hcode. simpl.
  assert (eq_ h_id id (delete_eq h_id id (hospitals db)) = []) as Hgone.
  { apply eq_absent. intros h Hh. by apply elem_of_delete_eq in Hh as [_ ?]. }
  split; [done|]. unfold handleUpdateHospital. simpl.
  rewrite !bool_decide_eq_false_2 by done. simpl. by rewrite Hgone.
Qed.

End HospitalsRoute.

Lemma hospitals_handler_errors_change_nothing_witness :
  snd (Hospitals.handler Example.noListing Example.env
         (Hospitals.DELETE {| Hospitals.db_hospitalId := Some "h1" |}) None Example.database)
  = Example.database.
Proof.
  apply (hospitals_handler_errors_change_nothing Example.noListing Example.env
           (Hospitals.DELETE {| Hospitals.db_hospitalId := Some "h1" |}) None Example.database).
  reflexivity.
Defined.

Lemma update_hospital_writes_one_row_witness :
  ∃ old,
    Store.single (Store.eq_ Store.h_id "h3" (Store.hospitals Example.database)) = Some old
    ∧ Store.h_created_at old = "2023-01-01T00:00:00.000Z".
Proof.
  destruct (update_hospital_writes_one_row Example.env
              {| Hospitals.ub_id := Some "h3"; Hospitals.ub_name := Some "Reopened Ward";
                 Hospitals.ub_address := Some "KN 3 Rd"; Hospitals.ub_code := Some "HSP-00003" |}
              Example.database _ _ eq_refl)
    as (old & Hold & _ & Hcreated & _).
  exists old. split; [exact Hold|]. rewrite <- Hcreated. reflexivity.
Defined.

Lemma update_hospital_can_duplicate_code_witness :
  ∃ row db',
    Hospitals.handleUpdateHospital Example.env
      {| Hospitals.ub_id := Some "h3"; Hospitals.ub_name := Some "Closed Ward";
         Hospitals.ub_address := Some "KN 1 Rd, Kigali"; Hospitals.ub_code := Some "HSP-00001" |}
      Example.database
    = (Store.json (Store.HospitalBody row), db')
    ∧ Store.h_code row = "HSP-00001"
    ∧ ¬ NoDup (map Store.h_code (Store.hospitals db')).
Proof.
  apply (update_hospital_can_duplicate_code Example.env "Closed Ward" "KN 1 Rd, Kigali"
           Example.database (Example.hospital "h3" "Closed Ward" "HSP-00003")
           (Example.hospital "h1" "General Hospital" "HSP-00001")).
  - reflexivity.
  - left.
  - discriminate.
  - discriminate.
  - discriminate.
  - discriminate.
  - discriminate.
Defined.

Lemma create_then_delete_restores_witness :
  ∃ row db1,
    Hospitals.handleCreateHospital Example.env
      {| Hospitals.cb_name := Some "Muhima Hospital"; Hospitals.cb_address := Some "KN 9 Rd";
         Hospitals.cb_code := Some "HSP-00004" |} Example.database
    = (Store.json (Store.HospitalBody row), db1)
    ∧ Store.single (Store.eq_ Store.h_id "h9" (Store.hospitals db1)) = Some row
    ∧ Hospitals.handleDeleteHospital {| Hospitals.db_hospitalId := Some (Store.h_id row) |} db1
      = (Store.json (Store.MessageBody "Hospital deleted successfully"), Example.database).
Proof.
  destruct (create_then_delete_restores Example.env "Muhima Hospital" "KN 9 Rd" "HSP-00004"
              Example.database)
    as (row & db1 & Hpost & _ & _ & _ & _ & Hrow & _ & Hdelete);
    try discriminate; try reflexivity.
  - intros h Hh. vm_compute in Hh.
    repeat (apply elem_of_cons in Hh as [->|Hh]; [discriminate|]).
    by apply elem_of_nil in Hh.
  - intros h Hh. vm_compute in Hh.
    repeat (apply elem_of_cons in Hh as [->|Hh]; [discriminate|]).
    by apply elem_of_nil in Hh.
  - exists row, db1. split; [exact Hpost|]. split; [exact Hrow|exact Hdelete].
Defined.

Lemma deleted_hospital_is_not_found_witness :
  Store.eq_ Store.h_id "h3"
    (Store.hospitals
       (snd (Hospitals.handleDeleteHospital {| Hospitals.db_hospitalId := Some "h3" |}
               Example.database))) = [].
Proof.
  apply (deleted_hospital_is_not_found Example.env "h3" "Closed Ward" "KN 1 Rd" "HSP-00003"
           Example.database _ _ eq_refl); try discriminate; reflexivity.
Defined.

(** ** The user route *)

Section UsersRoute.

Import Store Auth Users.

Context {Security : Type}.
Variable handleGetUser : string → Database → Response.

Local Abbreviation handler := (Users.handler (Security := Security) handleGetUser).

Lemma update_eq_update_eq {A} (f g : A → A) (column : A → string) value (rows : list A) :
  (∀ r, column (f r) = column r) →
  update_eq g column value (update_eq f column value rows)
  = update_eq (λ r, g (f r)) column value rows.
Proof.
  intros Hkey. unfold update_eq. rewrite map_map. apply map_ext. intros r.
  destruct (bool_decide (column r = value)) eqn:Hr.
  - by rewrite Hkey, Hr.
  - by rewrite Hr.
Qed.

Lemma single_elem_of {A} (column : A → string) value (rows : list A) r :
  single (eq_ column value rows) = Some r → r ∈ rows ∧ column r = value.
Proof.
  intros Hone. apply single_Some_eq in Hone. apply elem_of_eq_. rewrite Hone. left.
Qed.

Lemma no_account userId (accs : list Account) :
  hasAccount userId accs = false → eq_ acc_id userId accs = [].
Proof.
  intros Hacc. apply bool_decide_eq_false in Hacc.
  by destruct (decide (eq_ acc_id userId accs = [])).
Qed.

(** What the two writing handlers leave alone, and their refusals. *)
Local Abbreviation leaves_alone userId w rw :=
  (hospitals (db (snd rw)) = hospitals (db w)
   ∧ diagnoses (db (snd rw)) = diagnoses (db w)
   ∧ user_login_history (db (snd rw)) = user_login_history (db w)
   ∧ session (snd rw) = session w
   ∧ security (snd rw) = security w
   ∧ (400 ≤ res_status (fst rw) < 500 → snd rw = w)
   ∧ (res_body (fst rw) = ProviderErrorBody →
      res_status (fst rw) = 500 ∧ snd rw = w ∧ eq_ acc_id userId (accounts w) = [])).

Lemma handleUpdateUser_leaves_alone env userId body (w : World Security) :
  leaves_alone userId w (handleUpdateUser env userId body w).
Proof.
  unfold handleUpdateUser.
  destruct (single _) as [existingUser|]; [|repeat split; cbn; intros; first [done|lia|congruence]].
  destruct (bool_decide (operation body = Some "disable")).
  { repeat split; cbn; intros; first [done|lia|congruence]. }
  destruct (bool_decide (operation body = Some "enable")).
  { repeat split; cbn; intros; first [done|lia|congruence]. }
  destruct (bool_decide (operation body = Some "resetPassword")).
  - destruct (hasAccount userId (accounts w)) eqn:Hacc.
    + repeat split; cbn; intros; first [done|lia|congruence].
    + repeat split; cbn; intros; first [done|lia|by apply no_account|congruence].
  - repeat split; cbn; intros; first [done|lia|congruence].
Qed.

Lemma handleDeleteUser_leaves_alone userId (w : World Security) :
  leaves_alone userId w (handleDeleteUser userId w).
Proof.
  unfold handleDeleteUser.
  destruct (0 <? _).
  { set (message := ErrorBody _). repeat split; cbn; intros; first [done|lia|congruence]. }
  destruct (hasAccount userId (accounts w)) eqn:Hacc.
  - repeat split; cbn; intros; first [done|lia|congruence].
  - repeat split; cbn; intros; first [done|lia|by apply no_account|congruence].
Qed.

(** X6: the user handler never touches the hospitals, the diagnoses, the
    login history, the session or the security state. A request it answers
    with a status from 400 to 499 leaves the whole backend as it was, and so
    does a PATCH or DELETE refused by the provider, which is answered 500
    and happens only when the provider has no account under the id: a
    DELETE for such a user without diagnoses is so refused and keeps the
    row. *)
Theorem users_handler_errors_change_nothing env userId req user (w : World Security) :
  let r := fst (handler env userId req user w) in
  let w' := snd (handler env userId req user w) in
  hospitals (db w') = hospitals (db w)
  ∧ diagnoses (db w') = diagnoses (db w)
  ∧ user_login_history (db w') = user_login_history (db w)
  ∧ session w' = session w
  ∧ security w' = security w
  ∧ (400 ≤ res_status r < 500 → w' = w)
  ∧ (req ≠ GET → res_body r = ProviderErrorBody →
     res_status r = 500 ∧ w' = w ∧ eq_ acc_id userId (accounts w) = [])
  ∧ (userId ≠ "" → eq_ acc_id userId (accounts w) = [] →
     eq_ dg_user_id userId (diagnoses (db w)) = [] →
     handler env userId DELETE user w = (json_status ProviderErrorBody 500, w)).
Proof.
  cbv zeta.
  assert (userId ≠ "" → eq_ acc_id userId (accounts w) = [] →
          eq_ dg_user_id userId (diagnoses (db w)) = [] →
          handler env userId DELETE user w = (json_status ProviderErrorBody 500, w)) as Hrefused.
  { intros Hid Hnone Hdiag. unfold Users.handler. simpl.
    rewrite (bool_decide_eq_false_2 _ Hid).
    unfold handleDeleteUser. rewrite Hdiag. simpl.
    unfold hasAccount. rewrite Hnone.
    rewrite bool_decide_eq_false_2; [done|]. intros Hne. by apply Hne. }
  split_and!; [..|exact Hrefused]; clear Hrefused.
  all: unfold Users.handler; cbn [fst snd];
    (destruct (bool_decide (userId = "")); [cbn; intros; first [done|lia|congruence]|]);
    destruct req as [|body| |method];
    [ cbn; intros; first [done|lia|congruence]
    | destruct (handleUpdateUser_leaves_alone env userId body w)
        as (Hh & Hd & Hl & Hs & Hsec & Hclient & Hprovider); intros; auto
    | destruct (handleDeleteUser_leaves_alone userId w)
        as (Hh & Hd & Hl & Hs & Hsec & Hclient & Hprovider); intros; auto
    | cbn; intros; first [done|lia|congruence] ].
Qed.

(** X7: disabling a user and enabling the user again: both requests are
    answered with their success message; in between the user's row is
    disabled, afterwards it is enabled and carries the time of the second
    request, with every other field as at the start; the accounts of the
    user say not disabled and keep email and password; every other row and
    account is as it was. *)
Theorem disable_then_enable env1 env2 uid body1 body2 (w : World Security) row :
  operation body1 = Some "disable" →
  operation body2 = Some "enable" →
  single (eq_ u_id uid (users (db w))) = Some row →
  let '(r1, w1) := handleUpdateUser env1 uid body1 w in
  let '(r2, w2) := handleUpdateUser env2 uid body2 w1 in
  r1 = json (MessageBody "User disabled successfully")
  ∧ r2 = json (MessageBody "User enabled successfully")
  ∧ u_is_disabled <$> single (eq_ u_id uid (users (db w1))) = Some true
  ∧ single (eq_ u_id uid (users (db w2)))
    = Some {| u_id := u_id row; u_email := u_email row; u_full_name := u_full_name row;
              u_hospital_id := u_hospital_id row; u_expertise := u_expertise row;
              u_phone := u_phone row; u_is_verified := u_is_verified row;
              u_is_admin := u_is_admin row; u_is_disabled := false;
              u_last_login := u_last_login row; u_updated_at := now env2 |}
  ∧ (∀ other, other ≠ uid →
       eq_ u_id other (users (db w2)) = eq_ u_id other (users (db w)))
  ∧ (∀ a, a ∈ accounts w2 → acc_id a = uid → acc_disabled a = Some false)
  ∧ map (λ a, (acc_id a, acc_email a, acc_password a)) (accounts w2)
    = map (λ a, (acc_id a, acc_email a, acc_password a)) (accounts w)
  ∧ (∀ other, other ≠ uid →
       eq_ acc_id other (accounts w2) = eq_ acc_id other (accounts w)).
Proof.
  intros Hop1 Hop2 Hrow. unfold handleUpdateUser at 1. rewrite Hrow, Hop1. simpl.
  unfold handleUpdateUser. simpl.
  rewrite update_eq_matched by done. rewrite single_fmap, Hrow. simpl.
  rewrite Hop2. simpl.
  split; [done|]. split; [done|]. split; [done|].
  rewrite !update_eq_update_eq by done.
  split; [rewrite update_eq_matched by done; by rewrite single_fmap, Hrow|].
  split; [intros other Hne; by apply update_eq_other|].
  unfold set_metadata_disabled. rewrite update_eq_update_eq by done.
  split; [|split].
  - intros a Ha Hid. apply elem_of_update_eq in Ha as (a0 & Ha0 & Ha).
    rewrite Ha. destruct (bool_decide (acc_id a0 = uid)) eqn:Hmatch; [done|].
    apply bool_decide_eq_false in Hmatch. subst a. done.
  - unfold update_eq. rewrite map_map. apply map_ext. intros a.
    by destruct (bool_decide (acc_id a = uid)).
  - intros other Hne. by apply update_eq_other.
Qed.

(** X8: after a password reset the provider accepts the temporary password
    under the user's email and no other password, and the answer carries
    that temporary password. *)
Theorem reset_password_takes_effect env uid em body (w : World Security) row account :
  operation body = Some "resetPassword" →
  single (eq_ u_id uid (users (db w))) = Some row →
  account ∈ accounts w → acc_email account = em →
  emailOf (accounts w) uid em →
  let '(r, w1) := handleUpdateUser env uid body w in
  r = json (PasswordBody "Password reset successfully" (temporaryPassword env))
  ∧ (∃ a, signInWithPassword (accounts w1) em (temporaryPassword env) = Some a
          ∧ acc_id a = uid)
  ∧ (∀ pw, pw ≠ temporaryPassword env → signInWithPassword (accounts w1) em pw = None)
  ∧ users (db w1) = users (db w).
Proof.
  intros Hop Hrow Hacc Hem Hmail. unfold handleUpdateUser. rewrite Hrow, Hop. simpl.
  assert (hasAccount uid (accounts w) = true) as ->.
  { apply bool_decide_eq_true_2. intros Hnone.
    assert (account ∈ eq_ acc_id uid (accounts w)) as Hin
      by (apply elem_of_eq_; split; [done|by apply Hmail]).
    rewrite Hnone in Hin. by apply elem_of_nil in Hin. }
  simpl. split; [done|].
  assert (∃ a, List.find (λ a, bool_decide (acc_email a = em))
                 (set_password uid (temporaryPassword env) (accounts w)) = Some a
               ∧ acc_id a = uid ∧ acc_password a = temporaryPassword env) as (a & Hfind & Hid & Hpw).
  { clear Hrow. unfold set_password, update_eq.
    induction (accounts w) as [|x accs IH]; [by apply elem_of_nil in Hacc|].
    simpl. destruct (decide (acc_email x = em)) as [Hx|Hx].
    - assert (acc_id x = uid) as Hxid by (apply Hmail; [left|done]).
      rewrite (bool_decide_eq_true_2 _ Hxid). simpl.
      rewrite (bool_decide_eq_true_2 _ Hx). by eexists.
    - assert (acc_email (if bool_decide (acc_id x = uid)
                         then {| acc_id := acc_id x; acc_email := acc_email x;
                                 acc_password := temporaryPassword env;
                                 acc_disabled := acc_disabled x |}
                         else x) = acc_email x) as Hsame by (by destruct (bool_decide _)).
      rewrite bool_decide_eq_false_2 by (by rewrite Hsame).
      apply IH.
      + apply elem_of_cons in Hacc as [->|Hacc]; [done|done].
      + intros b Hb. apply Hmail. by right. }
  unfold signInWithPassword. rewrite Hfind. split; [|split; [|done]].
  - exists a. by rewrite bool_decide_eq_true_2.
  - intros pw Hne. rewrite bool_decide_eq_false_2; [done|]. by rewrite Hpw.
Qed.

(** X9: a PATCH without operation writes only the fields its body gives:
    it answers with the updated row, which is then the row of the id; the
    row keeps the id, the email, the disabled flag and the last login,
    carries the time of the request, takes each of the six fields the body
    gives (name, hospital, expertise, phone, verified, admin) and keeps each
    one it leaves out; no account is touched and the rows of other users
    are as they were. *)
Theorem regular_update_writes_given_fields env uid body (w : World Security) row :
  More.plainUpdate body →
  single (eq_ u_id uid (users (db w))) = Some row →
  ∃ row' w1,
    handleUpdateUser env uid body w = (json (UserBody row'), w1)
    ∧ single (eq_ u_id uid (users (db w1))) = Some row'
    ∧ u_id row' = u_id row ∧ u_email row' = u_email row
    ∧ u_is_disabled row' = u_is_disabled row ∧ u_last_login row' = u_last_login row
    ∧ u_updated_at row' = now env
    ∧ u_full_name row' = default (u_full_name row) (fullName body)
    ∧ u_hospital_id row' = default (u_hospital_id row) (hospitalId body)
    ∧ u_expertise row' = default (u_expertise row) (expertise body)
    ∧ u_phone row' = default (u_phone row) (phone body)
    ∧ u_is_verified row' = default (u_is_verified row) (isVerified body)
    ∧ u_is_admin row' = default (u_is_admin row) (isAdmin body)
    ∧ accounts w1 = accounts w
    ∧ (∀ other, other ≠ uid →
         eq_ u_id other (users (db w1)) = eq_ u_id other (users (db w))).
Proof.
  intros (Hd & He & Hr) Hrow. unfold handleUpdateUser. rewrite Hrow.
  rewrite !bool_decide_eq_false_2 by done. simpl.
  eexists _, _. split; [done|]. simpl.
  split; [rewrite update_eq_matched by done; by rewrite single_fmap, Hrow|].
  repeat split; try done.
  intros other Hne. by apply update_eq_other.
Qed.

Lemma admin_path_is_no_auth_route pathname :
  startsWith pathname "/admin" = true →
  startsWith pathname "/login" = false
  ∧ startsWith pathname "/signup" = false
  ∧ startsWith pathname "/reset-password" = false
  ∧ pathname ≠ "/".
Proof.
  unfold startsWith.
  destruct pathname as [|c1 [|c2 rest]]; cbn -[ascii_dec]; try discriminate.
  - destruct (ascii_dec "/" c1); discriminate.
  - destruct (ascii_dec "/" c1) as [<-|]; [|discriminate].
    destruct (ascii_dec "a" c2) as [<-|]; [|discriminate].
    intros _. cbn. repeat split. discriminate.
Qed.

(** X10: the guard lets a request to a path under [/admin] through exactly
    when it carries the session of a user whose row, the only one with that
    id, has the admin flag; without a session the request is redirected to
    [/login] with the path as [redirectedFrom], and with the session of
    anyone else to [/unathorized]. *)
Theorem admin_paths_are_for_admins (rows : list UserRow) session pathname :
  startsWith pathname "/admin" = true →
  (middleware rows session pathname = Next ↔
   ∃ uid row, session = Some uid ∧ single (eq_ u_id uid rows) = Some row
              ∧ u_is_admin row = true)
  ∧ (session = None → middleware rows session pathname = Redirect "/login" (Some pathname))
  ∧ (∀ uid, session = Some uid → notAdmin (single (eq_ u_id uid rows)) = true →
            middleware rows session pathname = Redirect "/unathorized" None).
Proof.
  intros Hadmin.
  destruct (admin_path_is_no_auth_route _ Hadmin) as (Hl & Hs & Hr & Hroot).
  unfold middleware. rewrite Hadmin, Hl, Hs, Hr. simpl.
  rewrite (bool_decide_eq_false_2 _ Hroot). simpl.
  destruct session as [uid|]; simpl.
  - split; [|split; [done|]].
    + unfold notAdmin. destruct (single _) as [row|] eqn:Hrow.
      * destruct (u_is_admin row) eqn:Hflag; simpl.
        -- split; [|done]. intros _. by exists uid, row.
        -- split; [done|]. intros (uid' & row' & [= <-] & Hrow' & Hflag').
           rewrite Hrow in Hrow'. injection Hrow' as <-. congruence.
      * split; [done|]. intros (uid' & row' & [= <-] & Hrow' & _). congruence.
    + intros uid' [= <-] ->. done.
  - split; [|split; [done|by intros uid [=]]].
    split; [done|]. by intros (uid & row & [=] & _).
Qed.

(** X11: a promotion takes effect at the guard: once a PATCH with
    [isAdmin: true] for a user has been answered, the guard lets that
    user's session through to every path under [/admin]; once a PATCH with
    [isAdmin: false] has been answered it redirects that session. *)
Theorem admin_flag_takes_effect env uid body flag (w : World Security) row pathname :
  More.plainUpdate body →
  isAdmin body = Some flag →
  single (eq_ u_id uid (users (db w))) = Some row →
  startsWith pathname "/admin" = true →
  middleware (users (db (snd (handleUpdateUser env uid body w)))) (Some uid) pathname
  = if flag then Next else Redirect "/unathorized" None.
Proof.
  intros (Hd & He & Hr) Hflag Hrow Hadmin.
  destruct (admin_path_is_no_auth_route _ Hadmin) as (Hl & Hs & Hrp & Hroot).
  unfold handleUpdateUser. rewrite Hrow.
  rewrite !bool_decide_eq_false_2 by done. simpl.
  unfold middleware. rewrite Hadmin, Hl, Hs, Hrp. simpl.
  rewrite update_eq_matched by done. rewrite single_fmap, Hrow. simpl.
  rewrite Hflag. simpl. by destruct flag.
Qed.

(** X12: a user with diagnoses cannot be deleted: the request is answered
    400 with a message that states their number, and nothing changes. *)
Theorem delete_user_blocked_by_diagnoses uid (w : World Security) :
  eq_ dg_user_id uid (diagnoses (db w)) ≠ [] →
  handleDeleteUser uid w
  = (json_status
       (ErrorBody ("Cannot delete user with "
                   +:+ pretty (Z.of_nat (length (eq_ dg_user_id uid (diagnoses (db w)))))
                   +:+ " associated diagnoses. Please reassign or delete the diagnoses first."))
       400, w).
Proof.
  intros Hsome. unfold handleDeleteUser. rewrite count_pos.
  by rewrite (bool_decide_eq_false_2 _ Hsome).
Qed.

(** X13: a user without diagnoses who has an account with the provider is
    deleted for good: the request is answered with success, the row and the
    account are removed, the provider accepts no password under the user's
    email any more, and a later PATCH for the id is answered 404. *)
Theorem deleted_user_is_gone env uid em body (w : World Security) :
  eq_ dg_user_id uid (diagnoses (db w)) = [] →
  eq_ acc_id uid (accounts w) ≠ [] →
  emailOf (accounts w) uid em →
  let '(r, w1) := handleDeleteUser uid w in
  r = json (MessageBody "User deleted successfully")
  ∧ eq_ u_id uid (users (db w1)) = []
  ∧ eq_ acc_id uid (accounts w1) = []
  ∧ (∀ pw, signInWithPassword (accounts w1) em pw = None)
  ∧ handleUpdateUser env uid body w1 = (json_status (ErrorBody "User not found") 404, w1).
Proof.
  intros Hnone Haccount Hmail. unfold handleDeleteUser. rewrite Hnone. simpl.
  unfold hasAccount. rewrite (bool_decide_eq_true_2 _ Haccount). simpl.
  assert (eq_ u_id uid (delete_eq u_id uid (users (db w))) = []) as Hrow.
  { apply eq_absent. intros r Hr. by apply elem_of_delete_eq in Hr as [_ ?]. }
  assert (eq_ acc_id uid (delete_eq acc_id uid (accounts w)) = []) as Hacc.
  { apply eq_absent. intros r Hr. by apply elem_of_delete_eq in Hr as [_ ?]. }
  split; [done|]. split; [done|]. split; [done|]. split.
  - intros pw. unfold signInWithPassword.
    destruct (List.find _ _) as [a|] eqn:Hfind; [|done].
    apply find_some in Hfind as [Hin Hem]. apply bool_decide_eq_true in Hem.
    apply list_elem_of_In, elem_of_delete_eq in Hin as [Hin Hid].
    destruct Hid. by apply Hmail.
  - unfold handleUpdateUser. simpl. by rewrite Hrow.
Qed.

End UsersRoute.

Lemma doctor_email_is_u2 :
  Auth.emailOf (Auth.accounts (Example.world None ∅)) "u2" "doctor@hdms.rw".
Proof.
  intros a Ha Hem. vm_compute in Ha.
  repeat (apply elem_of_cons in Ha as [->|Ha]; [first [reflexivity|discriminate Hem]|]).
  by apply elem_of_nil in Ha.
Defined.

Lemma users_handler_errors_change_nothing_witness :
  Users.handler Example.noListing Example.env "u3" Users.DELETE None Example.orphanWorld
  = (Store.json_status Store.ProviderErrorBody 500, Example.orphanWorld)
  ∧ snd (Users.handler Example.noListing Example.env "u2" Users.DELETE None
           (Example.world (Some "u1") ∅))
    = Example.world (Some "u1") ∅.
Proof.
  split.
  - destruct (users_handler_errors_change_nothing Example.noListing Example.env "u3"
                Users.DELETE None Example.orphanWorld)
      as (_ & _ & _ & _ & _ & _ & _ & Hrefused).
    apply Hrefused; [discriminate|reflexivity|reflexivity].
  - destruct (users_handler_errors_change_nothing Example.noListing Example.env "u2"
                Users.DELETE None (Example.world (Some "u1") ∅))
      as (_ & _ & _ & _ & _ & Hclient & _).
    apply Hclient. split; [discriminate|reflexivity].
Defined.

Lemma disable_then_enable_witness :
  Store.u_is_disabled
    <$> Store.single
          (Store.eq_ Store.u_id "u2"
             (Store.users (Auth.db Example.afterDisable))) = Some true
  ∧ Store.u_is_disabled
      <$> Store.single
            (Store.eq_ Store.u_id "u2"
               (Store.users
                  (Auth.db (snd (Users.handleUpdateUser Example.env "u2" Example.enableBody
                                   Example.afterDisable))))) = Some false.
Proof.
  pose proof (disable_then_enable Example.env Example.env "u2" Example.disableBody
                Example.enableBody (Example.world None ∅)
                (Example.user "u2" "doctor@hdms.rw" "h1" false false)
                eq_refl eq_refl eq_refl) as H.
  split.
  - exact (proj1 (proj2 (proj2 H))).
  - exact (f_equal (fmap Store.u_is_disabled) (proj1 (proj2 (proj2 (proj2 H))))).
Defined.

Lemma reset_password_takes_effect_witness :
  ∃ a,
    Auth.signInWithPassword
      (Auth.accounts (snd (Users.handleUpdateUser Example.env "u2" Example.resetBody
                             (Example.world None ∅))))
      "doctor@hdms.rw" "Tmp-4821" = Some a
    ∧ Auth.acc_id a = "u2".
Proof.
  pose proof (reset_password_takes_effect Example.env "u2" "doctor@hdms.rw" Example.resetBody
                (Example.world None ∅)
                (Example.user "u2" "doctor@hdms.rw" "h1" false false)
                (Example.account "u2" "doctor@hdms.rw" "doc-pw")
                eq_refl eq_refl ltac:(right; left) eq_refl doctor_email_is_u2) as H.
  exact (proj1 (proj2 H)).
Defined.

Lemma regular_update_writes_given_fields_witness :
  ∃ row' w1,
    Users.handleUpdateUser Example.env "u2" Example.promoteBody (Example.world None ∅)
    = (Store.json (Store.UserBody row'), w1)
    ∧ Store.u_is_admin row' = true ∧ Store.u_email row' = "doctor@hdms.rw"
    ∧ Store.u_phone row' = None.
Proof.
  destruct (regular_update_writes_given_fields Example.env "u2" Example.promoteBody
              (Example.world None ∅) (Example.user "u2" "doctor@hdms.rw" "h1" false false))
    as (row' & w1 & Hres & _ & _ & Hem & _ & _ & _ & _ & _ & _ & Hphone & _ & Hadm & _).
  - repeat split; discriminate.
  - reflexivity.
  - exists row', w1. split; [exact Hres|].
    split; [exact Hadm|]. split; [exact Hem|exact Hphone].
Defined.

Lemma admin_paths_are_for_admins_witness :
  Users.middleware (Store.users Example.database) (Some "u1") "/admin/billing" = Users.Next
  ∧ Users.middleware (Store.users Example.database) (Some "u2") "/admin/billing"
    = Users.Redirect "/unathorized" None.
Proof.
  split.
  - apply (proj1 (admin_paths_are_for_admins (Store.users Example.database) (Some "u1")
                    "/admin/billing" eq_refl)).
    exists "u1", (Example.user "u1" "admin@hdms.rw" "h1" true false). by repeat split.
  - apply (proj2 (proj2 (admin_paths_are_for_admins (Store.users Example.database) (Some "u2")
                           "/admin/billing" eq_refl)) "u2"); reflexivity.
Defined.

Lemma admin_flag_takes_effect_witness :
  Users.middleware
    (Store.users (Auth.db (snd (Users.handleUpdateUser Example.env "u2" Example.promoteBody
                                  (Example.world (Some "u2") ∅)))))
    (Some "u2") "/admin/users"
  = Users.Next.
Proof.
  apply (admin_flag_takes_effect Example.env "u2" Example.promoteBody true
           (Example.world (Some "u2") ∅) (Example.user "u2" "doctor@hdms.rw" "h1" false false)
           "/admin/users").
  - repeat split; discriminate.
  - reflexivity.
  - reflexivity.
  - reflexivity.
Defined.

Lemma delete_user_blocked_by_diagnoses_witness :
  Users.handleDeleteUser "u2" (Example.world None ∅)
  = (Store.json_status
       (Store.ErrorBody "Cannot delete user with 1 associated diagnoses. Please reassign or delete the diagnoses first.")
       400, Example.world None ∅).
Proof.
  apply (delete_user_blocked_by_diagnoses "u2" (Example.world None ∅)). discriminate.
Defined.

Lemma nurse_email_is_u3 :
  Auth.emailOf (Auth.accounts (Example.world None ∅)) "u3" "nurse@hdms.rw".
Proof.
  intros a Ha Hem. vm_compute in Ha.
  repeat (apply elem_of_cons in Ha as [->|Ha]; [first [reflexivity|discriminate Hem]|]).
  by apply elem_of_nil in Ha.
Defined.

Lemma deleted_user_is_gone_witness :
  Auth.signInWithPassword
    (Auth.accounts (snd (Users.handleDeleteUser "u3" (Example.world None ∅))))
    "nurse@hdms.rw" "nurse-pw" = None.
Proof.
  pose proof (deleted_user_is_gone Example.env "u3" "nurse@hdms.rw" Example.disableBody
                (Example.world None ∅) eq_refl ltac:(discriminate) nurse_email_is_u3) as H.
  exact (proj1 (proj2 (proj2 (proj2 H))) "nurse-pw").
Defined.

(** ** Sign-in, further *)

Section SignInFurther.

Import Store Auth.

Context {Security : Type}.
Variable getRecentFailedLoginAttempts : Security → string → Attempts.
Variable recordFailedLoginAttempt : Security → string → Security.
Variable clearFailedLoginAttempts : Security → string → Security.
Variable updateLastLogin : Env → string → list UserRow → list UserRow.

Local Abbreviation signIn :=
  (signIn Security getRecentFailedLoginAttempts recordFailedLoginAttempt
     clearFailedLoginAttempts updateLastLogin).

Local Abbreviation letIn := (More.letIn getRecentFailedLoginAttempts).

(** X14: sign-in succeeds exactly when the security check passes with fewer
    than five failures, the provider accepts the password, the account has
    exactly one user row, that row is not disabled and the hospital given
    with the form, if any, is the row's. *)
Theorem signIn_succeeds_iff env (form : SignInForm) (w : World Security) :
  fst (signIn env form w) = SignInSuccess ↔ ∃ account row, letIn form w account row.
Proof.
  unfold More.letIn, Auth.signIn.
  destruct (Js.truthy (att_error _)) eqn:Herr.
  { split; [done|]. by intros (? & ? & ? & _). }
  destruct (5 <=? _) eqn:Hcount.
  { split; [done|]. intros (? & ? & _ & Hlt & _). apply Z.leb_le in Hcount. lia. }
  apply Z.leb_gt in Hcount. simpl.
  destruct (signInWithPassword _ _ _) as [account|] eqn:Hauth.
  2: { split; [done|]. by intros (? & ? & _ & _ & ? & _). }
  simpl. destruct (single _) as [row|] eqn:Hrow.
  2: { split; [done|]. intros (a & r & _ & _ & [= <-] & Hr & _). congruence. }
  destruct (u_is_disabled row) eqn:Hdis.
  { split; [done|]. intros (a & r & _ & _ & [= <-] & Hr & Hd & _). congruence. }
  destruct (Js.truthy (hospitalId form)) eqn:Hh; simpl.
  - destruct (bool_decide (u_hospital_id row = hospitalId form)) eqn:Hsame; simpl.
    + apply bool_decide_eq_true in Hsame. split; [|done]. intros _.
      exists account, row. by repeat split.
    + apply bool_decide_eq_false in Hsame. split; [done|].
      intros (a & r & _ & _ & [= <-] & Hr & _ & Hhosp).
      rewrite Hrow in Hr. injection Hr as <-. by destruct Hsame; apply Hhosp.
  - split; [|done]. intros _. exists account, row. by repeat split.
Qed.

(** X15: what a successful sign-in leaves behind: the session of the
    account, the failures of the email cleared, the last login stamped by
    the user service and exactly one new login record with the user, the
    time and the forwarded address ("unknown" when there is none); accounts,
    hospitals and diagnoses are as before. *)
Theorem signIn_success_effects env (form : SignInForm) (w : World Security) account row :
  letIn form w account row →
  let w' := snd (signIn env form w) in
  session w' = Some (acc_id account)
  ∧ security w' = clearFailedLoginAttempts (security w) (email form)
  ∧ users (db w') = updateLastLogin env (acc_id account) (users (db w))
  ∧ user_login_history (db w')
    = user_login_history (db w)
      ++ [ {| lr_user_id := acc_id account; lr_login_time := now env;
              lr_ip_address := Js.or_else (forwarded_for env) "unknown" |} ]
  ∧ accounts w' = accounts w
  ∧ hospitals (db w') = hospitals (db w)
  ∧ diagnoses (db w') = diagnoses (db w)
  ∧ password_checks w' = password_checks w ++ [email form].
Proof.
  intros (Herr & Hcount & Hauth & Hrow & Hen & Hhosp). unfold Auth.signIn.
  rewrite Herr, (proj2 (Z.leb_gt _ _) Hcount). simpl.
  rewrite Hauth. simpl. rewrite Hrow, Hen.
  destruct (Js.truthy (hospitalId form)) eqn:Ht; simpl.
  - rewrite (bool_decide_eq_true_2 _ (Hhosp eq_refl)). simpl. by repeat split.
  - by repeat split.
Qed.

(** X16: the two refusals after an accepted password. When the account has
    no user row (or more than one), sign-in answers "User profile not found"
    and does not sign out: the session of the account stays established.
    When the row is enabled but the form gives another hospital than the
    row's, sign-in answers "You do not have access to this hospital" and
    signs out. Neither changes a table. *)
Theorem signIn_refusals_after_accepted_password env (form : SignInForm)
  (w : World Security) account :
  Js.truthy (att_error (getRecentFailedLoginAttempts (security w) (email form))) = false →
  att_count (getRecentFailedLoginAttempts (security w) (email form)) < 5 →
  signInWithPassword (accounts w) (email form) (password form) = Some account →
  (single (eq_ u_id (acc_id account) (users (db w))) = None →
     fst (signIn env form w) = SignInError "User profile not found"
     ∧ session (snd (signIn env form w)) = Some (acc_id account)
     ∧ db (snd (signIn env form w)) = db w)
  ∧ (∀ row,
       single (eq_ u_id (acc_id account) (users (db w))) = Some row →
       u_is_disabled row = false →
       Js.truthy (hospitalId form) = true →
       u_hospital_id row ≠ hospitalId form →
       fst (signIn env form w) = SignInError "You do not have access to this hospital"
       ∧ session (snd (signIn env form w)) = None
       ∧ db (snd (signIn env form w)) = db w).
Proof.
  intros Herr Hcount Hauth. unfold Auth.signIn.
  rewrite Herr, (proj2 (Z.leb_gt _ _) Hcount). simpl.
  rewrite Hauth. simpl. split.
  - intros Hrow. by rewrite Hrow.
  - intros row Hrow Hen Hh Hne. rewrite Hrow, Hen, Hh. simpl.
    by rewrite (bool_decide_eq_false_2 _ Hne).
Qed.

(** X17: sign-in never changes an account, a hospital or a diagnosis, and a
    sign-in that fails changes no table at all. *)
Theorem signIn_failure_changes_no_table env (form : SignInForm) (w : World Security) :
  accounts (snd (signIn env form w)) = accounts w
  ∧ hospitals (db (snd (signIn env form w))) = hospitals (db w)
  ∧ diagnoses (db (snd (signIn env form w))) = diagnoses (db w)
  ∧ (failed (fst (signIn env form w)) = true → db (snd (signIn env form w)) = db w).
Proof.
  unfold Auth.signIn.
  destruct (Js.truthy (att_error _)); [done|].
  destruct (5 <=? _); [done|]. simpl.
  destruct (signInWithPassword _ _ _) as [account|]; [|done]. simpl.
  destruct (single _) as [row|]; [|done].
  destruct (u_is_disabled row); [done|].
  destruct (_ && _); [done|]. simpl. by repeat split.
Qed.

(** X18: the bookkeeping of failures: when the email is not locked, a
    rejected password is answered "Invalid login credentials", recorded with
    the security service and changes nothing else but the log of password
    checks; an accepted password clears the failures of the email, whatever
    the checks that follow decide. *)
Theorem signIn_records_and_clears env (form : SignInForm) (w : World Security) :
  Js.truthy (att_error (getRecentFailedLoginAttempts (security w) (email form))) = false →
  att_count (getRecentFailedLoginAttempts (security w) (email form)) < 5 →
  (signInWithPassword (accounts w) (email form) (password form) = None →
     signIn env form w
     = (SignInError "Invalid login credentials",
        with_security (recordFailedLoginAttempt (security w) (email form))
          (log_password_check (email form) w)))
  ∧ (is_Some (signInWithPassword (accounts w) (email form) (password form)) →
       security (snd (signIn env form w)) = clearFailedLoginAttempts (security w) (email form)).
Proof.
  intros Herr Hcount. unfold Auth.signIn.
  rewrite Herr, (proj2 (Z.leb_gt _ _) Hcount). simpl. split.
  - by intros ->.
  - intros [account ->]. simpl.
    destruct (single _) as [row|]; [|done].
    destruct (u_is_disabled row); [done|].
    by destruct (_ && _).
Qed.

End SignInFurther.

Section FlagQueries.

Import Store Auth Users More.

Context {Security : Type}.

(** X19: the disabled flag reads back: after a disable request that was
    answered 200 [isUserDisabled] reports true without error, after an
    enable request false; for an id without a row it reports false together
    with the error "Failed to check user status". *)
Theorem isUserDisabled_reads_back env uid body (w w1 : World Security) resp :
  handleUpdateUser env uid body w = (resp, w1) →
  (res_status resp = 200 → operation body = Some "disable" →
     isUserDisabled uid (db w1) = {| flag := true; flag_error := None |})
  ∧ (res_status resp = 200 → operation body = Some "enable" →
       isUserDisabled uid (db w1) = {| flag := false; flag_error := None |})
  ∧ (res_status resp = 404 →
       isUserDisabled uid (db w1)
       = {| flag := false; flag_error := Some "Failed to check user status" |}).
Proof.
  unfold handleUpdateUser, isUserDisabled.
  destruct (single (eq_ u_id uid (users (db w)))) as [row|] eqn:Hrow.
  - destruct (bool_decide (operation body = Some "disable")) eqn:Hd.
    { intros [= <- <-]. simpl. rewrite update_eq_matched by done.
      rewrite single_fmap, Hrow. simpl. apply bool_decide_eq_true in Hd.
      repeat split; try done. intros _ He. congruence. }
    destruct (bool_decide (operation body = Some "enable")) eqn:He.
    { intros [= <- <-]. simpl. rewrite update_eq_matched by done.
      rewrite single_fmap, Hrow. simpl. apply bool_decide_eq_false in Hd.
      repeat split; try done. }
    apply bool_decide_eq_false in Hd, He.
    destruct (bool_decide (operation body = Some "resetPassword")).
    + destruct (hasAccount uid (accounts w)).
      * intros [= <- <-]. simpl. repeat split; done.
      * intros [= <- <-]. simpl. repeat split; done.
    + intros [= <- <-]. simpl. repeat split; done.
  - intros [= <- <-]. simpl. rewrite Hrow. repeat split; done.
Qed.

(** X20: [isUserAdmin] and the guard agree: the guard lets a session through
    to a path under [/admin] exactly when [isUserAdmin] reports true for
    its user. *)
Theorem isUserAdmin_agrees_with_guard (d : Database) uid pathname :
  startsWith pathname "/admin" = true →
  (middleware (users d) (Some uid) pathname = Next ↔ flag (isUserAdmin uid d) = true).
Proof.
  intros Hadmin.
  destruct (admin_path_is_no_auth_route _ Hadmin) as (Hl & Hs & Hr & _).
  unfold middleware, isUserAdmin, notAdmin. rewrite Hadmin, Hl, Hs, Hr. simpl.
  destruct (single _) as [row|]; simpl; [|done].
  by destruct (u_is_admin row).
Qed.

End FlagQueries.

Lemma doctor_is_let_in :
  More.letIn Auth.counterAttempts Example.doctorForm (Example.world None ∅)
    (Example.account "u2" "doctor@hdms.rw" "doc-pw")
    (Example.user "u2" "doctor@hdms.rw" "h1" false false).
Proof. repeat split. Defined.

Lemma signIn_succeeds_iff_witness :
  fst (Example.signInExample Example.env Example.doctorForm (Example.world None ∅))
  = Auth.SignInSuccess.
Proof.
  apply (proj2 (signIn_succeeds_iff Auth.counterAttempts Auth.counterRecord Auth.counterClear
                  Auth.stampLastLogin Example.env Example.doctorForm (Example.world None ∅))).
  exists (Example.account "u2" "doctor@hdms.rw" "doc-pw"),
         (Example.user "u2" "doctor@hdms.rw" "h1" false false).
  exact doctor_is_let_in.
Defined.

Lemma signIn_success_effects_witness :
  Auth.session (snd (Example.signInExample Example.env Example.doctorForm
                       (Example.world None ∅))) = Some "u2".
Proof.
  apply (signIn_success_effects Auth.counterAttempts Auth.counterRecord Auth.counterClear
           Auth.stampLastLogin Example.env Example.doctorForm (Example.world None ∅)
           (Example.account "u2" "doctor@hdms.rw" "doc-pw")
           (Example.user "u2" "doctor@hdms.rw" "h1" false false) doctor_is_let_in).
Defined.

Lemma signIn_refusals_after_accepted_password_witness :
  fst (Example.signInExample Example.env Example.ghostForm Example.orphanWorld)
  = Auth.SignInError "User profile not found"
  ∧ Auth.session (snd (Example.signInExample Example.env Example.ghostForm Example.orphanWorld))
    = Some "u7".
Proof.
  destruct (signIn_refusals_after_accepted_password Auth.counterAttempts Auth.counterRecord
              Auth.counterClear Auth.stampLastLogin Example.env Example.ghostForm
              Example.orphanWorld (Example.account "u7" "ghost@hdms.rw" "ghost-pw"))
    as [Hprofile _]; [reflexivity|reflexivity|reflexivity|].
  destruct (Hprofile eq_refl) as (Hres & Hsession & _).
  split; [exact Hres|exact Hsession].
Defined.

Lemma signIn_failure_changes_no_table_witness :
  Auth.db (snd (Example.signInExample Example.env Example.wrongForm (Example.world None ∅)))
  = Example.database.
Proof.
  apply (signIn_failure_changes_no_table Auth.counterAttempts Auth.counterRecord
           Auth.counterClear Auth.stampLastLogin Example.env Example.wrongForm
           (Example.world None ∅)).
  reflexivity.
Defined.

Lemma signIn_records_and_clears_witness :
  Auth.security (snd (Example.signInExample Example.env Example.wrongForm
                        (Example.world None ∅)))
  = {[ "doctor@hdms.rw" := 1 ]}.
Proof.
  destruct (signIn_records_and_clears Auth.counterAttempts Auth.counterRecord
              Auth.counterClear Auth.stampLastLogin Example.env Example.wrongForm
              (Example.world None ∅)) as [Hrejected _];
    [reflexivity|reflexivity|].
  unfold Example.signInExample. rewrite (Hrejected eq_refl). reflexivity.
Defined.

Lemma isUserDisabled_reads_back_witness :
  More.isUserDisabled "u2" (Auth.db Example.afterDisable)
  = {| More.flag := true; More.flag_error := None |}.
Proof.
  apply (proj1 (isUserDisabled_reads_back Example.env "u2" Example.disableBody
                  (Example.world None ∅) Example.afterDisable _ eq_refl));
    reflexivity.
Defined.

Lemma isUserAdmin_agrees_with_guard_witness :
  More.flag (More.isUserAdmin "u1" Example.database) = true.
Proof.
  apply (proj1 (isUserAdmin_agrees_with_guard Example.database "u1" "/admin/support" eq_refl)).
  reflexivity.
Defined.

(** ** Support tickets, further *)

Section TicketProperties.

Import Store Support Tickets.

Lemma update_eq_absent {A} (f : A → A) (column : A → string) value (rows : list A) :
  eq_ column value rows = [] → update_eq f column value rows = rows.
Proof.
  unfold eq_, update_eq. induction rows as [|x rows IH]; [done|]. simpl.
  destruct (bool_decide (column x = value)); [discriminate|].
  intros Hrest. by rewrite IH.
Qed.

Lemma update_eq_fmap {A B} (f : A → A) (g : A → B) (column : A → string) value
  (rows : list A) :
  (∀ r, g (f r) = g r) → map g (update_eq f column value rows) = map g rows.
Proof.
  intros Hsame. unfold update_eq. rewrite map_map. apply map_ext. intros r.
  by destruct (bool_decide _).
Qed.

(** X21: setting the status of a ticket changes no response and no other
    ticket; the admin notes are replaced only when some are given; when no
    ticket has the id the answer is the error and nothing changes, and when
    exactly one has it the answer is that ticket with the new status. *)
Theorem updateSupportTicketStatus_writes_status env id st adminNotes (tickets : list Ticket) :
  let r := fst (updateSupportTicketStatus env id st adminNotes tickets) in
  let tickets' := snd (updateSupportTicketStatus env id st adminNotes tickets) in
  map t_responses tickets' = map t_responses tickets
  ∧ (∀ other, other ≠ id → eq_ t_id other tickets' = eq_ t_id other tickets)
  ∧ (eq_ t_id id tickets = [] →
     r = {| ticket := None; error := Some "Failed to update support ticket status" |}
     ∧ tickets' = tickets)
  ∧ (∀ row, single (eq_ t_id id tickets) = Some row →
       ∃ data, r = {| ticket := Some data; error := None |}
               ∧ single (eq_ t_id id tickets') = Some data
               ∧ t_status data = st
               ∧ t_responses data = t_responses row
               ∧ (Js.truthy adminNotes = false → t_admin_notes data = t_admin_notes row)
               ∧ (Js.truthy adminNotes = true → t_admin_notes data = adminNotes)).
Proof.
  unfold updateSupportTicketStatus. cbv zeta.
  rewrite update_eq_matched by done. rewrite single_fmap.
  destruct (single (eq_ t_id id tickets)) as [row|] eqn:Hone; simpl.
  - split; [by apply update_eq_fmap|].
    split; [intros other Hne; by apply update_eq_other|]. split.
    + intros Hnone. by rewrite Hnone in Hone.
    + intros row' [= <-]. eexists. split; [done|].
      split; [rewrite update_eq_matched by done; by rewrite single_fmap, Hone|]. simpl.
      repeat split; try done.
      * by intros ->.
      * by intros ->.
  - split; [by apply update_eq_fmap|].
    split; [intros other Hne; by apply update_eq_other|]. split; [|done].
    intros Hnone. split; [done|]. by apply update_eq_absent.
Qed.

(** X22: a response is appended, through the service function and through
    the API route alike: the ticket found under the id afterwards carries
    the earlier responses in their order followed by the one new entry,
    which holds the content, the admin mark and the time (and, through the
    route, the name of the admin or "Administrator"). *)
Theorem responses_are_appended env ticketId response isAdminResponse adminUserId
  (rows : list UserRow) (tickets : list Ticket) row :
  single (eq_ t_id ticketId tickets) = Some row →
  response ≠ "" →
  (t_responses
     <$> single (eq_ t_id ticketId
                   (snd (addSupportTicketResponse env ticketId response isAdminResponse tickets)))
   = Some (Some (default [] (t_responses row)
                 ++ [ {| r_id := fresh_id env; r_content := response;
                         r_is_admin_response := isAdminResponse; r_admin_name := None;
                         r_created_at := now env |} ])))
  ∧ (∃ name,
       t_responses
         <$> single (eq_ t_id ticketId
                       (snd (handleAddResponse env ticketId (Some response) adminUserId rows
                               tickets)))
       = Some (Some (default [] (t_responses row)
                     ++ [ {| r_id := fresh_id env; r_content := response;
                             r_is_admin_response := true; r_admin_name := Some name;
                             r_created_at := now env |} ]))
       ∧ name ≠ "").
Proof.
  intros Hrow Hresp. split.
  - unfold addSupportTicketResponse. rewrite Hrow. simpl.
    rewrite update_eq_matched by done. by rewrite single_fmap, Hrow.
  - unfold handleAddResponse. simpl. rewrite (bool_decide_eq_false_2 _ Hresp), Hrow. simpl.
    rewrite update_eq_matched by done. rewrite single_fmap, Hrow. simpl.
    eexists. split; [done|].
    unfold Js.or_else. destruct (u_full_name <$> _) as [n|]; [|done].
    destruct (bool_decide (n = "")) eqn:Hn; [done|]. by apply bool_decide_eq_false in Hn.
Qed.

(** X23: adding a response through the service function never writes a
    status, changes no other ticket, and for an id that does not name
    exactly one ticket answers with the error and changes nothing. *)
Theorem addSupportTicketResponse_touches_one_ticket env ticketId response isAdminResponse
  (tickets : list Ticket) :
  let r := fst (addSupportTicketResponse env ticketId response isAdminResponse tickets) in
  let tickets' := snd (addSupportTicketResponse env ticketId response isAdminResponse tickets) in
  map t_status tickets' = map t_status tickets
  ∧ (∀ other, other ≠ ticketId → eq_ t_id other tickets' = eq_ t_id other tickets)
  ∧ (single (eq_ t_id ticketId tickets) = None →
     r = {| ticket := None; error := Some "Failed to add response to support ticket" |}
     ∧ tickets' = tickets).
Proof.
  unfold addSupportTicketResponse.
  destruct (single (eq_ t_id ticketId tickets)) as [row|]; simpl.
  - rewrite andb_false_r. split; [by apply update_eq_fmap|].
    split; [|done]. intros other Hne. by apply update_eq_other.
  - done.
Qed.

Lemma map_sum_countBy key initial (tickets : list Ticket) :
  Billing.map_sum (countBy key initial tickets)
  = Billing.map_sum initial + Z.of_nat (length (counted key tickets)).
Proof.
  unfold countBy, counted. revert initial.
  induction tickets as [|t tickets IH]; intros initial; simpl.
  - lia.
  - destruct (Js.is_inherited (toLowerCase (key t))); simpl.
    + apply IH.
    + rewrite IH, map_sum_bump. lia.
Qed.

Lemma countBy_keeps_keys key initial (tickets : list Ticket) k :
  is_Some (initial !! k) → is_Some (countBy key initial tickets !! k).
Proof.
  unfold countBy. revert initial. induction tickets as [|t tickets IH]; intros initial Hk;
    simpl; [done|].
  apply IH. destruct (Js.is_inherited (toLowerCase (key t))); [done|].
  unfold Billing.bump. destruct (decide (toLowerCase (key t) = k)) as [->|Hne].
  - rewrite lookup_insert_eq. by eexists.
  - by rewrite lookup_insert_ne.
Qed.

Lemma counted_all key (tickets : list Ticket) :
  Forall (λ t, toLowerCase (key t) ∉ Js.inherited) tickets → counted key tickets = tickets.
Proof.
  unfold counted. induction 1 as [|t tickets Ht _ IH]; [done|]. simpl.
  unfold Js.is_inherited. rewrite (bool_decide_eq_false_2 _ Ht). simpl. f_equal. exact IH.
Qed.

(** X24: in the statistics of a user's tickets the counts per status add up
    to the number of the user's tickets whose lower-cased status names no
    member that objects inherit, and the counts per priority to the number
    of those whose lower-cased priority names none; when no status
    (priority) of the user's tickets names one, they add up to the total of
    the statistics, whatever else the statuses and priorities are. The
    four standard statuses and the three standard priorities are always
    listed. *)
Theorem ticket_counts_add_up getTime userId (table : list Ticket) :
  let stats := getUserSupportTicketStats getTime userId table in
  let mine := eq_ t_user_id userId table in
  totalTickets stats = Z.of_nat (length mine)
  ∧ Billing.map_sum (statusCounts stats) = Z.of_nat (length (counted t_status mine))
  ∧ Billing.map_sum (priorityCounts stats) = Z.of_nat (length (counted t_priority mine))
  ∧ (Forall (λ t, toLowerCase (t_status t) ∉ Js.inherited) mine →
     Billing.map_sum (statusCounts stats) = totalTickets stats)
  ∧ (Forall (λ t, toLowerCase (t_priority t) ∉ Js.inherited) mine →
     Billing.map_sum (priorityCounts stats) = totalTickets stats)
  ∧ Forall (λ k, is_Some (statusCounts stats !! k)) ["open"; "in-progress"; "resolved"; "closed"]
  ∧ Forall (λ k, is_Some (priorityCounts stats !! k)) ["low"; "medium"; "high"].
Proof.
  simpl. rewrite !map_sum_countBy.
  assert (Billing.map_sum
            ({[ "open" := 0; "in-progress" := 0; "resolved" := 0; "closed" := 0 ]}
               : gmap string Z) = 0) as -> by (by vm_compute).
  assert (Billing.map_sum
            ({[ "low" := 0; "medium" := 0; "high" := 0 ]} : gmap string Z) = 0) as ->
    by (by vm_compute).
  split; [done|]. split; [lia|]. split; [lia|].
  split; [intros Hplain; rewrite (counted_all _ _ Hplain); lia|].
  split; [intros Hplain; rewrite (counted_all _ _ Hplain); lia|].
  split.
  - repeat (apply Forall_cons_2; [apply countBy_keeps_keys; vm_compute; by eexists|]).
    apply Forall_nil_2.
  - repeat (apply Forall_cons_2; [apply countBy_keeps_keys; vm_compute; by eexists|]).
    apply Forall_nil_2.
Qed.

End TicketProperties.

(** ** The rows of an invoice *)

Section InvoiceRows.

Import Invoices More.

Lemma addToType_keys acc t c :
  map fst (addToType acc t c)
  = if bool_decide (t ∈ map fst acc) then map fst acc else map fst acc ++ [t].
Proof.
  induction acc as [|[k v] acc IH]; simpl; [done|].
  destruct (decide (k = t)) as [->|Hne].
  - rewrite bool_decide_eq_true_2 by done. simpl.
    rewrite bool_decide_eq_true_2; [done|left].
  - rewrite bool_decide_eq_false_2 by done. simpl. rewrite IH.
    destruct (decide (t ∈ map fst acc)) as [Hin|Hout].
    + rewrite (bool_decide_eq_true_2 _ Hin). by rewrite bool_decide_eq_true_2 by (by right).
    + rewrite (bool_decide_eq_false_2 _ Hout). rewrite bool_decide_eq_false_2; [done|].
      intros Hin. apply elem_of_cons in Hin as [->|Hin]; done.
Qed.

Lemma addToType_NoDup acc t c : NoDup (map fst acc) → NoDup (map fst (addToType acc t c)).
Proof.
  intros Hnd. rewrite addToType_keys. destruct (decide (t ∈ map fst acc)) as [Hin|Hout].
  - by rewrite bool_decide_eq_true_2.
  - rewrite bool_decide_eq_false_2 by done. apply NoDup_app. split; [done|].
    split; [|apply NoDup_singleton].
    intros x Hx Hx'. apply list_elem_of_singleton in Hx'. by subst.
Qed.

Lemma addToType_totals acc t c :
  totalCount (addToType acc t c) = totalCount acc + 1
  ∧ totalCost (addToType acc t c) = totalCost acc + c.
Proof.
  induction acc as [|[k v] acc [IHn IHc]]; simpl; [lia|].
  destruct (bool_decide (k = t)); simpl; lia.
Qed.

Lemma addToType_positive acc t c :
  Forall (λ e, 1 ≤ tt_count (snd e)) acc →
  Forall (λ e, 1 ≤ tt_count (snd e)) (addToType acc t c).
Proof.
  induction acc as [|[k v] acc IH]; intros Hall; simpl.
  - constructor; [simpl; lia|constructor].
  - apply Forall_cons in Hall as [Hv Hall]. simpl in Hv.
    destruct (bool_decide (k = t)); constructor; simpl; try done; [lia|by apply IH].
Qed.

Lemma addToType_has_key acc t c : t ∈ map fst (addToType acc t c).
Proof.
  rewrite addToType_keys. destruct (decide (t ∈ map fst acc)) as [Hin|Hout].
  - by rewrite bool_decide_eq_true_2.
  - rewrite bool_decide_eq_false_2 by done. apply elem_of_app. right. left.
Qed.

Lemma addToType_keeps_keys acc t c k : k ∈ map fst acc → k ∈ map fst (addToType acc t c).
Proof.
  intros Hk. rewrite addToType_keys. destruct (bool_decide _); [done|].
  apply elem_of_app. by left.
Qed.

(** The invariant of the grouping loop. *)
Lemma grouping_invariant ds acc :
  NoDup (map fst acc) →
  Forall (λ e, 1 ≤ tt_count (snd e)) acc →
  let groups := foldl groupStep acc ds in
  NoDup (map fst groups)
  ∧ Forall (λ e, 1 ≤ tt_count (snd e)) groups
  ∧ totalCount groups = totalCount acc + Z.of_nat (length (listed ds))
  ∧ totalCost groups = totalCost acc + snapshotCost (listed ds)
  ∧ (∀ k, k ∈ map fst groups ↔
          k ∈ map fst acc
          ∨ ∃ d, d ∈ listed ds ∧ Js.or_else (diagnosisType d) "Other" = k).
Proof.
  revert acc. induction ds as [|d ds IH]; intros acc Hnd Hpos; simpl.
  - repeat split; try done; try lia; [by left|].
    intros [Hk|(d & Hd & _)]; [done|by apply elem_of_nil in Hd].
  - unfold groupStep at 2 4 6 8 10. unfold listed. simpl.
    set (t := Js.or_else (diagnosisType d) "Other"). set (c := default 0 (cost d)).
    destruct (Js.is_inherited t) eqn:Hskip; simpl.
    { by apply IH. }
    destruct (IH (addToType acc t c) (addToType_NoDup _ _ _ Hnd) (addToType_positive _ _ _ Hpos))
      as (Hnd' & Hpos' & Hn & Hc & Hkeys).
    destruct (addToType_totals acc t c) as [Hn1 Hc1]. fold c.
    split; [done|]. split; [done|]. split; [unfold listed in Hn; lia|].
    split; [unfold listed in Hc; lia|].
    intros k. rewrite Hkeys. rewrite addToType_keys. split.
    + intros [Hk|(d' & Hd' & Ht)].
      * destruct (bool_decide (t ∈ map fst acc)); [by left|].
        apply elem_of_app in Hk as [Hk|Hk]; [by left|].
        apply list_elem_of_singleton in Hk. right. exists d. split; [left|done].
      * right. exists d'. split; [by right|done].
    + intros [Hk|(d' & Hd' & Ht)].
      * left. destruct (bool_decide (t ∈ map fst acc)); [done|].
        apply elem_of_app. by left.
      * apply elem_of_cons in Hd' as [->|Hd'].
        -- left. fold t in Ht. subst k.
           destruct (bool_decide (t ∈ map fst acc)) eqn:Hin.
           ++ by apply bool_decide_eq_true in Hin.
           ++ apply elem_of_app. right. left.
        -- right. by exists d'.
Qed.

Lemma insertByIndex_perm {A} n (x : A) l : insertByIndex n x l ≡ₚ (n, x) :: l.
Proof.
  induction l as [|[m y] l IH]; simpl; [done|].
  destruct (n <=? m)%N; [done|]. rewrite IH. apply Permutation_swap.
Qed.

Lemma entries_perm {A} (o : list (string * A)) : entries o ≡ₚ o.
Proof.
  unfold entries, indexEntries. induction o as [|e o IH]; simpl; [done|].
  destruct (arrayIndex (fst e)) as [n|] eqn:Hidx; simpl.
  - rewrite insertByIndex_perm. simpl. by rewrite IH.
  - rewrite <- Permutation_middle. by rewrite IH.
Qed.

Lemma totals_perm rows rows' :
  rows ≡ₚ rows' → totalCount rows = totalCount rows' ∧ totalCost rows = totalCost rows'.
Proof.
  induction 1 as [|x l l' _ [IHn IHc] | x y l | l l' l'' _ [IHn IHc] _ [IHn' IHc']];
    simpl; lia.
Qed.

(** X25: the rows of the invoice table account exactly for the diagnoses of
    the snapshot whose type (or "Other") names no member that objects
    inherit; the others get no row. There is one row per type and a type
    has a row exactly when such a diagnosis has it; the quantities add up
    to the number of these diagnoses and, for non-negative integer costs
    that sum to at most 2^53, the amounts add up to the sum of their costs;
    every quantity is at least one, so the unit price is never a division
    by zero. When no type names an inherited member, these are all the
    diagnoses. *)
Theorem invoice_rows_account_for_every_diagnosis (ds : list SnapshotDiagnosis) :
  let rows := entries (diagnosisByType ds) in
  rows ≡ₚ diagnosisByType ds
  ∧ NoDup (map fst rows)
  ∧ (∀ t, t ∈ map fst rows ↔
          ∃ d, d ∈ listed ds ∧ Js.or_else (diagnosisType d) "Other" = t)
  ∧ totalCount rows = Z.of_nat (length (listed ds))
  ∧ (exactCosts (listed ds) → totalCost rows = snapshotCost (listed ds))
  ∧ Forall (λ e, 1 ≤ tt_count (snd e)) rows
  ∧ (Forall (λ d, Js.or_else (diagnosisType d) "Other" ∉ Js.inherited) ds → listed ds = ds).
Proof.
  simpl. pose proof (entries_perm (diagnosisByType ds)) as Hperm.
  destruct (grouping_invariant ds [] (NoDup_nil_2) (Forall_nil_2 _))
    as (Hnd & Hpos & Hn & Hc & Hkeys).
  destruct (totals_perm _ _ Hperm) as [Hpn Hpc].
  split; [done|]. split; [by rewrite Hperm|].
  split.
  { intros t. rewrite Hperm. unfold diagnosisByType. rewrite Hkeys. simpl. split.
    - intros [Hk|Hk]; [by apply elem_of_nil in Hk|done].
    - by right. }
  split; [unfold diagnosisByType in *; simpl in *; lia|].
  split; [intros _; unfold diagnosisByType in *; simpl in *; lia|].
  split; [by rewrite Hperm|].
  clear. intros Hplain. unfold listed. induction Hplain as [|d ds' Hd _ IH]; [done|]. simpl.
  unfold Js.is_inherited. rewrite (bool_decide_eq_false_2 _ Hd). simpl. f_equal. exact IH.
Qed.

End InvoiceRows.

(** ** Diagnosis images *)

Section ImageProperties.

Import Store Images.

Lemma split_nonempty s : split s ≠ [].
Proof.
  destruct s as [|c rest]; simpl; [done|].
  destruct (bool_decide _); [done|]. by destruct (split rest).
Qed.

Lemma join_cons p part parts :
  join (p :: part :: parts) = p +:+ "/" +:+ join (part :: parts).
Proof. reflexivity. Qed.

Lemma join_split s : join (split s) = s.
Proof.
  induction s as [|c rest IH]; [done|]. simpl.
  destruct (bool_decide (c = "/"%char)) eqn:Hc.
  - apply bool_decide_eq_true in Hc. subst c.
    destruct (split rest) as [|part parts] eqn:Hs; [by destruct (split_nonempty rest)|].
    rewrite join_cons, IH. reflexivity.
  - destruct (split rest) as [|part parts] eqn:Hs; [by destruct (split_nonempty rest)|].
    destruct parts as [|part' parts].
    + unfold join in *. simpl in *. by rewrite IH.
    + rewrite join_cons in IH. rewrite <- IH. reflexivity.
Qed.

Lemma split_app a b : split (a +:+ String "/" b) = split a ++ split b.
Proof.
  induction a as [|c a IH]; simpl; [done|].
  destruct (bool_decide (c = "/"%char)).
  - by rewrite IH.
  - rewrite IH. destruct (split a) as [|part parts] eqn:Hs; [by destruct (split_nonempty a)|].
    reflexivity.
Qed.

Lemma split_plain s : "/"%char ∉ list_ascii_of_string s → split s = [s].
Proof.
  induction s as [|c rest IH]; simpl; [done|]. intros Hno.
  rewrite bool_decide_eq_false_2 by (intros ->; apply Hno; left).
  rewrite IH; [done|]. intros Hin. apply Hno. by right.
Qed.

Lemma indexOf_absent x parts : x ∉ parts → indexOf x parts = -1.
Proof.
  induction parts as [|p parts IH]; simpl; [done|]. intros Hno.
  rewrite bool_decide_eq_false_2 by (intros ->; apply Hno; left).
  rewrite IH by (intros Hin; apply Hno; by right). reflexivity.
Qed.

Lemma indexOf_first x before after :
  x ∉ before → indexOf x (before ++ x :: after) = Z.of_nat (length before).
Proof.
  induction before as [|p before IH]; simpl; intros Hno.
  - by rewrite bool_decide_eq_true_2.
  - rewrite bool_decide_eq_false_2 by (intros ->; apply Hno; left).
    rewrite IH by (intros Hin; apply Hno; by right).
    destruct (Z.of_nat (length before) <? 0) eqn:Hneg; [apply Z.ltb_lt in Hneg|]; lia.
Qed.

Lemma filePath_public base path :
  "diagnosis-images" ∉ split base →
  filePath (base +:+ "/diagnosis-images/" +:+ path) = path.
Proof.
  intros Hbase. unfold filePath.
  change (base +:+ "/diagnosis-images/" +:+ path)
    with (base +:+ String "/" ("diagnosis-images" +:+ String "/" path)).
  rewrite split_app, split_app. rewrite (split_plain "diagnosis-images").
  2: { vm_compute. intros Hin.
       repeat (apply elem_of_cons in Hin as [Hin|Hin]; [discriminate Hin|]).
       by apply elem_of_nil in Hin. }
  simpl. rewrite indexOf_first by done.
  replace (Z.to_nat (Z.of_nat (length (split base)) + 1)) with (S (length (split base)))
    by lia.
  change (split base ++ "diagnosis-images" :: split path)
    with (split base ++ ["diagnosis-images"] ++ split path).
  rewrite app_assoc.
  replace (S (length (split base))) with (length (split base ++ ["diagnosis-images"]))
    by (rewrite length_app; simpl; lia).
  rewrite drop_app_length. apply join_split.
Qed.

(** X26: the path under which an image is stored is recovered from its
    public URL: for a URL made of a base without a segment
    [diagnosis-images], that segment and a path, the extracted file path is
    the path; a URL that has no such segment is returned whole. *)
Theorem filePath_round_trip :
  (∀ base path, "diagnosis-images" ∉ split base →
                filePath (base +:+ "/diagnosis-images/" +:+ path) = path)
  ∧ (∀ url, "diagnosis-images" ∉ split url → filePath url = url).
Proof.
  split; [apply filePath_public|].
  intros url Hno. unfold filePath. rewrite indexOf_absent by done. simpl.
  apply join_split.
Qed.

(** The file name of an upload: a cleaned name has as many code units as the
    original, all of them ASCII letters, digits, dots, hyphens or
    underscores, so it holds no slash; cleaning a cleaned name changes
    nothing. *)
Lemma replaceUnsafe_is_safe (name : list N) :
  length (replaceUnsafe name) = length name
  ∧ Forall (λ c, safeUnit c = true ∨ c = 95%N) (replaceUnsafe name)
  ∧ ((47%N : N) ∉ replaceUnsafe name)
  ∧ replaceUnsafe (replaceUnsafe name) = replaceUnsafe name.
Proof.
  unfold replaceUnsafe. split; [apply length_map|].
  assert (Forall (λ c, safeUnit c = true ∨ c = 95%N)
            (map (λ c, if safeUnit c then c else 95%N) name)) as Hsafe.
  { apply Forall_fmap, Forall_true. intros c. simpl.
    destruct (safeUnit c) eqn:Hc; [by left|by right]. }
  split; [done|]. split.
  - intros Hin. rewrite Forall_forall in Hsafe.
    destruct (Hsafe _ Hin) as [Hc|Hc]; discriminate Hc.
  - rewrite map_map. apply map_ext. intros c.
    destruct (safeUnit c) eqn:Hc; [by rewrite Hc|reflexivity].
Qed.

Lemma delete_eq_other {A} (column : A → string) value other (rows : list A) :
  other ≠ value → eq_ column other (delete_eq column value rows) = eq_ column other rows.
Proof.
  intros Hne. unfold eq_, delete_eq. induction rows as [|x rows IH]; [done|]. simpl.
  destruct (decide (column x = value)) as [Hx|Hx].
  - rewrite (bool_decide_eq_true_2 _ Hx). simpl.
    rewrite bool_decide_eq_false_2 by congruence. done.
  - rewrite (bool_decide_eq_false_2 _ Hx). simpl. by rewrite IH.
Qed.

Lemma delete_eq_absent {A} (column : A → string) value (rows : list A) :
  eq_ column value rows = [] → delete_eq column value rows = rows.
Proof.
  unfold eq_, delete_eq. induction rows as [|x rows IH]; [done|]. simpl.
  destruct (bool_decide (column x = value)); [discriminate|]. simpl.
  intros Hrest. by rewrite IH.
Qed.

(** X27: deleting a diagnosis whose image links are public URLs of the
    bucket removes exactly the stored images those URLs name together with
    the row: no row keeps the id, every other row stays, and an object stays
    in the bucket exactly when it is none of the named paths. *)
Theorem delete_diagnosis_removes_its_images base diagnosisId paths (m : Media) :
  diagnosisId ≠ "" →
  "diagnosis-images" ∉ split base →
  paths ≠ [] →
  single (eq_ id diagnosisId (diagnoses m))
  = Some {| id := diagnosisId;
            image_links := Some (map (λ p, base +:+ "/diagnosis-images/" +:+ p) paths) |} →
  let m' := snd (handleDeleteDiagnosis (Some diagnosisId) m) in
  fst (handleDeleteDiagnosis (Some diagnosisId) m)
  = json (MessageBody "Diagnosis deleted successfully")
  ∧ eq_ id diagnosisId (diagnoses m') = []
  ∧ (∀ other, other ≠ diagnosisId →
       eq_ id other (diagnoses m') = eq_ id other (diagnoses m))
  ∧ (∀ o, o ∈ objects m' ↔ o ∈ objects m ∧ o ∉ paths).
Proof.
  intros Hid Hbase Hpaths Hrow. unfold handleDeleteDiagnosis. simpl.
  rewrite (bool_decide_eq_false_2 _ Hid). simpl. rewrite Hrow. simpl.
  rewrite length_map.
  destruct paths as [|p paths]; [done|]. simpl.
  split; [done|]. split.
  { apply eq_absent. intros r Hr. by apply elem_of_delete_eq in Hr as [_ ?]. }
  split; [intros other Hne; by apply delete_eq_other|].
  intros o. unfold remove. rewrite !list_elem_of_In, filter_In, <- !list_elem_of_In.
  rewrite negb_true_iff, bool_decide_eq_false.
  rewrite !(filePath_public base) by done.
  assert (map filePath (map (λ p0, base +:+ "/diagnosis-images/" +:+ p0) paths) = paths) as ->.
  { rewrite map_map. rewrite <- (map_id paths) at 2. apply map_ext.
    intros q. by apply filePath_public. }
  done.
Qed.

(** X28: a DELETE for an id that no diagnosis carries is answered with the
    success message all the same, and changes neither the table nor the
    bucket. *)
Theorem delete_unknown_diagnosis_succeeds diagnosisId (m : Media) :
  diagnosisId ≠ "" →
  eq_ id diagnosisId (diagnoses m) = [] →
  handleDeleteDiagnosis (Some diagnosisId) m
  = (json (MessageBody "Diagnosis deleted successfully"), m).
Proof.
  intros Hid Hnone. unfold handleDeleteDiagnosis. simpl.
  rewrite (bool_decide_eq_false_2 _ Hid). simpl. rewrite Hnone. simpl.
  rewrite delete_eq_absent by done. by destruct m.
Qed.

End ImageProperties.

(** ** Creating a user *)

Section UserCreationProperties.

Import Store Auth UserCreation.

Context {Security : Type}.
Variable getRecentFailedLoginAttempts : Security → string → Attempts.
Variable recordFailedLoginAttempt : Security → string → Security.
Variable clearFailedLoginAttempts : Security → string → Security.
Variable updateLastLogin : Env → string → list UserRow → list UserRow.
Variable emailTaken : string.

Local Abbreviation signIn :=
  (signIn Security getRecentFailedLoginAttempts recordFailedLoginAttempt
     clearFailedLoginAttempts updateLastLogin).

Local Abbreviation handler := (handler emailTaken).

Lemma find_last_added {A} (f : A → bool) (l : list A) (a : A) :
  List.find f l = None → f a = true → List.find f (l ++ [a]) = Some a.
Proof.
  induction l as [|x l IH]; simpl; intros Hnone Ha; [by rewrite Ha|].
  destruct (f x); [discriminate|]. by apply IH.
Qed.

(** What a created user implies about the request and the backend. *)
Lemma handler_created env method body user (w w' : World Security) row pw :
  handler env method body user w = (Created row pw, w') →
  Users.notAdmin (user ≫= λ id, single (eq_ u_id id (users (db w)))) = false
  ∧ method = "POST"
  ∧ Js.truthy (cb_hospitalId body) = true
  ∧ List.find (λ a, bool_decide (acc_email a = u_email row)) (accounts w) = None
  ∧ pw = temporaryPassword env
  ∧ u_id row = fresh_id env
  ∧ u_hospital_id row = cb_hospitalId body
  ∧ u_is_admin row = false ∧ u_is_verified row = false ∧ u_is_disabled row = false
  ∧ w' = with_db (set_users (users (db w) ++ [row]) (db w))
           (with_accounts (accounts w ++ [ {| acc_id := fresh_id env; acc_email := u_email row;
                                             acc_password := temporaryPassword env;
                                             acc_disabled := None |} ]) w).
Proof.
  unfold UserCreation.handler.
  destruct (Users.notAdmin _) eqn:Hadmin; [discriminate|].
  destruct (bool_decide (method = "POST")) eqn:Hmethod; [|discriminate].
  apply bool_decide_eq_true in Hmethod. simpl.
  destruct (Js.falsy (cb_email body)) eqn:He; [discriminate|].
  destruct (Js.falsy (cb_fullName body)) eqn:Hn; [discriminate|].
  destruct (Js.falsy (cb_hospitalId body)) eqn:Hh; [discriminate|]. simpl.
  destruct (single _) as [existing|]; [discriminate|].
  destruct (List.find _ (accounts w)) as [registered|] eqn:Hfind; [discriminate|].
  intros [= <- <- <-]. simpl.
  repeat split; try done.
  unfold Js.truthy. by rewrite Hh.
Qed.

(** X29: a user is created only for a caller whose own row says admin and
    only by POST; the new row is appended to the users and the new account
    to the provider's accounts, the row is neither admin nor verified nor
    disabled, and nothing else changes. A request refused with a status
    below 500 changes nothing. When every check passes but the provider
    already has an account under the email, the request is refused 500 with
    the provider's message and changes nothing. *)
Theorem create_user_outcomes env method body user (w : World Security) :
  (∀ row pw w',
     handler env method body user w = (Created row pw, w') →
     (∃ caller admin, user = Some caller
                      ∧ single (eq_ u_id caller (users (db w))) = Some admin
                      ∧ u_is_admin admin = true)
     ∧ method = "POST"
     ∧ users (db w') = users (db w) ++ [row]
     ∧ accounts w' = accounts w ++ [ {| acc_id := u_id row; acc_email := u_email row;
                                       acc_password := pw; acc_disabled := None |} ]
     ∧ u_is_admin row = false ∧ u_is_verified row = false ∧ u_is_disabled row = false
     ∧ hospitals (db w') = hospitals (db w)
     ∧ diagnoses (db w') = diagnoses (db w)
     ∧ user_login_history (db w') = user_login_history (db w)
     ∧ session w' = session w
     ∧ security w' = security w)
  ∧ (∀ message status w',
       handler env method body user w = (Refused message status, w') →
       status < 500 → w' = w)
  ∧ (∀ email_ registered,
       Users.notAdmin (user ≫= λ id, single (eq_ u_id id (users (db w)))) = false →
       method = "POST" →
       cb_email body = Some email_ → email_ ≠ "" →
       Js.truthy (cb_fullName body) = true → Js.truthy (cb_hospitalId body) = true →
       single (eq_ u_email email_ (users (db w))) = None →
       registered ∈ accounts w → acc_email registered = email_ →
       handler env method body user w = (Refused emailTaken 500, w)).
Proof.
  split; [|split].
  - intros row pw w' Hres.
    apply handler_created in Hres
      as (Hadmin & Hmethod & _ & _ & -> & Hid & _ & Ha & Hv & Hd & ->).
    split.
    { destruct user as [caller|]; [|discriminate]. simpl in Hadmin.
      destruct (single _) as [admin|] eqn:Hrow; [|discriminate]. simpl in Hadmin.
      exists caller, admin. repeat split; [done|]. by destruct (u_is_admin admin). }
    rewrite Hid. simpl. by repeat split.
  - intros message status w'. unfold UserCreation.handler.
    repeat (match goal with
            | |- context [if ?b then _ else _] => destruct b
            | |- context [match ?o with Some _ => _ | None => _ end] => destruct o
            end; simpl; try (by intros [= <- <- <-]); try discriminate).
  - intros email_ registered Hadmin -> Hemail Hne Hname Hhospital Hnone Hin Hreg.
    unfold UserCreation.handler. rewrite Hadmin. simpl.
    unfold Js.truthy in Hname, Hhospital. apply negb_true_iff in Hname, Hhospital.
    rewrite Hname, Hhospital, Hemail. simpl.
    rewrite (bool_decide_eq_false_2 _ Hne). simpl. rewrite Hnone.
    destruct (List.find _ (accounts w)) as [a|] eqn:Hfind; [done|].
    apply list_elem_of_In in Hin.
    pose proof (find_none _ _ Hfind _ Hin) as Hno. simpl in Hno.
    by rewrite (bool_decide_eq_true_2 _ Hreg) in Hno.
Qed.

(** X30: a created user can sign in at once with the temporary password
    that the answer carries, giving no hospital or the hospital of the
    request, as long as the provider's new id is the id of no user row and
    the email is not locked; the new session is the new user's. *)
Theorem created_user_can_sign_in env env' method body user (w w' : World Security)
  row pw hosp :
  handler env method body user w = (Created row pw, w') →
  eq_ u_id (fresh_id env) (users (db w)) = [] →
  Js.truthy (att_error (getRecentFailedLoginAttempts (security w) (u_email row))) = false →
  att_count (getRecentFailedLoginAttempts (security w) (u_email row)) < 5 →
  (Js.truthy hosp = true → hosp = cb_hospitalId body) →
  let form := {| email := u_email row; password := pw; hospitalId := hosp |} in
  fst (signIn env' form w') = SignInSuccess
  ∧ session (snd (signIn env' form w')) = Some (u_id row).
Proof.
  intros Hres Hfresh Herr Hcount Hhosp form.
  apply handler_created in Hres
    as (_ & _ & _ & Hfind & -> & Hid & Hrowhosp & _ & _ & Hd & ->).
  rewrite Hid.
  apply (signIn_enabled getRecentFailedLoginAttempts recordFailedLoginAttempt
           clearFailedLoginAttempts updateLastLogin env' form _
           {| acc_id := fresh_id env; acc_email := u_email row;
              acc_password := temporaryPassword env; acc_disabled := None |} row).
  - exact Herr.
  - exact Hcount.
  - simpl. unfold signInWithPassword.
    rewrite (find_last_added _ _ _ Hfind) by (simpl; by apply bool_decide_eq_true_2).
    simpl. by rewrite bool_decide_eq_true_2.
  - simpl. unfold eq_ in *. rewrite List.filter_app, Hfresh. simpl.
    by rewrite (bool_decide_eq_true_2 _ Hid).
  - exact Hd.
  - simpl. intros Ht. rewrite Hrowhosp. symmetry. by apply Hhosp.
Qed.

End UserCreationProperties.

(** ** The further properties at the worked data *)

Lemma updateSupportTicketStatus_writes_status_witness :
  ∃ data,
    fst (Tickets.updateSupportTicketStatus Example.env "t1" "resolved" (Some "Fixed")
           Tickets.exampleTickets)
    = {| Support.ticket := Some data; Support.error := None |}
    ∧ Support.t_status data = "resolved".
Proof.
  destruct (updateSupportTicketStatus_writes_status Example.env "t1" "resolved" (Some "Fixed")
              Tickets.exampleTickets) as (_ & _ & _ & Hone).
  destruct (Hone (Tickets.ticketOf "t1" "u2" "open" "High") eq_refl)
    as (data & Hr & _ & Hst & _).
  exists data. split; [exact Hr|exact Hst].
Defined.

Lemma responses_are_appended_witness :
  Support.t_responses
    <$> Store.single
          (Store.eq_ Support.t_id "t1"
             (snd (Support.addSupportTicketResponse Example.env "t1" "Try again" true
                     [Support.openTicket])))
  = Some (Some [ {| Support.r_id := "h9"; Support.r_content := "Try again";
                    Support.r_is_admin_response := true; Support.r_admin_name := None;
                    Support.r_created_at := "2024-02-01T08:00:00.000Z" |} ]).
Proof.
  refine (proj1 (responses_are_appended Example.env "t1" "Try again" true (Some "u1")
                   (Store.users Example.database) [Support.openTicket] Support.openTicket
                   eq_refl _)).
  discriminate.
Defined.

Lemma addSupportTicketResponse_touches_one_ticket_witness :
  snd (Support.addSupportTicketResponse Example.env "t9" "Hello" false [Support.openTicket])
  = [Support.openTicket].
Proof.
  destruct (addSupportTicketResponse_touches_one_ticket Example.env "t9" "Hello" false
              [Support.openTicket]) as (_ & _ & Hnone).
  exact (proj2 (Hnone eq_refl)).
Defined.

Lemma ticket_counts_add_up_witness :
  Billing.map_sum
    (Tickets.statusCounts
       (Tickets.getUserSupportTicketStats (λ _, 0) "u2" Tickets.exampleTickets)) = 3.
Proof.
  destruct (ticket_counts_add_up (λ _, 0) "u2" Tickets.exampleTickets)
    as (_ & _ & _ & Hstatus & _).
  apply Hstatus.
  repeat (apply Forall_cons_2; [apply (bool_decide_unpack _); vm_compute; exact I|]).
  apply Forall_nil_2.
Defined.

Lemma invoice_rows_account_for_every_diagnosis_witness :
  More.totalCost
    (Invoices.entries
       (Invoices.diagnosisByType
          (default [] (Invoices.det_diagnoses Invoices.exampleDetails))))
  = 40000
  ∧ "MRI" ∈ map fst
              (Invoices.entries
                 (Invoices.diagnosisByType
                    (default [] (Invoices.det_diagnoses Invoices.exampleDetails)))).
Proof.
  destruct (invoice_rows_account_for_every_diagnosis
              (default [] (Invoices.det_diagnoses Invoices.exampleDetails)))
    as (_ & _ & Htypes & _ & Hcost & _).
  split.
  - apply Hcost. split.
    + repeat (apply Forall_cons_2; [vm_compute; discriminate|]). apply Forall_nil_2.
    + vm_compute. discriminate.
  - apply Htypes.
    exists {| Invoices.sd_id := "d2"; Invoices.diagnosisType := Some "MRI";
              Invoices.cost := Some 20000 |}.
    split; [right; left|reflexivity].
Defined.

Lemma filePath_round_trip_witness :
  Images.filePath (Images.publicUrl "d1/17-scan.png") = "d1/17-scan.png".
Proof.
  refine (proj1 filePath_round_trip "https://hdms.supabase.co/storage/v1/object/public"
            "d1/17-scan.png" _).
  apply (bool_decide_unpack _). vm_compute. exact I.
Defined.

Lemma delete_diagnosis_removes_its_images_witness :
  Store.eq_ Images.id "d1"
    (Images.diagnoses (snd (Images.handleDeleteDiagnosis (Some "d1") Images.exampleMedia)))
  = [].
Proof.
  refine (proj1 (proj2 (delete_diagnosis_removes_its_images
                          "https://hdms.supabase.co/storage/v1/object/public" "d1"
                          [ "d1/17-scan.png"; "d1/18-scan_2.png" ] Images.exampleMedia
                          _ _ _ _))).
  - discriminate.
  - apply (bool_decide_unpack _). vm_compute. exact I.
  - discriminate.
  - reflexivity.
Defined.

Lemma delete_unknown_diagnosis_succeeds_witness :
  Images.handleDeleteDiagnosis (Some "d9") Images.exampleMedia
  = (Store.json (Store.MessageBody "Diagnosis deleted successfully"), Images.exampleMedia).
Proof.
  apply delete_unknown_diagnosis_succeeds; [discriminate|reflexivity].
Defined.

Lemma create_user_outcomes_witness :
  UserCreation.handler "A user with this email address has already been registered"
    Example.env "POST"
    {| UserCreation.cb_email := Some "ghost@hdms.rw"; UserCreation.cb_fullName := Some "Ghost";
       UserCreation.cb_hospitalId := Some "h1"; UserCreation.cb_role := None;
       UserCreation.cb_expertise := None; UserCreation.cb_phone := None |}
    (Some "u1") Example.orphanWorld
  = (UserCreation.Refused "A user with this email address has already been registered" 500,
     Example.orphanWorld).
Proof.
  destruct (create_user_outcomes "A user with this email address has already been registered"
              Example.env "POST"
              {| UserCreation.cb_email := Some "ghost@hdms.rw";
                 UserCreation.cb_fullName := Some "Ghost";
                 UserCreation.cb_hospitalId := Some "h1"; UserCreation.cb_role := None;
                 UserCreation.cb_expertise := None; UserCreation.cb_phone := None |}
              (Some "u1") Example.orphanWorld) as (_ & _ & Hprovider).
  apply (Hprovider "ghost@hdms.rw" (Example.account "u7" "ghost@hdms.rw" "ghost-pw"));
    try reflexivity; try discriminate.
  left.
Defined.

Lemma created_user_can_sign_in_witness :
  fst (Example.signInExample Example.env
         {| Auth.email := "intern@hdms.rw"; Auth.password := "Tmp-4821";
            Auth.hospitalId := Some "h2" |}
         (snd (UserCreation.handler "A user with this email address has already been registered"
                 Example.env "POST" UserCreation.exampleBody (Some "u1")
                 (Example.world (Some "u1") ∅))))
  = Auth.SignInSuccess.
Proof.
  refine (proj1 (created_user_can_sign_in Auth.counterAttempts Auth.counterRecord
                   Auth.counterClear Auth.stampLastLogin
                   "A user with this email address has already been registered"
                   Example.env Example.env "POST" UserCreation.exampleBody (Some "u1")
                   (Example.world (Some "u1") ∅)
                   (snd (UserCreation.handler
                           "A user with this email address has already been registered"
                           Example.env "POST" UserCreation.exampleBody (Some "u1")
                           (Example.world (Some "u1") ∅)))
                   {| Store.u_id := "h9"; Store.u_email := "intern@hdms.rw";
                      Store.u_full_name := "Intern"; Store.u_hospital_id := Some "h2";
                      Store.u_expertise := None; Store.u_phone := None;
                      Store.u_is_verified := false; Store.u_is_admin := false;
                      Store.u_is_disabled := false; Store.u_last_login := None;
                      Store.u_updated_at := "2024-02-01T08:00:00.000Z" |}
                   "Tmp-4821" (Some "h2") _ _ _ _ _)).
  - reflexivity.
  - reflexivity.
  - reflexivity.
  - reflexivity.
  - reflexivity.
Defined.
